(** * Card-on-file test harness: local mirror, webhook reconciler and route handlers

    A shallow embedding of the TypeScript sources

    - [lib/data.ts]         the two JSON-file stores (customers, payment methods),
    - [types/stripe.ts]     the record types kept in those stores,
    - [api/webhooks/stripe] the webhook handler and its six event handlers,
    - [api/customers], [api/payment-methods], [api/payment-intent],
      [api/setup-intent]    the client-facing route handlers,
    - [OffSessionPayment]   the request the off-session form and its retry send.

    The provider SDK is an oracle (a record of functions, one per SDK call);
    every handler runs in a small monad that threads the two files and a trace
    of provider calls and file writes, and that has JavaScript's [throw] and
    [try]/[catch].

    What is taken for granted: request bodies have the fields and types the
    request interfaces declare (a field may be absent); reading and writing
    the two files does not fail; numbers are exact.  A handler suspends only
    at provider calls, and its store accesses are synchronous: a handler run
    is one step, and in every handler the writes come in one block after the
    last provider call. *)

From Stdlib Require Import ZArith QArith Qround.
From Equations Require Import Equations.
From stdpp Require Import base option list strings.

Open Scope Z_scope.
Open Scope string_scope.

(** ** Record types ([types/stripe.ts]) *)

(** [SavedPaymentMethod.card]. *)
Record Card := mkCard {
  brand : string;
  last4 : string;
  exp_month : Z;
  exp_year : Z }.

(** [SavedPaymentMethod]; the field [type] is the constant ['card'] and is
    left out. [isDefault] is declared optional, hence [option bool]. *)
Record SavedPaymentMethod := mkSavedPaymentMethod {
  pm_id : string;
  pm_customerId : string;
  pm_card : Card;
  pm_created : Z;
  pm_isDefault : option bool }.

(** [CustomerData]. *)
Record CustomerData := mkCustomerData {
  c_id : string;
  c_email : string;
  c_name : string;
  c_created : Z;
  c_paymentMethods : list SavedPaymentMethod }.

(** ** The stores as functions on the parsed file content ([lib/data.ts])

    Each store method reads the whole file ([getAll]), computes a new array
    and writes it back.  The functions below are the computations on the
    array; the monadic wrappers further down add the read and the write. *)

Module CustomerDataStore.

Definition getById (id : string) (customers : list CustomerData)
  : option CustomerData :=
  snd <$> list_find (λ customer, c_id customer = id) customers.

Definition getByEmail (email : string) (customers : list CustomerData)
  : option CustomerData :=
  snd <$> list_find (λ customer, c_email customer = email) customers.

(** [findIndex] then either [customers[existingIndex] = customer] or
    [customers.push(customer)]. *)
Definition save (customer : CustomerData) (customers : list CustomerData)
  : list CustomerData :=
  match list_find (λ c, c_id c = c_id customer) customers with
  | Some (existingIndex, _) => <[existingIndex := customer]> customers
  | None => customers ++ [customer]
  end.

(** [delete] returns the array that the file holds afterwards and the
    boolean result; the file is written only when a record was dropped. *)
Definition delete (id : string) (customers : list CustomerData)
  : list CustomerData * bool :=
  let filteredCustomers := filter (λ c, c_id c ≠ id) customers in
  if decide (length filteredCustomers < length customers)%nat
  then (filteredCustomers, true)
  else (customers, false).

End CustomerDataStore.

Module PaymentMethodDataStore.

Definition getByCustomerId (customerId : string)
    (paymentMethods : list SavedPaymentMethod) : list SavedPaymentMethod :=
  filter (λ pm, pm_customerId pm = customerId) paymentMethods.

Definition getById (id : string) (paymentMethods : list SavedPaymentMethod)
  : option SavedPaymentMethod :=
  snd <$> list_find (λ pm, pm_id pm = id) paymentMethods.

Definition save (paymentMethod : SavedPaymentMethod)
    (paymentMethods : list SavedPaymentMethod) : list SavedPaymentMethod :=
  match list_find (λ pm, pm_id pm = pm_id paymentMethod) paymentMethods with
  | Some (existingIndex, _) => <[existingIndex := paymentMethod]> paymentMethods
  | None => paymentMethods ++ [paymentMethod]
  end.

Definition delete (id : string) (paymentMethods : list SavedPaymentMethod)
  : list SavedPaymentMethod * bool :=
  let filteredPaymentMethods := filter (λ pm, pm_id pm ≠ id) paymentMethods in
  if decide (length filteredPaymentMethods < length paymentMethods)%nat
  then (filteredPaymentMethods, true)
  else (paymentMethods, false).

(** [pm.isDefault = b] on one record. *)
Definition set_isDefault (b : bool) (pm : SavedPaymentMethod)
  : SavedPaymentMethod :=
  mkSavedPaymentMethod (pm_id pm) (pm_customerId pm) (pm_card pm)
                       (pm_created pm) (Some b).

(** The [forEach] that clears the flag on the customer's records. *)
Definition clearDefaults (customerId : string)
    (paymentMethods : list SavedPaymentMethod) : list SavedPaymentMethod :=
  (λ pm, if decide (pm_customerId pm = customerId)
         then set_isDefault false pm else pm) <$> paymentMethods.

(** [setAsDefault]: clear, then [find] the target by id alone and set its
    flag.  The objects are mutated in place in the source, so the target is
    looked up in the array that already carries the cleared flags. *)
Definition setAsDefault (paymentMethodId customerId : string)
    (paymentMethods : list SavedPaymentMethod) : list SavedPaymentMethod :=
  let cleared := clearDefaults customerId paymentMethods in
  match list_find (λ pm, pm_id pm = paymentMethodId) cleared with
  | Some (i, targetPm) => <[i := set_isDefault true targetPm]> cleared
  | None => cleared
  end.

End PaymentMethodDataStore.

(** ** Predicates on the mirror *)

(** The records of [customerId] whose [isDefault] is [true]. *)
Definition defaultsOf (customerId : string) (pms : list SavedPaymentMethod)
  : list SavedPaymentMethod :=
  filter (λ pm, pm_customerId pm = customerId ∧ pm_isDefault pm = Some true) pms.

(** At most one default instrument per customer. *)
Definition oneDefault (pms : list SavedPaymentMethod) : Prop :=
  ∀ customerId, (length (defaultsOf customerId pms) ≤ 1)%nat.

(** At most one record per id. *)
Definition uniqueIds {A} (key : A → string) (l : list A) : Prop :=
  NoDup (key <$> l).

(** ** JavaScript values the handlers inspect *)

(** A thrown value: an [Error] (the SDK's errors extend it) carrying its
    [message], or anything else; the handlers only ask [instanceof Error]
    and read [message]. *)
Inductive Thrown :=
| ThrownError (message : string)
| ThrownOther.

Inductive Result (A : Type) :=
| Ok (a : A)
| Throw (t : Thrown).
Arguments Ok {A} a.
Arguments Throw {A} t.

(** An expandable reference of the SDK: [string | { id }]. *)
Inductive Expandable :=
| ExpId (id : string)
| ExpObject (id : string).

(** [typeof x === 'string' ? x : x.id] *)
Definition expandable_id (x : Expandable) : string :=
  match x with ExpId id => id | ExpObject id => id end.

(** Truthiness of [string | object | null]: [null] and [''] are falsy. *)
Definition truthy_ref (x : option Expandable) : option Expandable :=
  match x with
  | Some (ExpId EmptyString) => None
  | _ => x
  end.

(** Truthiness of an optional string field or query parameter. *)
Definition truthy_str (x : option string) : option string :=
  match x with
  | Some EmptyString => None
  | _ => x
  end.

(** [x || d] on strings and numbers. *)
Definition or_str (x : option string) (d : string) : string :=
  default d (truthy_str x).
Definition or_num (x : option Z) (d : Z) : Z :=
  match x with
  | Some n => if decide (n = 0) then d else n
  | None => d
  end.

(** A string between double quotes, as it appears inside a message. *)
Definition quoted (s : string) : string :=
  String (Ascii.ascii_of_nat 34) (s +:+ String (Ascii.ascii_of_nat 34) EmptyString).

(** [hay.includes(needle)] *)
Definition includes (hay needle : string) : bool :=
  bool_decide (is_Some (String.index 0 needle hay)).

(** [Math.round] on an exact rational.  The code rounds the binary64 product
    [amount * 100]; that product is not modelled, and the two differ at
    some amounts (1.005 is sent as 100 by the code).  Nothing below is
    stated about the value sent except at 25, where the product is exact. *)
Definition Math_round (x : Q) : Z := Qfloor (Qplus x (Qmake 1 2)).

(** ** Provider objects (the fields the handlers read) *)

Record StripeCard := mkStripeCard {
  sc_brand : string;
  sc_last4 : string;
  sc_exp_month : Z;
  sc_exp_year : Z }.

Record StripePaymentMethod := mkStripePaymentMethod {
  spm_id : string;
  spm_customer : option Expandable;
  spm_card : option StripeCard;
  spm_created : Z }.

Record StripeCustomer := mkStripeCustomer {
  cust_id : string;
  cust_email : option string;
  cust_name : option string;
  cust_created : Z;
  cust_deleted : bool }.

Record StripePaymentIntent := mkStripePaymentIntent {
  pi_id : string;
  pi_status : string;
  pi_client_secret : option string;
  pi_setup_future_usage : option string;
  pi_payment_method : option Expandable;
  pi_customer : option Expandable;
  pi_amount : Z;
  pi_currency : string }.

Record StripeSetupIntent := mkStripeSetupIntent {
  si_id : string;
  si_client_secret : option string;
  si_payment_method : option Expandable;
  si_customer : option Expandable }.

(** [Stripe.PaymentIntentCreateParams] as the route fills it
    ([payment_method_types] and [metadata.source] are constants). *)
Record PaymentIntentCreateParams := mkParams {
  p_amount : Z;
  p_currency : string;
  p_meta_save_card : string;
  p_meta_off_session : string;
  p_customer : option string;
  p_payment_method : option string;
  p_confirm : option bool;
  p_off_session : option bool;
  p_setup_future_usage : option string }.

(** A verified event: the provider's event id and the payload, tagged by
    [event.type] (the handler casts [event.data.object] by that tag). *)
Inductive EventData :=
| setup_intent_succeeded (setupIntent : StripeSetupIntent)
| payment_intent_succeeded (paymentIntent : StripePaymentIntent)
| payment_intent_payment_failed (paymentIntent : StripePaymentIntent)
| payment_method_attached (paymentMethod : StripePaymentMethod)
| customer_created (customer : StripeCustomer)
| customer_deleted (customer : StripeCustomer)
| other_event (type : string).

Record StripeEvent := mkEvent {
  ev_id : string;
  ev_data : EventData }.

(** ** The provider SDK as an oracle, and the trace of effects *)

(** One constructor per SDK call that goes to the provider. *)
Inductive Call :=
| customers_create (email name : string) (metadata : list (string * string))
| customers_retrieve (id : string)
| customers_update (id default_payment_method : string)
| customers_del (id : string)
| customers_list (starting_after : option string)
| paymentMethods_retrieve (id : string)
| paymentMethods_attach (id customer : string)
| paymentMethods_detach (id : string)
| paymentMethods_list (customer : string)
| paymentIntents_create (params : PaymentIntentCreateParams)
| paymentIntents_retrieve (id : string)
| paymentIntents_confirm (id : string)
| paymentIntents_cancel (id : string)
| setupIntents_create (customer usage : string)
| setupIntents_retrieve (id : string).

(** What the provider answers.  A handler run asks each question at most
    once (the pages of [customers.list] differ by their cursor), so one
    answer per call and argument describes any provider over that run. *)
Record StripeSdk := mkSdk {
  do_customers_create :
    string → string → list (string * string) → Result StripeCustomer;
  do_customers_retrieve : string → Result StripeCustomer;
  do_customers_update : string → string → Result unit;
  do_customers_del : string → Result unit;
  do_customers_list : option string → Result (list StripeCustomer * bool);
  do_paymentMethods_retrieve : string → Result StripePaymentMethod;
  do_paymentMethods_attach : string → string → Result StripePaymentMethod;
  do_paymentMethods_detach : string → Result unit;
  do_paymentMethods_list : string → Result (list StripePaymentMethod);
  do_paymentIntents_create : PaymentIntentCreateParams → Result StripePaymentIntent;
  do_paymentIntents_retrieve : string → Result StripePaymentIntent;
  do_paymentIntents_confirm : string → Result StripePaymentIntent;
  do_paymentIntents_cancel : string → Result StripePaymentIntent;
  do_setupIntents_create : string → string → Result StripeSetupIntent;
  do_setupIntents_retrieve : string → Result StripeSetupIntent;
  (** [stripe.webhooks.constructEvent(body, signature, secret)]: a local
      check of the signature, it throws when the signature does not verify. *)
  webhooks_constructEvent : string → string → string → Result StripeEvent }.

(** [process.env] and the clock. *)
Record Env := mkEnv {
  STRIPE_WEBHOOK_SECRET : string;
  getFullYear : Z }.

Inductive File := CUSTOMERS_FILE | PAYMENT_METHODS_FILE.

Inductive Effect :=
| Remote (c : Call)
| WriteFile (f : File).

(** The two JSON files (as the arrays they parse to) and what has been done
    so far. *)
Record World := mkWorld {
  customers : list CustomerData;
  paymentMethods : list SavedPaymentMethod;
  trace : list Effect }.

(** ** The handler monad: state, trace and exceptions *)

Definition M (A : Type) : Type := World → Result A * World.

#[global] Instance M_ret : MRet M := λ A a w, (Ok a, w).
#[global] Instance M_bind : MBind M := λ A B f m w,
  match m w with
  | (Ok a, w') => f a w'
  | (Throw t, w') => (Throw t, w')
  end.

Definition throw {A} (t : Thrown) : M A := λ w, (Throw t, w).

(** [try { m } catch (error) { h error }] *)
Definition try_catch {A} (m : M A) (h : Thrown → M A) : M A := λ w,
  match m w with
  | (Ok a, w') => (Ok a, w')
  | (Throw t, w') => h t w'
  end.

(** A value that is already a [Result] (a parsed body, an SDK answer). *)
Definition lift {A} (r : Result A) : M A := λ w, (r, w).

Definition log (e : Effect) : M unit := λ w,
  (Ok tt, mkWorld (customers w) (paymentMethods w) (trace w ++ [e])).

(** A call to the provider: recorded, then answered by the oracle. *)
Definition remote {A} (c : Call) (answer : Result A) : M A :=
  log (Remote c) ;; lift answer.

(** [error instanceof Error ? error.message : fallback] *)
Definition message_or (error : Thrown) (fallback : string) : string :=
  match error with
  | ThrownError message => message
  | ThrownOther => fallback
  end.

(** The store methods with their file access. [getAll] is a read; the file
    system itself is taken to be reliable. *)
Module Fs.

Definition customers_getAll : M (list CustomerData) :=
  λ w, (Ok (customers w), w).
Definition customers_write (l : list CustomerData) : M unit := λ w,
  (Ok tt, mkWorld l (paymentMethods w) (trace w ++ [WriteFile CUSTOMERS_FILE])).

Definition paymentMethods_getAll : M (list SavedPaymentMethod) :=
  λ w, (Ok (paymentMethods w), w).
Definition paymentMethods_write (l : list SavedPaymentMethod) : M unit := λ w,
  (Ok tt, mkWorld (customers w) l (trace w ++ [WriteFile PAYMENT_METHODS_FILE])).

Definition CustomerDataStore_getById (id : string) : M (option CustomerData) :=
  l ← customers_getAll; mret (CustomerDataStore.getById id l).

Definition CustomerDataStore_getByEmail (email : string)
  : M (option CustomerData) :=
  l ← customers_getAll; mret (CustomerDataStore.getByEmail email l).

Definition CustomerDataStore_save (customer : CustomerData) : M unit :=
  l ← customers_getAll; customers_write (CustomerDataStore.save customer l).

Definition CustomerDataStore_delete (id : string) : M bool :=
  l ← customers_getAll;
  match CustomerDataStore.delete id l with
  | (l', true) => customers_write l' ;; mret true
  | (_, false) => mret false
  end.

Definition PaymentMethodDataStore_getByCustomerId (customerId : string)
  : M (list SavedPaymentMethod) :=
  l ← paymentMethods_getAll;
  mret (PaymentMethodDataStore.getByCustomerId customerId l).

Definition PaymentMethodDataStore_getById (id : string)
  : M (option SavedPaymentMethod) :=
  l ← paymentMethods_getAll; mret (PaymentMethodDataStore.getById id l).

Definition PaymentMethodDataStore_save (paymentMethod : SavedPaymentMethod)
  : M unit :=
  l ← paymentMethods_getAll;
  paymentMethods_write (PaymentMethodDataStore.save paymentMethod l).

Definition PaymentMethodDataStore_delete (id : string) : M bool :=
  l ← paymentMethods_getAll;
  match PaymentMethodDataStore.delete id l with
  | (l', true) => paymentMethods_write l' ;; mret true
  | (_, false) => mret false
  end.

Definition PaymentMethodDataStore_setAsDefault
    (paymentMethodId customerId : string) : M unit :=
  l ← paymentMethods_getAll;
  paymentMethods_write
    (PaymentMethodDataStore.setAsDefault paymentMethodId customerId l).

(** [array.forEach(x => f x)] *)
Fixpoint forEach {A} (f : A → M unit) (l : list A) : M unit :=
  match l with
  | [] => mret tt
  | x :: l' => f x ;; forEach f l'
  end.

End Fs.

(** ** Shared pieces of the handlers *)

(** [x!]: the non-null assertion is erased at run time; the declared type of
    the stored field is [string], and a [null] is read here as ['']. *)
Definition non_null (x : option string) : string := default EmptyString x.

(** The [SavedPaymentMethod] literal that the attach route and three webhook
    handlers build from the provider's payment method:
    [card?.brand || 'unknown'], [card?.last4 || '0000'],
    [card?.exp_month || 1], [card?.exp_year || new Date().getFullYear()],
    [created * 1000]. *)
Definition savedPaymentMethodOf (env : Env) (paymentMethod : StripePaymentMethod)
    (customerId : string) (isDefault : bool) : SavedPaymentMethod :=
  mkSavedPaymentMethod
    (spm_id paymentMethod)
    customerId
    (mkCard (or_str (sc_brand <$> spm_card paymentMethod) "unknown")
            (or_str (sc_last4 <$> spm_card paymentMethod) "0000")
            (or_num (sc_exp_month <$> spm_card paymentMethod) 1)
            (or_num (sc_exp_year <$> spm_card paymentMethod) (getFullYear env)))
    (spm_created paymentMethod * 1000)
    (Some isDefault).

(** ** The webhook route ([api/webhooks/stripe/route.ts]) *)

Module Webhook.

Record Request := mkRequest {
  text : string;
  stripe_signature : option string }.

Inductive Body :=
| received
| error (message : string).

Record Response := mkResponse {
  status : Z;
  json : Body }.

Section Handler.
Context (stripe : StripeSdk) (env : Env).

Definition handleSetupIntentSucceeded (setupIntent : StripeSetupIntent)
  : M unit :=
  match truthy_ref (si_payment_method setupIntent),
        truthy_ref (si_customer setupIntent) with
  | Some payment_method, Some customer =>
    let paymentMethodId := expandable_id payment_method in
    let customerId := expandable_id customer in
    try_catch
      (paymentMethod ← remote (paymentMethods_retrieve paymentMethodId)
                         (do_paymentMethods_retrieve stripe paymentMethodId);
       Fs.PaymentMethodDataStore_save
         (savedPaymentMethodOf env paymentMethod customerId false))
      (λ _, mret tt)
  | _, _ => mret tt
  end.

Definition handlePaymentIntentSucceeded (paymentIntent : StripePaymentIntent)
  : M unit :=
  match truthy_str (pi_setup_future_usage paymentIntent),
        truthy_ref (pi_payment_method paymentIntent),
        truthy_ref (pi_customer paymentIntent) with
  | Some _, Some payment_method, Some customer =>
    let paymentMethodId := expandable_id payment_method in
    let customerId := expandable_id customer in
    try_catch
      (paymentMethod ← remote (paymentMethods_retrieve paymentMethodId)
                         (do_paymentMethods_retrieve stripe paymentMethodId);
       Fs.PaymentMethodDataStore_save
         (savedPaymentMethodOf env paymentMethod customerId false))
      (λ _, mret tt)
  | _, _, _ => mret tt
  end.

(** Only logs. *)
Definition handlePaymentIntentFailed (paymentIntent : StripePaymentIntent)
  : M unit := mret tt.

Definition handlePaymentMethodAttached (paymentMethod : StripePaymentMethod)
  : M unit :=
  match truthy_ref (spm_customer paymentMethod) with
  | Some customer =>
    let customerId := expandable_id customer in
    Fs.PaymentMethodDataStore_save
      (savedPaymentMethodOf env paymentMethod customerId false)
  | None => mret tt
  end.

Definition handleCustomerCreated (customer : StripeCustomer) : M unit :=
  let customerData :=
    mkCustomerData (cust_id customer)
                   (or_str (cust_email customer) EmptyString)
                   (or_str (cust_name customer) EmptyString)
                   (cust_created customer * 1000)
                   [] in
  Fs.CustomerDataStore_save customerData.

Definition handleCustomerDeleted (customer : StripeCustomer) : M unit :=
  Fs.CustomerDataStore_delete (cust_id customer) ;;
  customerPaymentMethods ←
    Fs.PaymentMethodDataStore_getByCustomerId (cust_id customer);
  Fs.forEach (λ pm, Fs.PaymentMethodDataStore_delete (pm_id pm) ;; mret tt)
             customerPaymentMethods.

(** The [switch (event.type)]. *)
Definition dispatch (event : StripeEvent) : M unit :=
  match ev_data event with
  | setup_intent_succeeded o => handleSetupIntentSucceeded o
  | payment_intent_succeeded o => handlePaymentIntentSucceeded o
  | payment_intent_payment_failed o => handlePaymentIntentFailed o
  | payment_method_attached o => handlePaymentMethodAttached o
  | customer_created o => handleCustomerCreated o
  | customer_deleted o => handleCustomerDeleted o
  | other_event _ => mret tt
  end.

Definition POST (request : Request) : M Response :=
  match truthy_str (stripe_signature request) with
  | None => mret (mkResponse 400 (error "Missing signature"))
  | Some signature =>
    match webhooks_constructEvent stripe (text request) signature
                                  (STRIPE_WEBHOOK_SECRET env) with
    | Throw _ => mret (mkResponse 400 (error "Invalid signature"))
    | Ok event =>
      try_catch
        (dispatch event ;; mret (mkResponse 200 received))
        (λ _, mret (mkResponse 500 (error "Webhook handler failed")))
    end
  end.

End Handler.
End Webhook.

(** ** The webhook route on the event loop

    The handlers above run each route to its end in one go.  On the event
    loop a handler gives way to other requests at every [await] and nowhere
    else; what lies between two [await]s runs without interruption, the
    store methods being synchronous ([readFileSync], [writeFileSync]).  A
    [Task] keeps the places where a handler is suspended, with the world it
    leaves for the others to read and write at that moment.  [request.text()]
    is awaited before anything else: a task starts at the world found when
    the body has arrived. *)

(** What a handler waits for when it is suspended. *)
Inductive Suspension :=
| AwaitProvider (c : Call)   (* [await stripe.…(…)] *)
| AwaitHandler.              (* [await handle…(…)] in [POST] *)

Inductive Task (A : Type) :=
| Finished (r : Result A) (w : World)
| Suspended (s : Suspension) (w : World) (resume : World → Task A).
Arguments Finished {A} r w.
Arguments Suspended {A} s w resume.

Definition Async (A : Type) : Type := World → Task A.

(** Code with no [await] in it. *)
Definition sync {A} (m : M A) : Async A := λ w, Finished (m w).1 (m w).2.

Fixpoint task_then {A B} (t : Task A) (k : Result A → Async B) : Task B :=
  match t with
  | Finished r w => k r w
  | Suspended s w resume => Suspended s w (λ w', task_then (resume w') k)
  end.

(** [const a = …; …] *)
Definition andThen {A B} (m : Async A) (f : A → Async B) : Async B := λ w,
  task_then (m w)
            (λ r, match r with
                  | Ok a => f a
                  | Throw t => λ w', Finished (Throw t) w'
                  end).

(** [try { m } catch (error) { h error }] *)
Definition catching {A} (m : Async A) (h : Thrown → Async A) : Async A := λ w,
  task_then (m w)
            (λ r, match r with
                  | Ok a => λ w', Finished (Ok a) w'
                  | Throw t => h t
                  end).

(** [await stripe.…(…)]: the request is sent, the handler is suspended, and
    it goes on with the provider's answer. *)
Definition await_provider {A} (c : Call) (answer : Result A) : Async A := λ w,
  Suspended (AwaitProvider c) (log (Remote c) w).2 (λ w', Finished answer w').

(** [await m] on an [async function] of the route's own: its body runs up to
    its end (or its own first [await]); the caller goes on in a later turn
    of the loop. *)
Definition await_handler {A} (m : Async A) : Async A := λ w,
  task_then (m w) (λ r w', Suspended AwaitHandler w' (λ w'', Finished r w'')).

(** [array.forEach(x => f x)] with a callback that is not awaited. *)
Fixpoint forEachSync {A} (f : A → Async unit) (l : list A) : Async unit :=
  match l with
  | [] => sync (mret tt)
  | x :: l' => andThen (f x) (λ _, forEachSync f l')
  end.

(** The task with nobody else on the loop: every suspension resumes in the
    world it left. *)
Fixpoint alone {A} (t : Task A) : Result A * World :=
  match t with
  | Finished r w => (r, w)
  | Suspended _ w resume => alone (resume w)
  end.

(** The worlds that the other requests find: one at each suspension of the
    task and one at its end.  [others] is what they do to the world while
    the task is suspended, in the order of the suspensions. *)
Fixpoint visible {A} (others : list (World → World)) (t : Task A) : list World :=
  match t with
  | Finished _ w => [w]
  | Suspended _ w resume =>
    match others with
    | [] => w :: visible [] (resume w)
    | other :: rest => w :: visible rest (resume (other w))
    end
  end.

(** The webhook route with its [await]s. *)
Module WebhookTask.

Section Handler.
Context (stripe : StripeSdk) (env : Env).

Definition handleSetupIntentSucceeded (setupIntent : StripeSetupIntent)
  : Async unit :=
  match truthy_ref (si_payment_method setupIntent),
        truthy_ref (si_customer setupIntent) with
  | Some payment_method, Some customer =>
    let paymentMethodId := expandable_id payment_method in
    let customerId := expandable_id customer in
    catching
      (andThen (await_provider (paymentMethods_retrieve paymentMethodId)
                               (do_paymentMethods_retrieve stripe paymentMethodId))
               (λ paymentMethod,
                  sync (Fs.PaymentMethodDataStore_save
                          (savedPaymentMethodOf env paymentMethod customerId false))))
      (λ _, sync (mret tt))
  | _, _ => sync (mret tt)
  end.

Definition handlePaymentIntentSucceeded (paymentIntent : StripePaymentIntent)
  : Async unit :=
  match truthy_str (pi_setup_future_usage paymentIntent),
        truthy_ref (pi_payment_method paymentIntent),
        truthy_ref (pi_customer paymentIntent) with
  | Some _, Some payment_method, Some customer =>
    let paymentMethodId := expandable_id payment_method in
    let customerId := expandable_id customer in
    catching
      (andThen (await_provider (paymentMethods_retrieve paymentMethodId)
                               (do_paymentMethods_retrieve stripe paymentMethodId))
               (λ paymentMethod,
                  sync (Fs.PaymentMethodDataStore_save
                          (savedPaymentMethodOf env paymentMethod customerId false))))
      (λ _, sync (mret tt))
  | _, _, _ => sync (mret tt)
  end.

Definition handlePaymentIntentFailed (paymentIntent : StripePaymentIntent)
  : Async unit := sync (mret tt).

Definition handlePaymentMethodAttached (paymentMethod : StripePaymentMethod)
  : Async unit :=
  match truthy_ref (spm_customer paymentMethod) with
  | Some customer =>
    let customerId := expandable_id customer in
    sync (Fs.PaymentMethodDataStore_save
            (savedPaymentMethodOf env paymentMethod customerId false))
  | None => sync (mret tt)
  end.

Definition handleCustomerCreated (customer : StripeCustomer) : Async unit :=
  let customerData :=
    mkCustomerData (cust_id customer)
                   (or_str (cust_email customer) EmptyString)
                   (or_str (cust_name customer) EmptyString)
                   (cust_created customer * 1000)
                   [] in
  sync (Fs.CustomerDataStore_save customerData).

(** Three statements, none of them awaited:
    [CustomerDataStore.delete(customer.id)],
    [const customerPaymentMethods = PaymentMethodDataStore.getByCustomerId(customer.id)],
    [customerPaymentMethods.forEach(pm => PaymentMethodDataStore.delete(pm.id))]. *)
Definition handleCustomerDeleted (customer : StripeCustomer) : Async unit :=
  andThen (sync (Fs.CustomerDataStore_delete (cust_id customer))) (λ _,
  andThen (sync (Fs.PaymentMethodDataStore_getByCustomerId (cust_id customer)))
          (λ customerPaymentMethods,
  forEachSync (λ pm, andThen (sync (Fs.PaymentMethodDataStore_delete (pm_id pm)))
                             (λ _, sync (mret tt)))
              customerPaymentMethods)).

(** The [switch (event.type)]: every case awaits its handler, the default
    case only logs. *)
Definition dispatch (event : StripeEvent) : Async unit :=
  match ev_data event with
  | setup_intent_succeeded o => await_handler (handleSetupIntentSucceeded o)
  | payment_intent_succeeded o => await_handler (handlePaymentIntentSucceeded o)
  | payment_intent_payment_failed o => await_handler (handlePaymentIntentFailed o)
  | payment_method_attached o => await_handler (handlePaymentMethodAttached o)
  | customer_created o => await_handler (handleCustomerCreated o)
  | customer_deleted o => await_handler (handleCustomerDeleted o)
  | other_event _ => sync (mret tt)
  end.

Definition POST (request : Webhook.Request) : Async Webhook.Response :=
  match truthy_str (Webhook.stripe_signature request) with
  | None => sync (mret (Webhook.mkResponse 400 (Webhook.error "Missing signature")))
  | Some signature =>
    match webhooks_constructEvent stripe (Webhook.text request) signature
                                  (STRIPE_WEBHOOK_SECRET env) with
    | Throw _ =>
      sync (mret (Webhook.mkResponse 400 (Webhook.error "Invalid signature")))
    | Ok event =>
      catching
        (andThen (dispatch event)
                 (λ _, sync (mret (Webhook.mkResponse 200 Webhook.received))))
        (λ _, sync (mret (Webhook.mkResponse 500
                            (Webhook.error "Webhook handler failed"))))
    end
  end.

End Handler.
End WebhookTask.

(** ** The client-facing envelope ([ApiResponse]) *)

Record PaymentIntentResponse := mkPaymentIntentResponse {
  clientSecret : option string;
  paymentIntentId : string;
  pir_status : string;
  requiresAction : option bool }.

(** The shapes of [data] the routes return. *)
Inductive Data :=
| DCustomerWithLocal (stripe : StripeCustomer) (localData : option CustomerData)
| DCustomerLists (localCustomers : list CustomerData)
                 (stripeCustomers : list StripeCustomer) (totalCount : nat)
| DExistingCustomer (existingCustomer : CustomerData)
| DCustomerCreated (stripe : StripeCustomer) (local : CustomerData)
| DDeleted (deleted : bool)
| DPaymentMethod (stripe : StripePaymentMethod) (local : option SavedPaymentMethod)
| DPaymentMethods (paymentMethods : list StripePaymentMethod)
                  (localData : list SavedPaymentMethod)
| DLocalPaymentMethods (localPaymentMethods : list SavedPaymentMethod)
| DAttached (stripe : StripePaymentMethod) (local : SavedPaymentMethod)
| DMessage (message : string)
| DPaymentIntentResponse (response : PaymentIntentResponse)
| DPaymentIntent (paymentIntent : StripePaymentIntent)
| DSetupIntentResponse (clientSecret setupIntentId : string)
| DSetupIntent (setupIntent : StripeSetupIntent).

(** [ApiResponse]: [success], [data?], [error?] and nothing else. *)
Record ApiResponse := mkApiResponse {
  success : bool;
  data : option Data;
  error : option string }.

(** [NextResponse.json(body, { status })]. *)
Record Response := mkResponse {
  status : Z;
  body : ApiResponse }.

Definition respond_ok (d : Data) : Response :=
  mkResponse 200 (mkApiResponse true (Some d) None).

Definition respond_error (message : string) (status : Z) : Response :=
  mkResponse status (mkApiResponse false None (Some message)).

(** ** [api/customers/route.ts] *)

Module Customers.

Record CreateCustomerRequest := mkCreateCustomerRequest {
  email : option string;
  name : option string;
  metadata : list (string * string) }.

(** The [while (hasMore)] loop of [GET]: the calls it makes, in order, and
    either the accumulated customers or what [customers.list] threw.  A
    further page is fetched only when the provider says [has_more], the
    page was not empty and fewer than 1000 customers are held, so the
    number still missing to 1000 decreases. *)
Equations? fetchPages (stripe : StripeSdk) (allStripeCustomers : list StripeCustomer)
    (startingAfter : option string) : list Call * Result (list StripeCustomer)
  by wf (1000 - length allStripeCustomers)%nat lt :=
  fetchPages stripe allStripeCustomers startingAfter with
      do_customers_list stripe (truthy_str startingAfter) := {
    | Throw t => ([customers_list (truthy_str startingAfter)], Throw t)
    | Ok (data, has_more) with
        decide (has_more = true ∧ (0 < length data)%nat
                ∧ (length (allStripeCustomers ++ data)%list < 1000)%nat) := {
      | left _ =>
        let rest := fetchPages stripe (allStripeCustomers ++ data)%list
                               (cust_id <$> last data) in
        (customers_list (truthy_str startingAfter) :: fst rest, snd rest)
      | right _ =>
        ([customers_list (truthy_str startingAfter)],
         Ok (allStripeCustomers ++ data)%list) } }.
Proof. rewrite length_app in *. lia. Qed.

Section Handler.
Context (stripe : StripeSdk).

(** The loop inside its [try]/[catch]: a failure empties the list. *)
Definition fetchAllStripeCustomers : M (list StripeCustomer) := λ w,
  let pages := fetchPages stripe [] None in
  (Ok (match snd pages with Ok l => l | Throw _ => [] end),
   mkWorld (customers w) (paymentMethods w)
           (trace w ++ (Remote <$> fst pages))).

Definition GET (id : option string) : M Response :=
  try_catch
    (match truthy_str id with
     | Some customerId =>
       customer ← remote (customers_retrieve customerId)
                    (do_customers_retrieve stripe customerId);
       localData ← Fs.CustomerDataStore_getById customerId;
       mret (respond_ok (DCustomerWithLocal customer localData))
     | None =>
       localCustomers ← Fs.customers_getAll;
       allStripeCustomers ← fetchAllStripeCustomers;
       mret (respond_ok
               (DCustomerLists localCustomers allStripeCustomers
                               (length allStripeCustomers)))
     end)
    (λ error,
       mret (respond_error (message_or error "Failed to fetch customers") 500)).

Definition POST (json : Result CreateCustomerRequest) : M Response :=
  try_catch
    (body ← lift json;
     match truthy_str (email body), truthy_str (name body) with
     | Some email, Some name =>
       existingCustomer ← Fs.CustomerDataStore_getByEmail email;
       match existingCustomer with
       | Some existingCustomer =>
         mret (respond_ok (DExistingCustomer existingCustomer))
       | None =>
         let md := ("source", "stripe-testing-app") :: metadata body in
         stripeCustomer ← remote (customers_create email name md)
                            (do_customers_create stripe email name md);
         let customerData :=
           mkCustomerData (cust_id stripeCustomer)
                          (non_null (cust_email stripeCustomer))
                          (non_null (cust_name stripeCustomer))
                          (cust_created stripeCustomer * 1000)
                          [] in
         Fs.CustomerDataStore_save customerData ;;
         mret (respond_ok (DCustomerCreated stripeCustomer customerData))
       end
     | _, _ => mret (respond_error "Email and name are required" 400)
     end)
    (λ error,
       mret (respond_error (message_or error "Failed to create customer") 500)).

Definition DELETE (id : option string) : M Response :=
  try_catch
    (match truthy_str id with
     | None => mret (respond_error "Customer ID is required" 400)
     | Some customerId =>
       remote (customers_del customerId) (do_customers_del stripe customerId) ;;
       deleted ← Fs.CustomerDataStore_delete customerId;
       mret (respond_ok (DDeleted deleted))
     end)
    (λ error,
       mret (respond_error (message_or error "Failed to delete customer") 500)).

End Handler.
End Customers.

(** ** [api/payment-methods/route.ts] *)

Module PaymentMethods.

Record AttachRequest := mkAttachRequest {
  paymentMethodId : option string;
  customerId : option string;
  isDefault : option bool }.

Record UpdateRequest := mkUpdateRequest {
  u_paymentMethodId : option string;
  u_customerId : option string;
  action : option string }.

Section Handler.
Context (stripe : StripeSdk) (env : Env).

(** [typeof pm.customer === 'string' ? pm.customer : pm.customer?.id] *)
Definition pmCustomerId (pm : StripePaymentMethod) : option string :=
  expandable_id <$> spm_customer pm.

Definition GET (customerId id : option string) : M Response :=
  try_catch
    (match truthy_str id with
     | Some paymentMethodId =>
       paymentMethod ← remote (paymentMethods_retrieve paymentMethodId)
                         (do_paymentMethods_retrieve stripe paymentMethodId);
       localData ← Fs.PaymentMethodDataStore_getById paymentMethodId;
       mret (respond_ok (DPaymentMethod paymentMethod localData))
     | None =>
       match truthy_str customerId with
       | Some customerId =>
         notFound ← try_catch
           (remote (customers_retrieve customerId)
                   (do_customers_retrieve stripe customerId) ;;
            mret None)
           (λ _, mret (Some (respond_error
              ("Customer not found: " +:+ customerId +:+
               ". Please select a valid customer.") 404)));
         match notFound with
         | Some response => mret response
         | None =>
           paymentMethods ← remote (paymentMethods_list customerId)
                              (do_paymentMethods_list stripe customerId);
           let validPaymentMethods :=
             filter (λ pm, pmCustomerId pm = Some customerId) paymentMethods in
           localPaymentMethods ←
             Fs.PaymentMethodDataStore_getByCustomerId customerId;
           mret (respond_ok
                   (DPaymentMethods validPaymentMethods localPaymentMethods))
         end
       | None =>
         localPaymentMethods ← Fs.paymentMethods_getAll;
         mret (respond_ok (DLocalPaymentMethods localPaymentMethods))
       end
     end)
    (λ error, mret (respond_error
                      (message_or error "Failed to retrieve payment methods") 500)).

Definition POST (json : Result AttachRequest) : M Response :=
  try_catch
    (body ← lift json;
     match truthy_str (paymentMethodId body), truthy_str (customerId body) with
     | Some paymentMethodId, Some customerId =>
       paymentMethod ← remote (paymentMethods_attach paymentMethodId customerId)
                         (do_paymentMethods_attach stripe paymentMethodId customerId);
       let savedPaymentMethod :=
         savedPaymentMethodOf env paymentMethod customerId
                              (default false (isDefault body)) in
       Fs.PaymentMethodDataStore_save savedPaymentMethod ;;
       (if default false (isDefault body)
        then Fs.PaymentMethodDataStore_setAsDefault paymentMethodId customerId
        else mret tt) ;;
       mret (respond_ok (DAttached paymentMethod savedPaymentMethod))
     | _, _ =>
       mret (respond_error "Payment method ID and customer ID are required" 400)
     end)
    (λ error, mret (respond_error
                      (message_or error "Failed to save payment method") 500)).

Definition PATCH (json : Result UpdateRequest) : M Response :=
  try_catch
    (body ← lift json;
     match truthy_str (u_paymentMethodId body), truthy_str (u_customerId body) with
     | Some paymentMethodId, Some customerId =>
       if decide (action body = Some "set_default")
       then
         remote (customers_update customerId paymentMethodId)
                (do_customers_update stripe customerId paymentMethodId) ;;
         Fs.PaymentMethodDataStore_setAsDefault paymentMethodId customerId ;;
         mret (respond_ok (DMessage "Payment method set as default"))
       else
         mret (respond_error ("Invalid action. Use " +:+ quoted "set_default") 400)
     | _, _ =>
       mret (respond_error "Payment method ID and customer ID are required" 400)
     end)
    (λ error, mret (respond_error
                      (message_or error "Failed to update payment method") 500)).

Definition DELETE (id : option string) : M Response :=
  try_catch
    (match truthy_str id with
     | None => mret (respond_error "Payment method ID is required" 400)
     | Some paymentMethodId =>
       remote (paymentMethods_detach paymentMethodId)
              (do_paymentMethods_detach stripe paymentMethodId) ;;
       deleted ← Fs.PaymentMethodDataStore_delete paymentMethodId;
       mret (respond_ok (DDeleted deleted))
     end)
    (λ error, mret (respond_error
                      (message_or error "Failed to remove payment method") 500)).

End Handler.
End PaymentMethods.

(** ** [api/payment-intent/route.ts] *)

Module PaymentIntent.

(** [PaymentIntentRequest]; [amount] is [None] when the field is absent or
    [null]. *)
Record PaymentIntentRequest := mkPaymentIntentRequest {
  customerId : option string;
  amount : option Q;
  currency : option string;
  paymentMethodId : option string;
  saveCard : option bool;
  offSession : option bool }.

(** [!body.amount || body.amount <= 0] *)
Definition amount_rejected (amount : option Q) : bool :=
  match amount with
  | None => true
  | Some a => Qeq_bool a 0 || Qle_bool a 0
  end.

Definition with_customer (customer : string) (p : PaymentIntentCreateParams) :=
  mkParams (p_amount p) (p_currency p) (p_meta_save_card p) (p_meta_off_session p)
           (Some customer) (p_payment_method p) (p_confirm p) (p_off_session p)
           (p_setup_future_usage p).

Definition with_payment_method (payment_method : string)
    (p : PaymentIntentCreateParams) :=
  mkParams (p_amount p) (p_currency p) (p_meta_save_card p) (p_meta_off_session p)
           (p_customer p) (Some payment_method) (p_confirm p) (p_off_session p)
           (p_setup_future_usage p).

(** [confirm = true; off_session = true] *)
Definition with_confirm_off_session (p : PaymentIntentCreateParams) :=
  mkParams (p_amount p) (p_currency p) (p_meta_save_card p) (p_meta_off_session p)
           (p_customer p) (p_payment_method p) (Some true) (Some true)
           (p_setup_future_usage p).

Definition with_setup_future_usage (usage : string)
    (p : PaymentIntentCreateParams) :=
  mkParams (p_amount p) (p_currency p) (p_meta_save_card p) (p_meta_off_session p)
           (p_customer p) (p_payment_method p) (p_confirm p) (p_off_session p)
           (Some usage).

(** The response built after [create]: the client secret is added for
    [requires_payment_method], [requires_confirmation] and
    [requires_action]; the last also sets [requiresAction]. *)
Definition createdResponse (paymentIntent : StripePaymentIntent)
  : PaymentIntentResponse :=
  let secret := truthy_str (pi_client_secret paymentIntent) in
  if decide (pi_status paymentIntent = "requires_action")
  then mkPaymentIntentResponse secret (pi_id paymentIntent)
                               (pi_status paymentIntent) (Some true)
  else if decide (pi_status paymentIntent = "requires_payment_method"
                  ∨ pi_status paymentIntent = "requires_confirmation")
  then mkPaymentIntentResponse secret (pi_id paymentIntent)
                               (pi_status paymentIntent) None
  else mkPaymentIntentResponse None (pi_id paymentIntent)
                               (pi_status paymentIntent) None.

(** The response built after [confirm] or [cancel]. *)
Definition updatedResponse (paymentIntent : StripePaymentIntent)
  : PaymentIntentResponse :=
  if decide (pi_status paymentIntent = "requires_action")
  then mkPaymentIntentResponse (truthy_str (pi_client_secret paymentIntent))
                               (pi_id paymentIntent)
                               (pi_status paymentIntent) (Some true)
  else mkPaymentIntentResponse None (pi_id paymentIntent)
                               (pi_status paymentIntent) None.

Section Handler.
Context (stripe : StripeSdk).

(** [if (body.customerId) { try { ... } catch { return 404 } }]:
    either the early response or the parameters to go on with. *)
Definition addCustomer (body : PaymentIntentRequest)
    (params : PaymentIntentCreateParams)
  : M (Response + PaymentIntentCreateParams) :=
  match truthy_str (customerId body) with
  | None => mret (inr params)
  | Some customerId =>
    try_catch
      (customer ← remote (customers_retrieve customerId)
                    (do_customers_retrieve stripe customerId);
       if cust_deleted customer
       then mret (inl (respond_error
              ("Customer " +:+ customerId +:+
               " has been deleted. Please select a different customer.") 404))
       else mret (inr (with_customer customerId params)))
      (λ error,
         let errorMessage := message_or error "Customer not found" in
         mret (inl (respond_error
           (if includes errorMessage "No such customer"
            then "Customer " +:+ customerId +:+
                 " not found in your Stripe account. Please select a valid customer."
            else errorMessage) 404)))
  end.

(** [if (body.paymentMethodId) { try { ... } catch { return 404 } ... }] *)
Definition addPaymentMethod (body : PaymentIntentRequest)
    (params : PaymentIntentCreateParams)
  : M (Response + PaymentIntentCreateParams) :=
  match truthy_str (paymentMethodId body) with
  | None => mret (inr params)
  | Some paymentMethodId =>
    checked ← try_catch
      (paymentMethod ← remote (paymentMethods_retrieve paymentMethodId)
                         (do_paymentMethods_retrieve stripe paymentMethodId);
       match truthy_str (customerId body) with
       | Some customerId =>
         if decide (expandable_id <$> spm_customer paymentMethod = Some customerId)
         then mret (inr (with_payment_method paymentMethodId params))
         else mret (inl (respond_error
                ("Payment method " +:+ paymentMethodId +:+
                 " is not attached to customer " +:+ customerId +:+
                 ". Please select a payment method for this customer.") 400))
       | None => mret (inr (with_payment_method paymentMethodId params))
       end)
      (λ error,
         let errorMessage := message_or error "Payment method not found" in
         mret (inl (respond_error
           (if includes errorMessage "No such payment_method"
            then "Payment method " +:+ paymentMethodId +:+
                 " not found. Please refresh payment methods."
            else errorMessage) 404)));
    match checked with
    | inl response => mret (inl response)
    | inr params =>
      if default false (offSession body)
      then mret (inr (with_confirm_off_session params))
      else mret (inr params)
    end
  end.

Definition POST (json : Result PaymentIntentRequest) : M Response :=
  try_catch
    (body ← lift json;
     match amount body with
     | None => mret (respond_error "Valid amount is required" 400)
     | Some a =>
       if Qeq_bool a 0 || Qle_bool a 0
       then mret (respond_error "Valid amount is required" 400)
       else
         let paymentIntentParams :=
           mkParams (Math_round (a * 100)%Q)
                    (or_str (currency body) "usd")
                    (if default false (saveCard body) then "true" else "false")
                    (if default false (offSession body) then "true" else "false")
                    None None None None None in
         r ← addCustomer body paymentIntentParams;
         match r with
         | inl response => mret response
         | inr paymentIntentParams =>
           r ← addPaymentMethod body paymentIntentParams;
           match r with
           | inl response => mret response
           | inr paymentIntentParams =>
             let paymentIntentParams :=
               match default false (saveCard body), truthy_str (customerId body) with
               | true, Some _ =>
                 with_setup_future_usage "off_session" paymentIntentParams
               | _, _ => paymentIntentParams
               end in
             paymentIntent ← remote (paymentIntents_create paymentIntentParams)
                               (do_paymentIntents_create stripe paymentIntentParams);
             mret (respond_ok
                     (DPaymentIntentResponse (createdResponse paymentIntent)))
           end
         end
     end)
    (λ error,
       let errorMessage := message_or error "Failed to create PaymentIntent" in
       let statusCode :=
         match error with
         | ThrownError message =>
           if includes message "authentication_required" then 402
           else if includes message "card_declined" then 402
           else 500
         | ThrownOther => 500
         end in
       mret (respond_error errorMessage statusCode)).

Definition GET (id : option string) : M Response :=
  try_catch
    (match truthy_str id with
     | None => mret (respond_error "PaymentIntent ID is required" 400)
     | Some paymentIntentId =>
       paymentIntent ← remote (paymentIntents_retrieve paymentIntentId)
                         (do_paymentIntents_retrieve stripe paymentIntentId);
       mret (respond_ok (DPaymentIntent paymentIntent))
     end)
    (λ error, mret (respond_error
                      (message_or error "Failed to retrieve PaymentIntent") 500)).

Definition PATCH (id action : option string) : M Response :=
  try_catch
    (match truthy_str id with
     | None => mret (respond_error "PaymentIntent ID is required" 400)
     | Some paymentIntentId =>
       if decide (action = Some "confirm")
       then
         paymentIntent ← remote (paymentIntents_confirm paymentIntentId)
                           (do_paymentIntents_confirm stripe paymentIntentId);
         mret (respond_ok (DPaymentIntentResponse (updatedResponse paymentIntent)))
       else if decide (action = Some "cancel")
       then
         paymentIntent ← remote (paymentIntents_cancel paymentIntentId)
                           (do_paymentIntents_cancel stripe paymentIntentId);
         mret (respond_ok (DPaymentIntentResponse (updatedResponse paymentIntent)))
       else
         mret (respond_error
                 ("Invalid action. Use " +:+ quoted "confirm" +:+ " or "
                  +:+ quoted "cancel") 400)
     end)
    (λ error, mret (respond_error
                      (message_or error "Failed to update PaymentIntent") 500)).

End Handler.
End PaymentIntent.

(** ** [api/setup-intent/route.ts] *)

Module SetupIntent.

Record SetupIntentRequest := mkSetupIntentRequest {
  customerId : option string;
  usage : option string }.

Section Handler.
Context (stripe : StripeSdk).

Definition POST (json : Result SetupIntentRequest) : M Response :=
  try_catch
    (body ← lift json;
     match truthy_str (customerId body) with
     | None => mret (respond_error "Customer ID is required" 400)
     | Some customerId =>
       notFound ← try_catch
         (remote (customers_retrieve customerId)
                 (do_customers_retrieve stripe customerId) ;;
          mret None)
         (λ _, mret (Some (respond_error "Customer not found" 404)));
       match notFound with
       | Some response => mret response
       | None =>
         let usage := or_str (usage body) "off_session" in
         setupIntent ← remote (setupIntents_create customerId usage)
                         (do_setupIntents_create stripe customerId usage);
         mret (respond_ok
                 (DSetupIntentResponse (non_null (si_client_secret setupIntent))
                                       (si_id setupIntent)))
       end
     end)
    (λ error, mret (respond_error
                      (message_or error "Failed to create SetupIntent") 500)).

Definition GET (id : option string) : M Response :=
  try_catch
    (match truthy_str id with
     | None => mret (respond_error "SetupIntent ID is required" 400)
     | Some setupIntentId =>
       setupIntent ← remote (setupIntents_retrieve setupIntentId)
                       (do_setupIntents_retrieve stripe setupIntentId);
       mret (respond_ok (DSetupIntent setupIntent))
     end)
    (λ error, mret (respond_error
                      (message_or error "Failed to retrieve SetupIntent") 500)).

End Handler.
End SetupIntent.

(** ** The off-session form ([OffSessionPayment.tsx]): the requests it sends *)

(** A JavaScript number as [parseFloat] returns it. *)
Inductive Number :=
| Finite (q : Q)
| NaN
| Infinity (negative : bool).

(** [JSON.stringify] writes [NaN] and the infinities as [null]. *)
Definition JSON_number (n : Number) : option Q :=
  match n with
  | Finite q => Some q
  | _ => None
  end.

Module OffSessionPayment.

(** The component state the two handlers read. *)
Record State := mkState {
  customerId : option string;
  selectedPaymentMethodId : string;
  amount : string;
  currency : string }.

Section Component.
Context (parseFloat : string → Number).

(** The body both handlers post to [/api/payment-intent]. *)
Definition paymentIntentRequest (st : State) (amountValue : Number)
  : PaymentIntent.PaymentIntentRequest :=
  PaymentIntent.mkPaymentIntentRequest
    (customerId st) (JSON_number amountValue) (Some (currency st))
    (Some (selectedPaymentMethodId st)) None (Some true).

(** [handleSubmit]: the request posted, or [None] when the form stops at
    one of its own checks. *)
Definition handleSubmit (st : State)
  : option PaymentIntent.PaymentIntentRequest :=
  match truthy_str (customerId st),
        truthy_str (Some (selectedPaymentMethodId st)) with
  | Some _, Some _ =>
    match parseFloat (amount st) with
    | NaN => None
    | Infinity true => None
    | Infinity false => Some (paymentIntentRequest st (Infinity false))
    | Finite q =>
      if Qle_bool q 0 then None
      else Some (paymentIntentRequest st (Finite q))
    end
  | _, _ => None
  end.

(** [handleRetryPayment]: after the delay it posts a request built from
    the form fields alone. *)
Definition handleRetryPayment (st : State)
  : option PaymentIntent.PaymentIntentRequest :=
  match truthy_str (Some (selectedPaymentMethodId st)) with
  | None => None
  | Some _ => Some (paymentIntentRequest st (parseFloat (amount st)))
  end.

End Component.
End OffSessionPayment.

(** ** The client-facing API as a whole *)

(** One constructor per route and method. *)
Inductive ApiRequest :=
| customers_GET (id : option string)
| customers_POST (json : Result Customers.CreateCustomerRequest)
| customers_DELETE (id : option string)
| payment_methods_GET (customerId id : option string)
| payment_methods_POST (json : Result PaymentMethods.AttachRequest)
| payment_methods_PATCH (json : Result PaymentMethods.UpdateRequest)
| payment_methods_DELETE (id : option string)
| payment_intent_POST (json : Result PaymentIntent.PaymentIntentRequest)
| payment_intent_GET (id : option string)
| payment_intent_PATCH (id action : option string)
| setup_intent_POST (json : Result SetupIntent.SetupIntentRequest)
| setup_intent_GET (id : option string).

Definition route (stripe : StripeSdk) (env : Env) (request : ApiRequest)
  : M Response :=
  match request with
  | customers_GET id => Customers.GET stripe id
  | customers_POST json => Customers.POST stripe json
  | customers_DELETE id => Customers.DELETE stripe id
  | payment_methods_GET customerId id => PaymentMethods.GET stripe customerId id
  | payment_methods_POST json => PaymentMethods.POST stripe env json
  | payment_methods_PATCH json => PaymentMethods.PATCH stripe json
  | payment_methods_DELETE id => PaymentMethods.DELETE stripe id
  | payment_intent_POST json => PaymentIntent.POST stripe json
  | payment_intent_GET id => PaymentIntent.GET stripe id
  | payment_intent_PATCH id action => PaymentIntent.PATCH stripe id action
  | setup_intent_POST json => SetupIntent.POST stripe json
  | setup_intent_GET id => SetupIntent.GET stripe id
  end.

(** An operation on the mirror, for sequences of operations. *)
Inductive MirrorOp :=
| Api (request : ApiRequest)
| Hook (request : Webhook.Request).

Definition step (stripe : StripeSdk) (env : Env) (op : MirrorOp) (w : World)
  : World :=
  match op with
  | Api request => snd (route stripe env request w)
  | Hook request => snd (Webhook.POST stripe env request w)
  end.

(** A run: each operation may meet a different provider and clock. *)
Definition run (ops : list (StripeSdk * Env * MirrorOp)) (w : World) : World :=
  foldl (λ w '(stripe, env, op), step stripe env op w) w ops.

Definition emptyWorld : World := mkWorld [] [] [].

(** ** Notions used to state the properties *)

(** The stores' [save] and [delete] over any record type with a key: both
    classes of [lib/data.ts] are instances ([customers_save_is_upsert] and the
    three lemmas after it). *)
Definition upsert {A} (key : A → string) (x : A) (l : list A) : list A :=
  match list_find (λ y, key y = key x) l with
  | Some (i, _) => <[i := x]> l
  | None => l ++ [x]
  end.

Definition remove {A} (key : A → string) (id : string) (l : list A)
  : list A * bool :=
  let filtered := filter (λ y, key y ≠ id) l in
  if decide (length filtered < length l)%nat then (filtered, true) else (l, false).

(** The content of the Local State Mirror. *)
Definition mirror (w : World) : list CustomerData * list SavedPaymentMethod :=
  (customers w, paymentMethods w).

(** What a handler run added to the trace. *)
Definition new_effects (w w' : World) : list Effect :=
  drop (length (trace w)) (trace w').

Definition isWrite (e : Effect) : Prop :=
  match e with WriteFile _ => True | Remote _ => False end.

(** A handler [m] respects a relation between the world before and after. *)
Definition respects {A} (R : relation World) (m : M A) : Prop :=
  ∀ w, R w (snd (m w)).

(** Nothing but provider calls happened, all of them of the kind [P]: both
    files are as they were. *)
Definition onlyCalls (P : Call → Prop) (w w' : World) : Prop :=
  customers w' = customers w ∧ paymentMethods w' = paymentMethods w
  ∧ ∃ calls, trace w' = (trace w ++ (Remote <$> calls))%list ∧ Forall P calls.

Definition anyCall (c : Call) : Prop := True.

(** The calls [POST /api/payment-intent] may make before [create]. *)
Definition isLookup (c : Call) : Prop :=
  match c with
  | customers_retrieve _ | paymentMethods_retrieve _ => True
  | _ => False
  end.

Definition isLookupOrCreate (c : Call) : Prop :=
  match c with
  | customers_retrieve _ | paymentMethods_retrieve _ | paymentIntents_create _ => True
  | _ => False
  end.

(** A task that is never suspended: it is the synchronous code [m]. *)
Definition unsuspended {A} (t : Async A) (m : M A) : Prop :=
  ∀ w, t w = Finished (m w).1 (m w).2.

(** The charge intents that the provider has been asked to create so far. *)
Definition created (w : World) : list PaymentIntentCreateParams :=
  omap (λ e, match e with
             | Remote (paymentIntents_create params) => Some params
             | _ => None
             end) (trace w).

(** A retry that is requested with the id of the intent: the two requests of
    the API that take one, [PATCH /api/payment-intent?id=..&action=confirm]
    and [GET /api/payment-intent?id=..]. *)
Definition retryWith (id : string) (request : ApiRequest) : Prop :=
  request = payment_intent_PATCH (Some id) (Some "confirm")
  ∨ request = payment_intent_GET (Some id).

(** Whatever [m] returns satisfies [Q] (it may also throw). *)
Definition yields {A} (Q : A → Prop) (m : M A) : Prop :=
  ∀ w, match (m w).1 with Ok a => Q a | Throw _ => True end.

(** [m] always returns, and what it returns satisfies [Q]. *)
Definition returns {A} (Q : A → Prop) (m : M A) : Prop :=
  ∀ w, ∃ a, (m w).1 = Ok a ∧ Q a.

(** The two shapes of the envelope: a success carries [data] with status
    200; a failure carries a message and one of the four error statuses. *)
Definition envelope (r : Response) : Prop :=
  (success (body r) = true ∧ status r = 200
   ∧ is_Some (data (body r)) ∧ error (body r) = None)
  ∨ (success (body r) = false ∧ status r ∈ [400; 402; 404; 500]
     ∧ data (body r) = None ∧ is_Some (error (body r))).

(** Both files hold at most one record per id. *)
Definition uniqueWorld (w : World) : Prop :=
  uniqueIds c_id (customers w) ∧ uniqueIds pm_id (paymentMethods w).

Definition keepsUnique (w w' : World) : Prop :=
  uniqueWorld w → uniqueWorld w'.

(** The webhook's signature check, as [POST] performs it. *)
Definition verifies (stripe : StripeSdk) (env : Env) (request : Webhook.Request)
  : bool :=
  match truthy_str (Webhook.stripe_signature request) with
  | None => false
  | Some signature =>
    match webhooks_constructEvent stripe (Webhook.text request) signature
                                  (STRIPE_WEBHOOK_SECRET env) with
    | Ok _ => true
    | Throw _ => false
    end
  end.

(** A handler that is run twice on end leaves the mirror of the first run. *)
Definition settles (m : M unit) : Prop :=
  ∀ w, mirror (m (m w).2).2 = mirror (m w).2.

(** No response after the amount check is the one of the amount check. *)
Definition pastValidation (r : Response) : Prop :=
  r ≠ respond_error "Valid amount is required" 400.

(** The same for a handler step that may return early. *)
Definition earlyPastValidation (r : Response + PaymentIntentCreateParams) : Prop :=
  match r with inl response => pastValidation response | inr _ => True end.

Definition earlyEnvelope (r : Response + PaymentIntentCreateParams) : Prop :=
  match r with inl response => envelope response | inr _ => True end.

Definition optionalEnvelope (r : option Response) : Prop :=
  match r with Some response => envelope response | None => True end.

(** The default flag stays unique over a handler run. *)
Definition keepsOneDefault (w w' : World) : Prop :=
  oneDefault (paymentMethods w) → oneDefault (paymentMethods w').

(** What the two writers of the flag rely on.  A set-default request names a
    record that belongs to the customer it names (or names no record); for an
    attach request the provider answers with the payment method it was asked
    to attach. *)
Definition ownerMatches (stripe : StripeSdk) (op : MirrorOp) (w : World) : Prop :=
  match op with
  | Api (payment_methods_PATCH (Ok body)) =>
    match truthy_str (PaymentMethods.u_paymentMethodId body),
          truthy_str (PaymentMethods.u_customerId body) with
    | Some paymentMethodId, Some customerId =>
      ∀ t, PaymentMethodDataStore.getById paymentMethodId (paymentMethods w) = Some t →
           pm_customerId t = customerId
    | _, _ => True
    end
  | Api (payment_methods_POST (Ok body)) =>
    match truthy_str (PaymentMethods.paymentMethodId body),
          truthy_str (PaymentMethods.customerId body) with
    | Some paymentMethodId, Some customerId =>
      ∀ paymentMethod,
        do_paymentMethods_attach stripe paymentMethodId customerId = Ok paymentMethod →
        spm_id paymentMethod = paymentMethodId
    | _, _ => True
    end
  | _ => True
  end.

(** [ownerMatches] at every operation of a run, in the world it meets. *)
Fixpoint ownersMatch (ops : list (StripeSdk * Env * MirrorOp)) (w : World) : Prop :=
  match ops with
  | [] => True
  | (stripe, env, op) :: ops =>
    ownerMatches stripe op w ∧ ownersMatch ops (step stripe env op w)
  end.

(** ** Concrete providers, events and requests used in the examples *)

Module Example.

Definition env : Env := mkEnv "whsec_test" 2026.

Definition visa : StripeCard := mkStripeCard "visa" "4242" 12 2030.

Definition paymentMethodObject (id : string) (customer : option string)
  : StripePaymentMethod :=
  mkStripePaymentMethod id (ExpId <$> customer) (Some visa) 1700000000.

Definition customerObject (id email name : string) : StripeCustomer :=
  mkStripeCustomer id (Some email) (Some name) 1700000000 false.

Definition intentObject (id status : string) : StripePaymentIntent :=
  mkStripePaymentIntent id status (Some (id +:+ "_secret")) None None None
                        2500 "usd".

Definition setupIntentObject (id : string) : StripeSetupIntent :=
  mkStripeSetupIntent id (Some (id +:+ "_secret")) None None.

(** A provider that accepts everything; what it answers to
    [paymentIntents.create] and [paymentMethods.attach], and which event a
    body signed with ["good"] carries, are left open. *)
Definition sdk (event : StripeEvent)
    (onCreate : PaymentIntentCreateParams → Result StripePaymentIntent)
    (onAttach : string → string → Result StripePaymentMethod) : StripeSdk :=
  mkSdk
    (λ email name _, Ok (customerObject ("cus_" +:+ name) email name))
    (λ id, Ok (customerObject id "a@example.com" "A"))
    (λ _ _, Ok tt)
    (λ _, Ok tt)
    (λ _, Ok ([], false))
    (λ id, Ok (paymentMethodObject id (Some "cus_A")))
    onAttach
    (λ _, Ok tt)
    (λ _, Ok [])
    onCreate
    (λ id, Ok (intentObject id "requires_action"))
    (λ id, Ok (intentObject id "succeeded"))
    (λ id, Ok (intentObject id "canceled"))
    (λ customer _, Ok (setupIntentObject "seti_1"))
    (λ id, Ok (setupIntentObject id))
    (λ _ signature _,
       if decide (signature = "good") then Ok event
       else Throw (ThrownError
         "No signatures found matching the expected signature for payload")).

Definition attachOk (id customer : string) : Result StripePaymentMethod :=
  Ok (paymentMethodObject id (Some customer)).

Definition createSucceeds (params : PaymentIntentCreateParams)
  : Result StripePaymentIntent := Ok (intentObject "pi_2" "succeeded").

Definition noEvent : StripeEvent := mkEvent "evt_0" (other_event "ping").

Definition accepting : StripeSdk := sdk noEvent createSucceeds attachOk.

(** [pm_1] attached to [cus_A] as default, then [pm_2] attached to [cus_A]. *)
Definition attachTwo : list (StripeSdk * Env * MirrorOp) :=
  [ (accepting, env,
     Api (payment_methods_POST
            (Ok (PaymentMethods.mkAttachRequest (Some "pm_1") (Some "cus_A")
                                                (Some true)))));
    (accepting, env,
     Api (payment_methods_POST
            (Ok (PaymentMethods.mkAttachRequest (Some "pm_2") (Some "cus_A")
                                                None)))) ].

(** The set-default request that names [pm_2] together with another
    customer. *)
Definition setDefaultForOther : MirrorOp :=
  Api (payment_methods_PATCH
         (Ok (PaymentMethods.mkUpdateRequest (Some "pm_2") (Some "cus_B")
                                             (Some "set_default")))).

Definition card : Card := mkCard "visa" "4242" 12 2030.
Definition pm_1 (isDefault : bool) : SavedPaymentMethod :=
  mkSavedPaymentMethod "pm_1" "cus_A" card 1700000000000 (Some isDefault).
Definition pm_2 (isDefault : bool) : SavedPaymentMethod :=
  mkSavedPaymentMethod "pm_2" "cus_A" card 1700000000000 (Some isDefault).

(** A [payment_method.attached] event for [pm_1] of [cus_A]. *)
Definition attachedEvent : StripeEvent :=
  mkEvent "evt_1" (payment_method_attached (paymentMethodObject "pm_1" (Some "cus_A"))).

Definition delivery : MirrorOp :=
  Hook (Webhook.mkRequest "{...}" (Some "good")).

Definition setDefault_pm_1 : MirrorOp :=
  Api (payment_methods_PATCH
         (Ok (PaymentMethods.mkUpdateRequest (Some "pm_1") (Some "cus_A")
                                             (Some "set_default")))).

(** The event is delivered, [pm_1] is made the default, and the same event
    is delivered again. *)
Definition deliveredThenDefault : list (StripeSdk * Env * MirrorOp) :=
  [ (sdk attachedEvent createSucceeds attachOk, env, delivery);
    (accepting, env, setDefault_pm_1) ].

Definition alice : CustomerData :=
  mkCustomerData "cus_Alice" "alice@example.com" "Alice" 1700000000000 [].

Definition bob : CustomerData :=
  mkCustomerData "cus_Bob" "bob@example.com" "Bob" 1700000000000 [].

(** Alice is created through the route. *)
Definition createAlice : list (StripeSdk * Env * MirrorOp) :=
  [ (accepting, env,
     Api (customers_POST
            (Ok (Customers.mkCreateCustomerRequest
                   (Some "alice@example.com") (Some "Alice") [])))) ].

(** Providers that fail: [create] or [attach] throws an [Error] with the
    given message. *)
Definition declines (message : string) (params : PaymentIntentCreateParams)
  : Result StripePaymentIntent := Throw (ThrownError message).

Definition attachFails (message : string) (id customer : string)
  : Result StripePaymentMethod := Throw (ThrownError message).

Definition requiresAction (params : PaymentIntentCreateParams)
  : Result StripePaymentIntent := Ok (intentObject "pi_1" "requires_action").

(** The off-session form: customer, selected card, amount and currency. *)
Definition form : OffSessionPayment.State :=
  OffSessionPayment.mkState (Some "cus_A") "pm_1" "25.00" "usd".

(** [parseFloat] on the one string the form holds. *)
Definition parseFloat (s : string) : Number :=
  if decide (s = "25.00") then Finite 25 else NaN.

Definition chargeRequest : PaymentIntent.PaymentIntentRequest :=
  PaymentIntent.mkPaymentIntentRequest
    (Some "cus_A") (Some (25 : Q)) (Some "usd") (Some "pm_1") None (Some true).

Definition chargeParams : PaymentIntentCreateParams :=
  mkParams 2500 "usd" "false" "true" (Some "cus_A") (Some "pm_1")
           (Some true) (Some true) None.

(** A [customer.deleted] event for [cus_A]. *)
Definition deletedEvent : StripeEvent :=
  mkEvent "evt_2" (customer_deleted (customerObject "cus_A" "a@example.com" "A")).

Definition attachRequest : PaymentMethods.AttachRequest :=
  PaymentMethods.mkAttachRequest (Some "pm_1") (Some "cus_X") None.

(** A mirror that holds [cus_A] and [cus_Bob]; two of the three cards are
    cards of [cus_A]. *)
Definition cus_A : CustomerData :=
  mkCustomerData "cus_A" "a@example.com" "A" 1700000000000 [].
Definition pm_3 : SavedPaymentMethod :=
  mkSavedPaymentMethod "pm_3" "cus_Bob" card 1700000000000 (Some true).
Definition withCards : World :=
  mkWorld [cus_A; bob] [pm_1 true; pm_3; pm_2 false] [].

(** What the SDK throws for a declined card: a [StripeCardError] with
    [code: 'card_declined'] and this [message]. *)
Definition cardDeclined : string := "Your card was declined.".

(** An off-session charge with [saveCard]. *)
Definition chargeAndSave : PaymentIntent.PaymentIntentRequest :=
  PaymentIntent.mkPaymentIntentRequest
    (Some "cus_A") (Some (25 : Q)) (Some "usd") (Some "pm_1") (Some true) (Some true).

Definition chargeAndSaveParams : PaymentIntentCreateParams :=
  mkParams 2500 "usd" "true" "true" (Some "cus_A") (Some "pm_1")
           (Some true) (Some true) (Some "off_session").

(** A provider that asks for authentication when the intent is created. *)
Definition asksAuthentication : StripeSdk := sdk noEvent requiresAction attachOk.


End Example.

(** ** The test data of [lib/data.ts] *)

Module TestData.

(** [generateTestCustomers]: each record takes its [created] from its own
    call of [Date.now()]. *)
Definition generateTestCustomers (now1 now2 now3 : Z) : list CustomerData :=
  [ mkCustomerData "cus_test_001" "john.doe@example.com" "John Doe" now1 [];
    mkCustomerData "cus_test_002" "jane.smith@example.com" "Jane Smith" now2 [];
    mkCustomerData "cus_test_003" "bob.wilson@example.com" "Bob Wilson" now3 [] ].

(** [initializeTestData]: only an empty customers file is filled. *)
Definition initializeTestData (now1 now2 now3 : Z) : M unit :=
  existingCustomers ← Fs.customers_getAll;
  if decide (length existingCustomers = 0%nat)
  then Fs.forEach Fs.CustomerDataStore_save (generateTestCustomers now1 now2 now3)
  else mret tt.

End TestData.

(** ** The off-session form: what it shows for the answer of the route *)

Module OffSessionAnswer.

(** [formState] of the component. *)
Record FormState := mkFormState {
  fs_loading : bool;
  fs_error : option string;
  fs_success : option string }.

(** What [handleSubmit] has set when it returns: the form state, the
    authentication link, and the intent id passed to [onSuccess] if it was
    called (the callback is taken to return). *)
Record Shown := mkShown {
  formState : FormState;
  authenticateUrl : option string;
  onSuccess : option string }.

(** The [data] of the envelope as the form reads it: the route it posts to
    answers with a [PaymentIntentResponse] or with no [data]. *)
Definition paymentIntentData (response : Response)
  : option PaymentIntentResponse :=
  match data (body response) with
  | Some (DPaymentIntentResponse r) => Some r
  | _ => None
  end.

Section Component.
(** [window.location.origin], the [customerId] prop, and the text
    [formatAmount(amountValue * 100, currency)]. *)
Context (origin customerId formatted : string).

Definition failed (message : string) : Shown :=
  mkShown (mkFormState false (Some message) None) None None.

(** The part of [handleSubmit] after [await response.json()], with its
    [catch]: [status] is [response.status], the other arguments are the
    fields of [result]. *)
Definition handleSubmit (status : Z) (result_success : bool)
    (result_data : option PaymentIntentResponse) (result_error : option string)
  : Shown :=
  match result_success, result_data with
  | true, Some data =>
    if decide (pir_status data = "succeeded")
    then mkShown
           (mkFormState false None
              (Some ("Off-session payment succeeded! Amount: " +:+ formatted)))
           None (Some (paymentIntentId data))
    else if decide (pir_status data = "requires_action"
                    ∧ requiresAction data = Some true)
    then mkShown
           (mkFormState false None
              (Some "Payment requires customer authentication. In a real app, the customer would receive an email with a secure link."))
           (Some (origin +:+ "/authenticate?payment_intent="
                  +:+ paymentIntentId data))
           None
    else failed ("Unexpected payment status: " +:+ pir_status data)
  | _, _ =>
    let errorMsg := or_str result_error "Failed to create PaymentIntent" in
    if includes errorMsg "No such customer"
    then failed ("Customer " +:+ customerId +:+
                 " not found. Please select a valid customer from your Stripe account.")
    else if bool_decide (status = 402)
            && includes errorMsg "authentication_required"
    then mkShown
           (mkFormState false None
              (Some "Payment requires customer authentication. In a real app, an email would be sent to the customer."))
           (Some (origin +:+ "/authenticate?payment_intent="
                  +:+ or_str (paymentIntentId <$> result_data) "pi_mock"))
           None
    else failed errorMsg
  end.

(** The form on the answer of [POST /api/payment-intent]. *)
Definition shows (response : Response) : Shown :=
  handleSubmit (status response) (success (body response))
               (paymentIntentData response) (error (body response)).

End Component.
End OffSessionAnswer.

(** ** The customer selector ([CustomerDropdown]): what it shows for the
    answer of [POST /api/customers] *)

Module CustomerDropdown.

(** What [handleCreateCustomer] has set when it returns: the two messages
    and the id passed to [onCustomerSelect] if it was called. *)
Record Shown := mkShown {
  shownError : option string;
  shownSuccess : option string;
  selected : option string }.

(** The [data] of the envelope as [POST /api/customers] fills it: the stored
    record itself for a known email, [{ stripe, local }] for a new customer. *)
Inductive CreateData :=
| Existing (existingCustomer : CustomerData)
| Created (stripe : StripeCustomer) (local : CustomerData).

Definition createData (response : Response) : option CreateData :=
  match data (body response) with
  | Some (DExistingCustomer c) => Some (Existing c)
  | Some (DCustomerCreated s l) => Some (Created s l)
  | _ => None
  end.

(** The part of [handleCreateCustomer] after [await response.json()], with
    its [catch].  On success it reads [result.data.local.name]: when [data]
    has no [local] the read throws a [TypeError] and the [catch] sets the
    network message.  Otherwise it sets the success message, awaits
    [loadCustomers], which clears the error and may set its own
    ([reloadError]), and selects the new customer. *)
Definition handleCreateCustomer (reloadError : option string)
    (result_success : bool) (result_data : option CreateData)
    (result_error : option string) : Shown :=
  if result_success then
    match result_data with
    | Some (Created _ local) =>
      mkShown reloadError
              (Some ("Customer " +:+ quoted (c_name local) +:+ " created!"))
              (Some (c_id local))
    | _ => mkShown (Some "Network error while creating customer") None None
    end
  else mkShown (Some (or_str result_error "Failed to create customer")) None None.

(** The selector on the answer of [POST /api/customers]. *)
Definition shows (reloadError : option string) (response : Response) : Shown :=
  handleCreateCustomer reloadError (success (body response))
                       (createData response) (error (body response)).

(** [loadCustomers]: the list it shows for the answer of
    [GET /api/customers]. *)

(** [new Map(localCustomers.map(c => [c.id, c])).get(id)]: of two entries
    with the same key the later one stays. *)
Definition localCustomersMap_get (localCustomers : list CustomerData)
    (id : string) : option CustomerData :=
  snd <$> list_find (λ c, c_id c = id) (reverse localCustomers).

(** The record built for a customer that only the provider knows. *)
Definition fromStripe (stripeCustomer : StripeCustomer) : CustomerData :=
  mkCustomerData (cust_id stripeCustomer)
                 (or_str (cust_email stripeCustomer) EmptyString)
                 (or_str (cust_name stripeCustomer) EmptyString)
                 (cust_created stripeCustomer * 1000)
                 [].

(** [stripeCustomers.map(...)] followed by the [localCustomers.forEach(...)]
    that pushes. *)
Definition mergedCustomers (localCustomers : list CustomerData)
    (stripeCustomers : list StripeCustomer) : list CustomerData :=
  let mapped :=
    (λ stripeCustomer,
       match localCustomersMap_get localCustomers (cust_id stripeCustomer) with
       | Some localData => localData
       | None => fromStripe stripeCustomer
       end) <$> stripeCustomers in
  foldl (λ mergedCustomers localCustomer,
           let existsInStripe :=
             bool_decide (Exists (λ sc, cust_id sc = c_id localCustomer)
                                 stripeCustomers) in
           if existsInStripe
              && negb (bool_decide
                         (is_Some (list_find (λ c, c_id c = c_id localCustomer)
                                             mergedCustomers)))
           then (mergedCustomers ++ [localCustomer])%list
           else mergedCustomers)
        mapped localCustomers.

(** [sort((a, b) => b.created - a.created)]: the sort is stable, so it is the
    insertion, from the right, of each record before the first one that is
    not newer. *)
Fixpoint insertByCreated (x : CustomerData) (l : list CustomerData)
  : list CustomerData :=
  match l with
  | [] => [x]
  | y :: l' =>
    if decide (c_created x < c_created y)
    then y :: insertByCreated x l'
    else x :: y :: l'
  end.

Definition sortByCreated (l : list CustomerData) : list CustomerData :=
  foldr insertByCreated [] l.

(** What [setCustomers] receives on a success answer. *)
Definition loadCustomers (localCustomers : list CustomerData)
    (stripeCustomers : list StripeCustomer) : list CustomerData :=
  sortByCreated (mergedCustomers localCustomers stripeCustomers).

End CustomerDropdown.

(** ** Further notions used to state properties *)

(** The routes that only read: every [GET], and all of
    [/api/payment-intent] and [/api/setup-intent]. *)
Definition readsOnly (request : ApiRequest) : Prop :=
  match request with
  | customers_GET _ | payment_methods_GET _ _
  | payment_intent_POST _ | payment_intent_GET _ | payment_intent_PATCH _ _
  | setup_intent_POST _ | setup_intent_GET _ => True
  | _ => False
  end.

(** The calls of the customers listing. *)
Definition isList (c : Call) : Prop :=
  match c with customers_list _ => True | _ => False end.

(** No customer has more default cards after the run than before. *)
Definition noNewDefault (w w' : World) : Prop :=
  ∀ customerId,
    (length (defaultsOf customerId (paymentMethods w'))
     ≤ length (defaultsOf customerId (paymentMethods w)))%nat.

(** The two operations that write the flag [true]. *)
Definition writesDefault (op : MirrorOp) : Prop :=
  match op with
  | Api (payment_methods_POST _) | Api (payment_methods_PATCH _) => True
  | _ => False
  end.

(** ** Further providers and events used in the examples *)

Module Scenario.

(** A provider that answers as [stripe] does, except that
    [paymentMethods.retrieve] and [customers.list] are given. *)
Definition answering (stripe : StripeSdk)
    (onRetrieve : string → Result StripePaymentMethod)
    (onList : option string → Result (list StripeCustomer * bool)) : StripeSdk :=
  mkSdk (do_customers_create stripe) (do_customers_retrieve stripe)
        (do_customers_update stripe) (do_customers_del stripe)
        onList
        onRetrieve
        (do_paymentMethods_attach stripe) (do_paymentMethods_detach stripe)
        (do_paymentMethods_list stripe) (do_paymentIntents_create stripe)
        (do_paymentIntents_retrieve stripe) (do_paymentIntents_confirm stripe)
        (do_paymentIntents_cancel stripe) (do_setupIntents_create stripe)
        (do_setupIntents_retrieve stripe) (webhooks_constructEvent stripe).

(** A [setup_intent.succeeded] event for [pm_1] of [cus_A]. *)
Definition setupSucceeded : StripeEvent :=
  mkEvent "evt_3"
    (setup_intent_succeeded
       (mkStripeSetupIntent "seti_1" (Some "seti_1_secret")
                            (Some (ExpId "pm_1")) (Some (ExpId "cus_A")))).

Definition retrieveFails (id : string) : Result StripePaymentMethod :=
  Throw (ThrownError "No such payment_method").

(** A provider with more customers than one page holds, whose second page
    throws. *)
Definition secondPageFails (starting_after : option string)
  : Result (list StripeCustomer * bool) :=
  match starting_after with
  | None =>
    Ok ([Example.customerObject "cus_1" "one@example.com" "One";
         Example.customerObject "cus_2" "two@example.com" "Two"], true)
  | Some _ => Throw (ThrownError "Rate limit exceeded")
  end.

Definition signed : Webhook.Request := Webhook.mkRequest "{...}" (Some "good").

End Scenario.

(** A list of customers with no entry older than an entry after it. *)
Fixpoint newestFirst (l : list CustomerData) : Prop :=
  match l with
  | [] => True
  | x :: l' => Forall (λ y, (c_created y ≤ c_created x)%Z) l' ∧ newestFirst l'
  end.

(** No stored customer lists a payment method in its [paymentMethods]. *)
Definition noCardsListed (w : World) : Prop :=
  Forall (λ c, c_paymentMethods c = []) (customers w).

Definition keepsNoCardsListed (w w' : World) : Prop :=
  noCardsListed w → noCardsListed w'.

Close Scope string_scope.

(** * Properties *)

(** ** The stores: one record per id *)

Section Keyed.
Context {A : Type} (key : A → string).

Lemma upsert_keys_found x l i y :
  list_find (λ y, key y = key x) l = Some (i, y) →
  key <$> <[i := x]> l = key <$> l.
Proof.
  intros (Hi & Hk & _)%list_find_Some.
  rewrite list_fmap_insert. apply list_insert_id.
  rewrite list_lookup_fmap, Hi. simpl. by rewrite Hk.
Qed.

Lemma upsert_fresh x l :
  list_find (λ y, key y = key x) l = None → key x ∉ key <$> l.
Proof.
  intros Hn%list_find_None (y & Hy & Hin)%list_elem_of_fmap.
  rewrite Forall_forall in Hn. by apply (Hn y).
Qed.

Lemma upsert_unique x l : uniqueIds key l → uniqueIds key (upsert key x l).
Proof.
  unfold uniqueIds, upsert. intros Hnd.
  destruct (list_find _ l) as [[i y]|] eqn:Hf.
  - by rewrite (upsert_keys_found _ _ _ _ Hf).
  - rewrite fmap_app. apply NoDup_app. split_and!; [done | | apply NoDup_singleton].
    intros k Hk ->%list_elem_of_singleton. by apply (upsert_fresh _ _ Hf).
Qed.

Lemma upsert_find x l :
  list_find (λ y, key y = key x) (upsert key x l) =
    Some (default (length l) (fst <$> list_find (λ y, key y = key x) l), x).
Proof.
  unfold upsert. destruct (list_find _ l) as [[i y]|] eqn:Hf; simpl.
  - apply list_find_Some in Hf as (Hi & Hk & Hleast).
    apply list_find_Some. split_and!; [|done|].
    + apply list_lookup_insert_eq. by eapply lookup_lt_Some.
    + intros j z Hj Hlt. rewrite list_lookup_insert_ne in Hj by lia. eauto.
  - apply list_find_None in Hf. apply list_find_Some. split_and!; [|done|].
    + by rewrite lookup_app_r, Nat.sub_diag.
    + intros j z Hj Hlt. rewrite lookup_app_l in Hj by done.
      rewrite Forall_lookup in Hf. eauto.
Qed.

Lemma upsert_idem x l : upsert key x (upsert key x l) = upsert key x l.
Proof.
  unfold upsert at 1. rewrite upsert_find. 
  apply list_insert_id.
  pose proof (upsert_find x l) as (H & _)%list_find_Some. done.
Qed.

Lemma remove_fst id l : fst (remove key id l) = filter (λ y, key y ≠ id) l.
Proof.
  unfold remove. simpl. case_decide; [done|]. simpl.
  symmetry. 
  induction l as [|a l IH]; [done|].
  rewrite filter_cons in *. case_decide; simpl in *.
  - f_equal. apply IH. lia.
  - pose proof (length_filter (λ y, key y ≠ id) l). lia.
Qed.

Lemma remove_snd id l : snd (remove key id l) = true ↔ id ∈ key <$> l.
Proof.
  unfold remove. simpl. case_decide as Hlt; simpl; split; try done.
  - intros _. apply dec_stable. intros Hn.
    assert (filter (λ y, key y ≠ id) l = l) as Heq; [|rewrite Heq in Hlt; lia].
    clear Hlt. induction l as [|a l IH]; [done|].
    rewrite fmap_cons, not_elem_of_cons in Hn. destruct Hn as [Hne Hn].
    rewrite filter_cons_True by done. f_equal. auto.
  - intros (y & -> & Hin)%list_elem_of_fmap. exfalso. apply Hlt.
    clear Hlt. induction Hin as [y l|y z l Hin IH].
    + rewrite filter_cons_False by (intros H; by apply H). simpl.
      pose proof (length_filter (λ y0, key y0 ≠ key y) l). lia.
    + rewrite filter_cons. case_decide; simpl; lia.
Qed.

Lemma remove_gone id l : id ∉ key <$> fst (remove key id l).
Proof.
  rewrite remove_fst. intros (y & -> & Hin)%list_elem_of_fmap.
  apply list_elem_of_filter in Hin as [Hne _]. done.
Qed.

Lemma remove_unique id l : uniqueIds key l → uniqueIds key (fst (remove key id l)).
Proof.
  unfold uniqueIds. rewrite remove_fst. intros Hnd.
  induction l as [|a l IH]; [done|].
  rewrite fmap_cons in Hnd. apply NoDup_cons in Hnd as [Hnin Hnd].
  rewrite filter_cons. case_decide; auto.
  rewrite fmap_cons. apply NoDup_cons. split; auto.
  intros (y & Hy & Hin)%list_elem_of_fmap. apply Hnin.
  apply list_elem_of_filter in Hin as [_ Hin].
  apply list_elem_of_fmap. eauto.
Qed.
End Keyed.

Lemma customers_save_is_upsert customer customers :
  CustomerDataStore.save customer customers = upsert c_id customer customers.
Proof. reflexivity. Qed.

Lemma customers_delete_is_remove id customers :
  CustomerDataStore.delete id customers = remove c_id id customers.
Proof. reflexivity. Qed.

Lemma paymentMethods_save_is_upsert paymentMethod paymentMethods :
  PaymentMethodDataStore.save paymentMethod paymentMethods
  = upsert pm_id paymentMethod paymentMethods.
Proof. reflexivity. Qed.

Lemma paymentMethods_delete_is_remove id paymentMethods :
  PaymentMethodDataStore.delete id paymentMethods = remove pm_id id paymentMethods.
Proof. reflexivity. Qed.

(** With unique keys, the slot [save] overwrites is the one holding the key. *)
Lemma upsert_in_place {A} (key : A → string) x l i :
  uniqueIds key l → (key <$> l) !! i = Some (key x) →
  upsert key x l = <[i := x]> l.
Proof.
  intros Hnd Hi. unfold upsert.
  destruct (list_find _ l) as [[j y]|] eqn:Hf.
  - apply list_find_Some in Hf as (Hj & Hk & _).
    assert ((key <$> l) !! j = Some (key x)) as Hj'
      by (by rewrite list_lookup_fmap, Hj; simpl; rewrite Hk).
    by rewrite (NoDup_lookup _ _ _ _ Hnd Hj' Hi).
  - apply upsert_fresh in Hf. exfalso. apply Hf.
    by eapply list_elem_of_lookup_2.
Qed.

Lemma upsert_length {A} (key : A → string) x l :
  length (upsert key x l)
  = if decide (key x ∈ key <$> l) then length l else S (length l).
Proof.
  unfold upsert. destruct (list_find _ l) as [[j y]|] eqn:Hf.
  - rewrite length_insert. apply list_find_Some in Hf as (Hj & Hk & _).
    rewrite decide_True; [done|].
    apply list_elem_of_fmap. exists y. split; [done|].
    by eapply list_elem_of_lookup_2.
  - rewrite length_app. simpl. apply upsert_fresh in Hf.
    rewrite decide_False by done. lia.
Qed.

(** ** The default flag *)

Section FilterInsert.
Context {A : Type} (P : A → Prop) `{!∀ x, Decision (P x)}.

Lemma filter_insert_le (l : list A) i y :
  (length (filter P (<[i := y]> l)) ≤ S (length (filter P l)))%nat.
Proof.
  revert i. induction l as [|a l IH]; intros [|i]; simpl; try lia.
  - rewrite !filter_cons. repeat case_decide; simpl; lia.
  - rewrite !filter_cons. specialize (IH i). case_decide; simpl; lia.
Qed.

Lemma filter_insert_not (l : list A) i y :
  ¬ P y → (length (filter P (<[i := y]> l)) ≤ length (filter P l))%nat.
Proof.
  intros Hy. revert i. induction l as [|a l IH]; intros [|i]; simpl; try lia.
  - rewrite (filter_cons_False _ y) by done. rewrite filter_cons.
    case_decide; simpl; lia.
  - rewrite !filter_cons. specialize (IH i). case_decide; simpl; lia.
Qed.

Lemma filter_filter_le (Q : A → Prop) `{!∀ x, Decision (Q x)} (l : list A) :
  (length (filter P (filter Q l)) ≤ length (filter P l))%nat.
Proof.
  induction l as [|a l IH]; [done|].
  rewrite (filter_cons Q). case_decide.
  - rewrite !filter_cons. case_decide; simpl; lia.
  - rewrite filter_cons. case_decide; simpl; lia.
Qed.
End FilterInsert.

Lemma defaultsOf_clear_same c l :
  defaultsOf c (PaymentMethodDataStore.clearDefaults c l) = [].
Proof.
  unfold defaultsOf, PaymentMethodDataStore.clearDefaults.
  induction l as [|a l IH]; [done|]. rewrite fmap_cons, filter_cons.
  rewrite decide_False; [done|]. case_decide; simpl; intros [? ?]; congruence.
Qed.

Lemma defaultsOf_clear_other c c' l :
  c' ≠ c →
  defaultsOf c' (PaymentMethodDataStore.clearDefaults c l) = defaultsOf c' l.
Proof.
  intros Hne. unfold defaultsOf, PaymentMethodDataStore.clearDefaults.
  induction l as [|a l IH]; [done|]. rewrite fmap_cons, !filter_cons, IH.
  destruct (decide (pm_customerId a = c)) as [Ha|Ha]; [|done].
  rewrite !decide_False; [done| |]; simpl; intros [? ?]; congruence.
Qed.

Lemma clearDefaults_find p c l :
  list_find (λ pm, pm_id pm = p) (PaymentMethodDataStore.clearDefaults c l)
  = prod_map id (λ pm, if decide (pm_customerId pm = c)
                       then PaymentMethodDataStore.set_isDefault false pm else pm)
      <$> list_find (λ pm, pm_id pm = p) l.
Proof.
  unfold PaymentMethodDataStore.clearDefaults. rewrite list_find_fmap.
  f_equal. apply list_find_ext. intros pm. simpl. by case_decide.
Qed.

(** [setAsDefault] touches neither ids nor owners. *)
Lemma setAsDefault_ids p c l :
  pm_id <$> PaymentMethodDataStore.setAsDefault p c l = pm_id <$> l.
Proof.
  unfold PaymentMethodDataStore.setAsDefault.
  assert (pm_id <$> PaymentMethodDataStore.clearDefaults c l = pm_id <$> l) as Hc.
  { unfold PaymentMethodDataStore.clearDefaults. rewrite <- list_fmap_compose.
    apply list_fmap_ext. intros i pm _. simpl. by case_decide. }
  destruct (list_find _ _) as [[i t]|] eqn:Hf; [|done].
  apply list_find_Some in Hf as (Hi & _ & _).
  rewrite list_fmap_insert. simpl. rewrite list_insert_id; [done|].
  by rewrite list_lookup_fmap, Hi.
Qed.

(** When the target is a record of the very customer the flags were cleared
    for (or there is no target), one operation leaves at most one default. *)
Lemma setAsDefault_oneDefault p c l :
  (∀ t, PaymentMethodDataStore.getById p l = Some t → pm_customerId t = c) →
  (∀ c', c' ≠ c → (length (defaultsOf c' l) ≤ 1)%nat) →
  oneDefault (PaymentMethodDataStore.setAsDefault p c l).
Proof.
  intros Hown Hothers c'. unfold PaymentMethodDataStore.setAsDefault.
  rewrite clearDefaults_find.
  unfold PaymentMethodDataStore.getById in Hown.
  destruct (list_find _ l) as [[i t]|] eqn:Hf; simpl.
  - specialize (Hown t eq_refl).
    destruct (decide (c' = c)) as [->|Hne].
    + unfold defaultsOf at 1.
      etrans; [apply filter_insert_le|].
      fold (defaultsOf c (PaymentMethodDataStore.clearDefaults c l)).
      by rewrite defaultsOf_clear_same.
    + unfold defaultsOf at 1.
      etrans; [apply filter_insert_not|].
      * rewrite decide_True by done. simpl. intros [? _]. congruence.
      * fold (defaultsOf c' (PaymentMethodDataStore.clearDefaults c l)).
        rewrite defaultsOf_clear_other by done. auto.
  - destruct (decide (c' = c)) as [->|Hne].
    + rewrite defaultsOf_clear_same. simpl. lia.
    + rewrite defaultsOf_clear_other by done. auto.
Qed.

Lemma save_defaults_le x c' l :
  ¬ (pm_customerId x = c' ∧ pm_isDefault x = Some true) →
  (length (defaultsOf c' (PaymentMethodDataStore.save x l))
   ≤ length (defaultsOf c' l))%nat.
Proof.
  intros Hx. unfold PaymentMethodDataStore.save, defaultsOf.
  destruct (list_find _ l) as [[i t]|].
  - by apply filter_insert_not.
  - rewrite filter_app, filter_cons_False, filter_nil, app_nil_r by done. done.
Qed.

Lemma delete_defaults_le id c' l :
  (length (defaultsOf c' (PaymentMethodDataStore.delete id l).1)
   ≤ length (defaultsOf c' l))%nat.
Proof.
  rewrite paymentMethods_delete_is_remove, remove_fst.
  apply filter_filter_le.
Qed.

(** A record saved without the flag never adds a default. *)
Lemma save_nondefault_oneDefault x l :
  pm_isDefault x ≠ Some true → oneDefault l →
  oneDefault (PaymentMethodDataStore.save x l).
Proof.
  intros Hx Hl c'. etrans; [apply save_defaults_le|apply Hl]. by intros [_ ?].
Qed.

Lemma delete_oneDefault id l :
  oneDefault l → oneDefault (PaymentMethodDataStore.delete id l).1.
Proof. intros Hl c'. etrans; [apply delete_defaults_le|apply Hl]. Qed.

(** The attach route with [isDefault]: [save], then [setAsDefault] on the
    record just saved. *)
Lemma attach_default_oneDefault x l :
  oneDefault l →
  oneDefault (PaymentMethodDataStore.setAsDefault (pm_id x) (pm_customerId x)
                (PaymentMethodDataStore.save x l)).
Proof.
  intros Hl. apply setAsDefault_oneDefault.
  - intros t. unfold PaymentMethodDataStore.getById.
    rewrite paymentMethods_save_is_upsert, upsert_find. simpl. by intros [= <-].
  - intros c' Hne. etrans; [apply save_defaults_le|apply Hl]. intros [? _]. congruence.
Qed.

(** ** Reasoning about handler runs *)

Lemma bind_run {A B} (m : M A) (f : A → M B) w :
  (m ≫= f) w = match m w with
               | (Ok a, w') => f a w'
               | (Throw t, w') => (Throw t, w')
               end.
Proof. reflexivity. Qed.

Lemma remote_run {A} c (answer : Result A) w :
  remote c answer w
  = (answer, mkWorld (customers w) (paymentMethods w) (trace w ++ [Remote c])).
Proof. reflexivity. Qed.

Section Respects.
Context (R : relation World) `{!PreOrder R}.

Lemma respects_ret {A} (a : A) : respects R (mret a).
Proof. intros w. reflexivity. Qed.

Lemma respects_lift {A} (r : Result A) : respects R (lift r).
Proof. intros w. reflexivity. Qed.

Lemma respects_throw {A} (t : Thrown) : respects R (@throw A t).
Proof. intros w. reflexivity. Qed.

Lemma respects_bind {A B} (m : M A) (f : A → M B) :
  respects R m → (∀ a, respects R (f a)) → respects R (m ≫= f).
Proof.
  intros Hm Hf w. unfold mbind, M_bind. specialize (Hm w).
  destruct (m w) as [[a|t] w1]; simpl in *; [|done].
  etrans; [exact Hm|apply Hf].
Qed.

Lemma respects_try_catch {A} (m : M A) (h : Thrown → M A) :
  respects R m → (∀ t, respects R (h t)) → respects R (try_catch m h).
Proof.
  intros Hm Hh w. unfold try_catch. specialize (Hm w).
  destruct (m w) as [[a|t] w1]; simpl in *; [done|].
  etrans; [exact Hm|apply Hh].
Qed.

Lemma respects_forEach {A} (f : A → M unit) (l : list A) :
  (∀ x, respects R (f x)) → respects R (Fs.forEach f l).
Proof.
  intros Hf. induction l as [|x l IH]; simpl.
  - apply respects_ret.
  - apply respects_bind; auto.
Qed.

Lemma respects_getters :
  respects R Fs.customers_getAll ∧ respects R Fs.paymentMethods_getAll.
Proof. split; intros w; reflexivity. Qed.
End Respects.

(** One syntactic step through a handler body. *)
Ltac respects_step :=
  lazymatch goal with
  | |- respects _ (mret _) => apply respects_ret; try apply _
  | |- respects _ (lift _) => apply respects_lift; try apply _
  | |- respects _ (throw _) => apply respects_throw; try apply _
  | |- respects _ (_ ≫= _) => apply respects_bind; [apply _| |intros ?]
  | |- respects _ (try_catch _ _) => apply respects_try_catch; [apply _| |intros ?]
  | |- respects _ (Fs.forEach _ _) => apply respects_forEach; [apply _|intros ?]
  | |- respects _ Fs.customers_getAll => apply respects_getters; apply _
  | |- respects _ Fs.paymentMethods_getAll => apply respects_getters; apply _
  | |- respects _ (match ?x with _ => _ end) => destruct x eqn:?
  | |- respects _ (let _ := _ in _) => cbv zeta
  end.

Lemma onlyCalls_preorder P : PreOrder (onlyCalls P).
Proof.
  split.
  - intros w. split_and!; [done..|]. exists []. simpl. by rewrite app_nil_r.
  - intros w1 w2 w3 (Hc1 & Hp1 & k1 & Ht1 & HP1) (Hc2 & Hp2 & k2 & Ht2 & HP2).
    split_and!; [congruence..|]. exists (k1 ++ k2). split.
    + rewrite Ht2, Ht1, fmap_app. by rewrite app_assoc.
    + by apply Forall_app.
Qed.

Lemma keepsUnique_preorder : PreOrder keepsUnique.
Proof. split; unfold keepsUnique; [intros w|intros w1 w2 w3]; tauto. Qed.

#[global] Existing Instance onlyCalls_preorder.
#[global] Existing Instance keepsUnique_preorder.

Lemma onlyCalls_remote {A} (P : Call → Prop) c (answer : Result A) :
  P c → respects (onlyCalls P) (remote c answer).
Proof.
  intros HP w. unfold remote, log, lift, mbind, M_bind; simpl.
  split_and!; [done..|]. exists [c]. split; [done|]. by apply Forall_singleton.
Qed.

Lemma onlyCalls_weaken (P Q : Call → Prop) w w' :
  (∀ c, P c → Q c) → onlyCalls P w w' → onlyCalls Q w w'.
Proof.
  intros HPQ (Hc & Hp & calls & Ht & HP). split_and!; [done..|].
  exists calls. split; [done|]. eapply Forall_impl; eauto.
Qed.

Lemma onlyCalls_new_effects P w w' :
  onlyCalls P w w' →
  ∃ calls, new_effects w w' = Remote <$> calls ∧ Forall P calls.
Proof.
  unfold new_effects. intros (_ & _ & calls & -> & HP).
  rewrite drop_app_length. by exists calls.
Qed.

Lemma onlyCalls_no_write P w w' :
  onlyCalls P w w' → Forall (λ e, ¬ isWrite e) (new_effects w w').
Proof.
  intros (calls & -> & _)%onlyCalls_new_effects.
  apply Forall_fmap, Forall_forall. intros c _. simpl. tauto.
Qed.

Lemma onlyCalls_mirror P w w' : onlyCalls P w w' → mirror w' = mirror w.
Proof. intros (Hc & Hp & _). unfold mirror. by rewrite Hc, Hp. Qed.

Lemma keepsUnique_same_mirror w w' : mirror w' = mirror w → keepsUnique w w'.
Proof. unfold mirror, keepsUnique, uniqueWorld. by intros [= -> ->]. Qed.

Lemma keepsUnique_remote {A} c (answer : Result A) :
  respects keepsUnique (remote c answer).
Proof. intros w. by apply keepsUnique_same_mirror. Qed.

Lemma keepsUnique_customers_save c :
  respects keepsUnique (Fs.CustomerDataStore_save c).
Proof.
  intros w [Hc Hp]. split; [|done]. simpl.
  rewrite customers_save_is_upsert. by apply upsert_unique.
Qed.

Lemma keepsUnique_customers_delete id :
  respects keepsUnique (Fs.CustomerDataStore_delete id).
Proof.
  intros w [Hc Hp]. unfold Fs.CustomerDataStore_delete, mbind, M_bind; simpl.
  pose proof (remove_unique c_id id _ Hc) as Hu.
  rewrite <- customers_delete_is_remove in Hu.
  destruct (CustomerDataStore.delete id (customers w)) as [l' []]; by split.
Qed.

Lemma keepsUnique_paymentMethods_save pm :
  respects keepsUnique (Fs.PaymentMethodDataStore_save pm).
Proof.
  intros w [Hc Hp]. split; [done|]. simpl.
  rewrite paymentMethods_save_is_upsert. by apply upsert_unique.
Qed.

Lemma keepsUnique_paymentMethods_delete id :
  respects keepsUnique (Fs.PaymentMethodDataStore_delete id).
Proof.
  intros w [Hc Hp]. unfold Fs.PaymentMethodDataStore_delete, mbind, M_bind; simpl.
  pose proof (remove_unique pm_id id _ Hp) as Hu.
  rewrite <- paymentMethods_delete_is_remove in Hu.
  destruct (PaymentMethodDataStore.delete id (paymentMethods w)) as [l' []]; by split.
Qed.

Lemma keepsUnique_setAsDefault p c :
  respects keepsUnique (Fs.PaymentMethodDataStore_setAsDefault p c).
Proof.
  intros w [Hc Hp]. split; [done|]. simpl.
  unfold uniqueIds. by rewrite setAsDefault_ids.
Qed.

Lemma keepsUnique_fetchAll stripe :
  respects keepsUnique (Customers.fetchAllStripeCustomers stripe).
Proof. intros w. by apply keepsUnique_same_mirror. Qed.

Lemma onlyCalls_fetchAll stripe :
  respects (onlyCalls anyCall) (Customers.fetchAllStripeCustomers stripe).
Proof.
  intros w. split_and!; [done..|]. eexists. split; [done|].
  apply Forall_forall. by intros.
Qed.

Create HintDb handlers.
#[global] Hint Resolve keepsUnique_remote
  keepsUnique_customers_save keepsUnique_customers_delete
  keepsUnique_paymentMethods_save keepsUnique_paymentMethods_delete
  keepsUnique_setAsDefault keepsUnique_fetchAll onlyCalls_fetchAll : handlers.
#[global] Hint Extern 1 (respects (onlyCalls _) (remote _ _)) =>
  apply onlyCalls_remote; exact I : handlers.

Ltac respects_all := repeat first [respects_step | solve [auto with handlers]].

Lemma keepsUnique_webhook stripe env request :
  respects keepsUnique (Webhook.POST stripe env request).
Proof.
  unfold Webhook.POST, Webhook.dispatch, Webhook.handleSetupIntentSucceeded,
    Webhook.handlePaymentIntentSucceeded, Webhook.handlePaymentIntentFailed,
    Webhook.handlePaymentMethodAttached, Webhook.handleCustomerCreated,
    Webhook.handleCustomerDeleted, Fs.PaymentMethodDataStore_getByCustomerId.
  respects_all.
Qed.

Lemma keepsUnique_route stripe env request :
  respects keepsUnique (route stripe env request).
Proof.
  destruct request; simpl;
    unfold Customers.GET, Customers.POST, Customers.DELETE,
      PaymentMethods.GET, PaymentMethods.POST, PaymentMethods.PATCH,
      PaymentMethods.DELETE, PaymentIntent.POST, PaymentIntent.GET,
      PaymentIntent.PATCH, SetupIntent.POST, SetupIntent.GET,
      PaymentIntent.addCustomer, PaymentIntent.addPaymentMethod,
      Fs.CustomerDataStore_getById, Fs.CustomerDataStore_getByEmail,
      Fs.PaymentMethodDataStore_getById, Fs.PaymentMethodDataStore_getByCustomerId;
    respects_all.
Qed.

Lemma run_snoc ops o w :
  run (ops ++ [o]) w = step o.1.1 o.1.2 o.2 (run ops w).
Proof. unfold run. rewrite foldl_app. by destruct o as [[? ?] ?]. Qed.

Lemma run_unique ops : uniqueWorld (run ops emptyWorld).
Proof.
  induction ops as [|[[stripe env] op] ops IH] using rev_ind.
  - split; apply NoDup_nil_2.
  - rewrite run_snoc. simpl. destruct op; simpl.
    + by apply keepsUnique_route.
    + by apply keepsUnique_webhook.
Qed.

(** The two lookups of [POST /api/payment-intent] call nothing but
    [customers.retrieve] and [paymentMethods.retrieve]. *)
Lemma addCustomer_lookups stripe body params :
  respects (onlyCalls isLookup) (PaymentIntent.addCustomer stripe body params).
Proof. unfold PaymentIntent.addCustomer. respects_all. Qed.

Lemma addPaymentMethod_lookups stripe body params :
  respects (onlyCalls isLookup) (PaymentIntent.addPaymentMethod stripe body params).
Proof. unfold PaymentIntent.addPaymentMethod. respects_all. Qed.

Lemma payment_intent_POST_calls stripe json :
  respects (onlyCalls isLookupOrCreate) (PaymentIntent.POST stripe json).
Proof.
  unfold PaymentIntent.POST, PaymentIntent.addCustomer, PaymentIntent.addPaymentMethod.
  respects_all.
Qed.

(** *** What a handler returns *)

Section Yields.
Context {A : Type} (Q : A → Prop).

Lemma yields_ret a : Q a → yields Q (mret a).
Proof. by intros Ha w. Qed.

Lemma yields_bind {B} (m : M B) (f : B → M A) :
  (∀ b, yields Q (f b)) → yields Q (m ≫= f).
Proof.
  intros Hf w. rewrite bind_run.
  destruct (m w) as [[b|t] w1]; [apply Hf|done].
Qed.

Lemma yields_bind_with {B} (P : B → Prop) (m : M B) (f : B → M A) :
  yields P m → (∀ b, P b → yields Q (f b)) → yields Q (m ≫= f).
Proof.
  intros Hm Hf w. rewrite bind_run. specialize (Hm w).
  destruct (m w) as [[b|t] w1]; [by apply Hf|done].
Qed.

(** A body that was parsed is the body the handler goes on with. *)
Lemma yields_parsed {B} (b : B) (f : B → M A) :
  yields Q (f b) → yields Q (lift (Ok b) ≫= f).
Proof. intros Hf w. rewrite bind_run. apply Hf. Qed.

Lemma yields_try_catch (m : M A) (h : Thrown → M A) :
  yields Q m → (∀ t, yields Q (h t)) → yields Q (try_catch m h).
Proof.
  intros Hm Hh w. unfold try_catch. specialize (Hm w).
  destruct (m w) as [[b|t] w1]; [done|apply Hh].
Qed.

(** A [try]/[catch] whose handler returns always returns. *)
Lemma returns_try_catch (m : M A) (g : Thrown → A) :
  yields Q m → (∀ t, Q (g t)) → returns Q (try_catch m (λ t, mret (g t))).
Proof.
  intros Hm Hg w. unfold try_catch. specialize (Hm w).
  destruct (m w) as [[b|t] w1]; simpl in *; eauto.
Qed.
End Yields.

Ltac yields_step :=
  lazymatch goal with
  | |- yields _ (mret _) => apply yields_ret
  | |- yields _ (_ ≫= _) => apply yields_bind; intros ?
  | |- yields _ (try_catch _ _) => apply yields_try_catch; [|intros ?]
  | |- yields _ (match ?x with _ => _ end) => destruct x eqn:?
  | |- yields _ (let _ := _ in _) => cbv zeta
  end.

(** ** C10: one record per id *)

(** C10.  Each store holds at most one record per id, and every operation
    keeps it so.  [save] is an upsert: the saved record is what the id then
    resolves to, the array grows only when the id was absent, and otherwise
    the record is written into the slot that held the id.  [delete] keeps the
    ids unique, answers [true] exactly when the id was present, and leaves no
    record with that id.  [setAsDefault] does not touch ids.  Starting from
    the two empty files, every sequence of route and webhook calls, whatever
    the provider answers, leaves both files with unique ids. *)
Theorem stores_hold_one_record_per_id
    (customers : list CustomerData) (paymentMethods : list SavedPaymentMethod)
    (customer : CustomerData) (paymentMethod : SavedPaymentMethod)
    (id paymentMethodId customerId : string) :
  uniqueIds c_id customers →
  uniqueIds pm_id paymentMethods →
  (let saved := CustomerDataStore.save customer customers in
   let deleted := CustomerDataStore.delete id customers in
   uniqueIds c_id saved
   ∧ CustomerDataStore.getById (c_id customer) saved = Some customer
   ∧ length saved = (if decide (c_id customer ∈ c_id <$> customers)
                     then length customers else S (length customers))
   ∧ (∀ i, (c_id <$> customers) !! i = Some (c_id customer) →
           saved = <[i := customer]> customers)
   ∧ uniqueIds c_id deleted.1
   ∧ (deleted.2 = true ↔ id ∈ c_id <$> customers)
   ∧ (id ∉ c_id <$> deleted.1))
  ∧ (let saved := PaymentMethodDataStore.save paymentMethod paymentMethods in
     let deleted := PaymentMethodDataStore.delete id paymentMethods in
     uniqueIds pm_id saved
     ∧ PaymentMethodDataStore.getById (pm_id paymentMethod) saved = Some paymentMethod
     ∧ length saved = (if decide (pm_id paymentMethod ∈ pm_id <$> paymentMethods)
                       then length paymentMethods else S (length paymentMethods))
     ∧ (∀ i, (pm_id <$> paymentMethods) !! i = Some (pm_id paymentMethod) →
             saved = <[i := paymentMethod]> paymentMethods)
     ∧ uniqueIds pm_id deleted.1
     ∧ (deleted.2 = true ↔ id ∈ pm_id <$> paymentMethods)
     ∧ (id ∉ pm_id <$> deleted.1)
     ∧ uniqueIds pm_id
         (PaymentMethodDataStore.setAsDefault paymentMethodId customerId paymentMethods))
  ∧ ∀ ops, uniqueWorld (run ops emptyWorld).
Proof.
  intros Hc Hp. cbv zeta. split_and!.
  - by apply upsert_unique.
  - unfold CustomerDataStore.getById.
    by rewrite customers_save_is_upsert, upsert_find.
  - apply upsert_length.
  - intros i Hi. by apply upsert_in_place.
  - by apply remove_unique.
  - apply remove_snd.
  - apply remove_gone.
  - by apply upsert_unique.
  - unfold PaymentMethodDataStore.getById.
    by rewrite paymentMethods_save_is_upsert, upsert_find.
  - apply upsert_length.
  - intros i Hi. by apply upsert_in_place.
  - by apply remove_unique.
  - apply remove_snd.
  - apply remove_gone.
  - unfold uniqueIds. by rewrite setAsDefault_ids.
  - apply run_unique.
Qed.

Lemma stores_hold_one_record_per_id_witness :
  uniqueIds c_id [Example.alice] ∧ uniqueIds pm_id [Example.pm_1 true]
  ∧ CustomerDataStore.save Example.bob [Example.alice] = [Example.alice; Example.bob]
  ∧ (PaymentMethodDataStore.delete "pm_1" [Example.pm_1 true]).2 = true.
Proof.
  assert (uniqueIds c_id [Example.alice]) as Hc by apply NoDup_singleton.
  assert (uniqueIds pm_id [Example.pm_1 true]) as Hp by apply NoDup_singleton.
  pose proof (stores_hold_one_record_per_id
                [Example.alice] [Example.pm_1 true] Example.bob (Example.pm_2 false)
                "pm_1" "pm_1" "cus_A" Hc Hp) as (_ & (_ & _ & _ & _ & _ & Hdel & _) & _).
  split_and!; [exact Hc | exact Hp | reflexivity |].
  apply Hdel. apply list_elem_of_singleton. reflexivity.
Defined.

(** ** C1: at most one default per customer *)

(** C1.  The state reached by attaching [pm_1] (as default) and [pm_2] to
    [cus_A] has one default per customer, and up to there every request
    named records of the customer it named.  A set-default request for
    [pm_2] that names customer [cus_B], once the provider has accepted it,
    clears the flags of [cus_B] only and then sets the flag of [pm_2], found
    by id alone: [cus_A] is left with two defaults. *)
Theorem set_default_naming_another_customer_leaves_two_defaults :
  let before := run Example.attachTwo emptyWorld in
  let after := step Example.accepting Example.env Example.setDefaultForOther before in
  paymentMethods before = [Example.pm_1 true; Example.pm_2 false]
  ∧ ownersMatch Example.attachTwo emptyWorld
  ∧ oneDefault (paymentMethods before)
  ∧ ¬ ownerMatches Example.accepting Example.setDefaultForOther before
  ∧ paymentMethods after = [Example.pm_1 true; Example.pm_2 true]
  ∧ defaultsOf "cus_A" (paymentMethods after) = [Example.pm_1 true; Example.pm_2 true]
  ∧ ¬ oneDefault (paymentMethods after).
Proof.
  cbv zeta.
  assert (paymentMethods (run Example.attachTwo emptyWorld)
          = [Example.pm_1 true; Example.pm_2 false]) as Hb by reflexivity.
  assert (paymentMethods
            (step Example.accepting Example.env Example.setDefaultForOther
                  (run Example.attachTwo emptyWorld))
          = [Example.pm_1 true; Example.pm_2 true]) as Ha by reflexivity.
  rewrite Ha. split_and!; try reflexivity.
  - simpl. split_and!; [by intros pm [= <-]..|done].
  - rewrite Hb. intros c. unfold defaultsOf. rewrite !filter_cons, filter_nil.
    repeat case_decide; simpl in *; try lia.
    repeat match goal with H : _ ∧ _ |- _ => destruct H end. congruence.
  - intros Hown. specialize (Hown (Example.pm_2 false) eq_refl). discriminate.
  - intros H. specialize (H "cus_A"%string). vm_compute in H. lia.
Qed.

(** The other side of the coin: every store operation other than a
    set-default whose target belongs to someone else keeps the flag unique. *)
Lemma default_invariant_when_owner_matches l :
  oneDefault l →
  (∀ x, pm_isDefault x ≠ Some true → oneDefault (PaymentMethodDataStore.save x l))
  ∧ (∀ id, oneDefault (PaymentMethodDataStore.delete id l).1)
  ∧ (∀ x, oneDefault (PaymentMethodDataStore.setAsDefault (pm_id x) (pm_customerId x)
                        (PaymentMethodDataStore.save x l)))
  ∧ (∀ p c, (∀ t, PaymentMethodDataStore.getById p l = Some t → pm_customerId t = c) →
            oneDefault (PaymentMethodDataStore.setAsDefault p c l)).
Proof.
  intros Hl. split_and!.
  - intros x Hx. by apply save_nondefault_oneDefault.
  - intros id. by apply delete_oneDefault.
  - intros x. by apply attach_default_oneDefault.
  - intros p c Hown. apply setAsDefault_oneDefault; [done|]. intros c' _. apply Hl.
Qed.

(** ** The webhook handler on the mirror *)

Lemma remove_false {A} (key : A → string) id l :
  (remove key id l).2 = false → filter (λ y, key y ≠ id) l = l.
Proof.
  intros Hf. rewrite <- remove_fst. revert Hf. unfold remove. simpl.
  by case_decide.
Qed.

Lemma paymentMethods_delete_run id w :
  ∃ b w', Fs.PaymentMethodDataStore_delete id w = (Ok b, w')
          ∧ customers w' = customers w
          ∧ paymentMethods w' = filter (λ pm, pm_id pm ≠ id) (paymentMethods w).
Proof.
  pose proof (remove_fst pm_id id (paymentMethods w)) as Hr.
  rewrite <- paymentMethods_delete_is_remove in Hr.
  unfold Fs.PaymentMethodDataStore_delete. rewrite bind_run. simpl.
  pose proof (remove_false pm_id id (paymentMethods w)) as Hf.
  rewrite <- paymentMethods_delete_is_remove in Hf.
  destruct (PaymentMethodDataStore.delete id (paymentMethods w)) as [l' []];
    simpl in Hr, Hf; subst l'; rewrite ?bind_run; simpl.
  - by eexists _, _.
  - rewrite Hf by done. by eexists _, _.
Qed.

Lemma customers_delete_run id w :
  ∃ b w', Fs.CustomerDataStore_delete id w = (Ok b, w')
          ∧ customers w' = filter (λ c, c_id c ≠ id) (customers w)
          ∧ paymentMethods w' = paymentMethods w.
Proof.
  pose proof (remove_fst c_id id (customers w)) as Hr.
  rewrite <- customers_delete_is_remove in Hr.
  unfold Fs.CustomerDataStore_delete. rewrite bind_run. simpl.
  pose proof (remove_false c_id id (customers w)) as Hf.
  rewrite <- customers_delete_is_remove in Hf.
  destruct (CustomerDataStore.delete id (customers w)) as [l' []];
    simpl in Hr, Hf; subst l'; rewrite ?bind_run; simpl.
  - by eexists _, _.
  - rewrite Hf by done. by eexists _, _.
Qed.

(** The [forEach] of the cascade removes exactly the records whose id is
    among the ids listed. *)
Lemma cascade_forEach ps w :
  ∃ w', Fs.forEach (λ pm, Fs.PaymentMethodDataStore_delete (pm_id pm) ;; mret tt) ps w
        = (Ok tt, w')
        ∧ customers w' = customers w
        ∧ paymentMethods w'
          = filter (λ pm, pm_id pm ∉ pm_id <$> ps) (paymentMethods w).
Proof.
  revert w. induction ps as [|p ps IH]; intros w.
  - exists w. split_and!; [done..|].
    induction (paymentMethods w) as [|a l IHl]; [done|].
    rewrite filter_cons_True by apply not_elem_of_nil. by f_equal.
  - cbn [Fs.forEach]. rewrite !bind_run.
    destruct (paymentMethods_delete_run (pm_id p) w) as (b & w1 & -> & Hc1 & Hp1).
    cbn [mret M_ret].
    destruct (IH w1) as (w2 & -> & Hc2 & Hp2).
    exists w2. split_and!; [done|congruence|].
    rewrite Hp2, Hp1, list_filter_filter.
    apply list_filter_iff. intros x. rewrite fmap_cons, not_elem_of_cons. tauto.
Qed.

(** The run of [handleCustomerDeleted]. *)
Lemma handleCustomerDeleted_run customer w :
  ∃ w', Webhook.handleCustomerDeleted customer w = (Ok tt, w')
        ∧ mirror w'
          = (filter (λ c, c_id c ≠ cust_id customer) (customers w),
             filter (λ pm, pm_id pm ∉
                           pm_id <$> PaymentMethodDataStore.getByCustomerId
                                       (cust_id customer) (paymentMethods w))
                    (paymentMethods w)).
Proof.
  unfold Webhook.handleCustomerDeleted. rewrite bind_run.
  destruct (customers_delete_run (cust_id customer) w) as (b & w1 & -> & Hc1 & Hp1).
  rewrite bind_run. unfold Fs.PaymentMethodDataStore_getByCustomerId.
  rewrite bind_run. cbn [Fs.paymentMethods_getAll mret M_ret].
  destruct (cascade_forEach
              (PaymentMethodDataStore.getByCustomerId (cust_id customer)
                 (paymentMethods w1)) w1) as (w2 & -> & Hc2 & Hp2).
  exists w2. split; [done|]. unfold mirror. by rewrite Hc2, Hp2, Hc1, Hp1.
Qed.

Lemma no_owned_record_survives id (l : list SavedPaymentMethod) :
  PaymentMethodDataStore.getByCustomerId id
    (filter (λ pm, pm_id pm ∉ pm_id <$> PaymentMethodDataStore.getByCustomerId id l) l)
  = [].
Proof.
  unfold PaymentMethodDataStore.getByCustomerId.
  apply elem_of_nil_inv.
  intros pm (Hown & (Hid & Hin)%list_elem_of_filter)%list_elem_of_filter.
  apply Hid. apply list_elem_of_fmap. exists pm. split; [done|].
  by apply list_elem_of_filter.
Qed.

(** A verified [customer.deleted] delivery runs the cascade and answers 200. *)
Lemma webhook_customer_deleted_run stripe env request event customer signature w :
  truthy_str (Webhook.stripe_signature request) = Some signature →
  webhooks_constructEvent stripe (Webhook.text request) signature
                          (STRIPE_WEBHOOK_SECRET env) = Ok event →
  ev_data event = customer_deleted customer →
  ∃ w', Webhook.POST stripe env request w
        = (Ok (Webhook.mkResponse 200 Webhook.received), w')
        ∧ Webhook.handleCustomerDeleted customer w = (Ok tt, w').
Proof.
  intros Hsig Hev Hdata. unfold Webhook.POST. rewrite Hsig, Hev.
  unfold try_catch. rewrite bind_run. unfold Webhook.dispatch. rewrite Hdata.
  destruct (handleCustomerDeleted_run customer w) as (w' & Hrun & _).
  rewrite Hrun. by exists w'.
Qed.

(** ** C3: the cascade of [customer.deleted] *)

(** Handlers on the event loop: run alone they are the handlers above. *)
Lemma alone_then {A B} (t : Task A) (k : Result A → Async B) :
  alone (task_then t k) = alone (k (alone t).1 (alone t).2).
Proof. induction t as [r w|s w resume IH]; [done|]. cbn [task_then alone]. apply IH. Qed.

Lemma alone_sync {A} (m : M A) w : alone (sync m w) = m w.
Proof. unfold sync. cbn [alone]. by destruct (m w). Qed.

Lemma alone_andThen {A B} (t : Async A) (f : A → Async B) (m : M A) (g : A → M B) w :
  (∀ w, alone (t w) = m w) → (∀ a w, alone (f a w) = g a w) →
  alone (andThen t f w) = (m ≫= g) w.
Proof.
  intros Ht Hf. unfold andThen. rewrite alone_then, Ht, bind_run.
  destruct (m w) as [[a|e] w']; cbn [fst snd]; [apply Hf|done].
Qed.

Lemma alone_catching {A} (t : Async A) (h : Thrown → Async A) (m : M A)
    (g : Thrown → M A) w :
  (∀ w, alone (t w) = m w) → (∀ e w, alone (h e w) = g e w) →
  alone (catching t h w) = try_catch m g w.
Proof.
  intros Ht Hh. unfold catching, try_catch. rewrite alone_then, Ht.
  destruct (m w) as [[a|e] w']; cbn [fst snd]; [done|apply Hh].
Qed.

Lemma alone_await_provider {A} c (answer : Result A) w :
  alone (await_provider c answer w) = remote c answer w.
Proof. done. Qed.

Lemma alone_await_handler {A} (t : Async A) (m : M A) w :
  (∀ w, alone (t w) = m w) → alone (await_handler t w) = m w.
Proof.
  intros Ht. unfold await_handler. rewrite alone_then. cbn [alone].
  rewrite Ht. by destruct (m w).
Qed.

Lemma alone_forEachSync {A} (f : A → Async unit) (g : A → M unit) l w :
  (∀ a w, alone (f a w) = g a w) →
  alone (forEachSync f l w) = Fs.forEach g l w.
Proof.
  intros Hf. revert w. induction l as [|x l IH]; intros w; [done|].
  cbn [forEachSync Fs.forEach]. apply alone_andThen; [apply Hf|]. intros _. apply IH.
Qed.

Lemma retrieve_and_save_alone stripe env paymentMethodId customerId w :
  alone (catching
           (andThen (await_provider (paymentMethods_retrieve paymentMethodId)
                       (do_paymentMethods_retrieve stripe paymentMethodId))
                    (λ paymentMethod,
                       sync (Fs.PaymentMethodDataStore_save
                               (savedPaymentMethodOf env paymentMethod customerId false))))
           (λ _, sync (mret tt)) w)
  = try_catch
      (paymentMethod ← remote (paymentMethods_retrieve paymentMethodId)
                         (do_paymentMethods_retrieve stripe paymentMethodId);
       Fs.PaymentMethodDataStore_save
         (savedPaymentMethodOf env paymentMethod customerId false))
      (λ _, mret tt) w.
Proof.
  apply alone_catching; [|intros; apply alone_sync].
  intros w'. apply alone_andThen; [done|]. intros; apply alone_sync.
Qed.

(** With nobody else on the loop, the route with its [await]s is the route
    run in one go, for every request. *)
Lemma webhook_task_alone stripe env request w :
  alone (WebhookTask.POST stripe env request w) = Webhook.POST stripe env request w.
Proof.
  unfold WebhookTask.POST, Webhook.POST.
  destruct (truthy_str (Webhook.stripe_signature request)) as [signature|];
    [|apply alone_sync].
  destruct (webhooks_constructEvent _ _ _ _) as [event|]; [|apply alone_sync].
  apply alone_catching; [|intros; apply alone_sync].
  intros w1. apply alone_andThen; [|intros; apply alone_sync].
  intros w2. unfold WebhookTask.dispatch, Webhook.dispatch.
  destruct (ev_data event) as [o|o|o|o|o|o|o];
    [apply alone_await_handler; intros w3..|apply alone_sync].
  - unfold WebhookTask.handleSetupIntentSucceeded, Webhook.handleSetupIntentSucceeded.
    destruct (truthy_ref (si_payment_method o)), (truthy_ref (si_customer o));
      first [apply retrieve_and_save_alone|apply alone_sync].
  - unfold WebhookTask.handlePaymentIntentSucceeded,
      Webhook.handlePaymentIntentSucceeded.
    destruct (truthy_str (pi_setup_future_usage o)),
      (truthy_ref (pi_payment_method o)), (truthy_ref (pi_customer o));
      first [apply retrieve_and_save_alone|apply alone_sync].
  - apply alone_sync.
  - unfold WebhookTask.handlePaymentMethodAttached, Webhook.handlePaymentMethodAttached.
    destruct (truthy_ref (spm_customer o)); apply alone_sync.
  - apply alone_sync.
  - unfold WebhookTask.handleCustomerDeleted, Webhook.handleCustomerDeleted.
    apply alone_andThen; [intros; apply alone_sync|]. intros _ w4.
    apply alone_andThen; [intros; apply alone_sync|]. intros ps w5.
    apply alone_forEachSync. intros pm w6.
    apply alone_andThen; [intros; apply alone_sync|]. intros; apply alone_sync.
Qed.

(** Code without [await] is never suspended. *)
Lemma unsuspended_sync {A} (m : M A) : unsuspended (sync m) m.
Proof. done. Qed.

Lemma unsuspended_andThen {A B} (t : Async A) (f : A → Async B) (m : M A)
    (g : A → M B) :
  unsuspended t m → (∀ a, unsuspended (f a) (g a)) →
  unsuspended (andThen t f) (m ≫= g).
Proof.
  intros Ht Hf w. unfold andThen. rewrite Ht, bind_run. cbn [task_then].
  destruct (m w) as [[a|e] w']; cbn [fst snd]; [apply Hf|done].
Qed.

Lemma unsuspended_forEachSync {A} (f : A → Async unit) (g : A → M unit) l :
  (∀ a, unsuspended (f a) (g a)) →
  unsuspended (forEachSync f l) (Fs.forEach g l).
Proof.
  intros Hf. induction l as [|x l IH]; [done|].
  cbn [forEachSync Fs.forEach]. by apply unsuspended_andThen.
Qed.

(** [handleCustomerDeleted] has no [await]: its deletes, one write of a file
    each, run in one turn of the loop. *)
Lemma handleCustomerDeleted_unsuspended customer :
  unsuspended (WebhookTask.handleCustomerDeleted customer)
              (Webhook.handleCustomerDeleted customer).
Proof.
  unfold WebhookTask.handleCustomerDeleted, Webhook.handleCustomerDeleted.
  apply unsuspended_andThen; [apply unsuspended_sync|]. intros _.
  apply unsuspended_andThen; [apply unsuspended_sync|]. intros ps.
  apply unsuspended_forEachSync. intros pm.
  apply unsuspended_andThen; [apply unsuspended_sync|]. intros _.
  apply unsuspended_sync.
Qed.

(** The handlers that retrieve the payment method are suspended before they
    save: at that point the request has been sent and the mirror is as it
    was. *)
Lemma handleSetupIntentSucceeded_is_suspended stripe env setupIntent
    payment_method customer w :
  truthy_ref (si_payment_method setupIntent) = Some payment_method →
  truthy_ref (si_customer setupIntent) = Some customer →
  ∃ resume,
    WebhookTask.handleSetupIntentSucceeded stripe env setupIntent w
    = Suspended (AwaitProvider (paymentMethods_retrieve (expandable_id payment_method)))
                (mkWorld (customers w) (paymentMethods w)
                         (trace w ++ [Remote (paymentMethods_retrieve
                                                (expandable_id payment_method))]))
                resume.
Proof.
  intros Hp Hc. unfold WebhookTask.handleSetupIntentSucceeded. rewrite Hp, Hc.
  by eexists.
Qed.

(** C3.  When a delivery verifies and carries [customer.deleted] for a
    customer, the handler answers 200 and, in the world it leaves, the
    customer id resolves to no Customer record and no Instrument record
    carries it as [customerId].  On the event loop the route is suspended
    once, at [await handleCustomerDeleted(..)], and the world it leaves
    there is already the one after the whole cascade: the handler is not
    suspended between its deletes, so the first world that any other
    request finds is one with the customer and all its cards gone.  The
    resumed route only builds the answer: it hands on the world it is
    resumed in, whatever the others did to it. *)
Theorem customer_deleted_cascade stripe env request event customer signature w :
  truthy_str (Webhook.stripe_signature request) = Some signature →
  webhooks_constructEvent stripe (Webhook.text request) signature
                          (STRIPE_WEBHOOK_SECRET env) = Ok event →
  ev_data event = customer_deleted customer →
  let after := Webhook.POST stripe env request w in
  after.1 = Ok (Webhook.mkResponse 200 Webhook.received)
  ∧ CustomerDataStore.getById (cust_id customer) (customers after.2) = None
  ∧ PaymentMethodDataStore.getByCustomerId (cust_id customer)
                                           (paymentMethods after.2) = []
  ∧ Forall (λ pm, pm_customerId pm ≠ cust_id customer) (paymentMethods after.2)
  ∧ WebhookTask.POST stripe env request w
    = Suspended AwaitHandler after.2
                (λ w', Finished (Ok (Webhook.mkResponse 200 Webhook.received)) w')
  ∧ ∀ others,
      visible others (WebhookTask.POST stripe env request w)
      = [after.2; match others with [] => after.2 | other :: _ => other after.2 end].
Proof.
  intros Hsig Hev Hdata. cbv zeta.
  destruct (webhook_customer_deleted_run _ _ _ _ _ _ w Hsig Hev Hdata)
    as (w' & -> & Hrun).
  destruct (handleCustomerDeleted_run customer w) as (w'' & Hrun' & Hm).
  rewrite Hrun in Hrun'. injection Hrun' as <-.
  unfold mirror in Hm. injection Hm as Hc Hp. simpl. rewrite Hc, Hp.
  assert (WebhookTask.POST stripe env request w
          = Suspended AwaitHandler w'
              (λ w', Finished (Ok (Webhook.mkResponse 200 Webhook.received)) w'))
    as Htask.
  { unfold WebhookTask.POST. rewrite Hsig, Hev.
    unfold catching, andThen, WebhookTask.dispatch, await_handler.
    rewrite Hdata, handleCustomerDeleted_unsuspended, Hrun. done. }
  split_and!; [done| | | |exact Htask|].
  - unfold CustomerDataStore.getById. apply fmap_None, list_find_None.
    apply Forall_forall. intros c (Hne & _)%list_elem_of_filter. done.
  - apply no_owned_record_survives.
  - pose proof (no_owned_record_survives (cust_id customer) (paymentMethods w)) as Hn.
    unfold PaymentMethodDataStore.getByCustomerId at 1 in Hn.
    apply Forall_forall. intros pm Hin Hown.
    assert (pm ∈ @nil SavedPaymentMethod) as Hnil
      by (rewrite <- Hn; by apply list_elem_of_filter).
    by apply not_elem_of_nil in Hnil.
  - intros others. rewrite Htask. by destruct others.
Qed.

(** ** C2: redelivery of an event *)

Lemma paymentMethods_save_mirror x w :
  Fs.PaymentMethodDataStore_save x w
  = (Ok tt, mkWorld (customers w) (upsert pm_id x (paymentMethods w))
                    (trace w ++ [WriteFile PAYMENT_METHODS_FILE])).
Proof. reflexivity. Qed.

Lemma customers_save_mirror x w :
  Fs.CustomerDataStore_save x w
  = (Ok tt, mkWorld (upsert c_id x (customers w)) (paymentMethods w)
                    (trace w ++ [WriteFile CUSTOMERS_FILE])).
Proof. reflexivity. Qed.

Lemma settles_ret : settles (mret tt).
Proof. done. Qed.

Lemma settles_paymentMethods_save x : settles (Fs.PaymentMethodDataStore_save x).
Proof.
  intros w. rewrite !paymentMethods_save_mirror. unfold mirror.
  cbn [snd paymentMethods customers]. by rewrite upsert_idem.
Qed.

Lemma settles_customers_save x : settles (Fs.CustomerDataStore_save x).
Proof.
  intros w. rewrite !customers_save_mirror. unfold mirror.
  cbn [snd paymentMethods customers]. by rewrite upsert_idem.
Qed.

(** Retrieve from the provider, then save: the saved record depends on the
    provider's answer only, so the second run saves the same record. *)
Lemma settles_retrieve_save stripe env id customerId :
  settles (try_catch
             (paymentMethod ← remote (paymentMethods_retrieve id)
                                (do_paymentMethods_retrieve stripe id);
              Fs.PaymentMethodDataStore_save
                (savedPaymentMethodOf env paymentMethod customerId false))
             (λ _, mret tt)).
Proof.
  intros w. unfold try_catch, remote, log, lift. rewrite !bind_run. simpl.
  destruct (do_paymentMethods_retrieve stripe id) as [pm|t]; [|done].
  rewrite !paymentMethods_save_mirror. unfold mirror.
  cbn [snd paymentMethods customers]. by rewrite upsert_idem.
Qed.

Lemma settles_handleCustomerDeleted customer :
  settles (Webhook.handleCustomerDeleted customer).
Proof.
  intros w.
  destruct (handleCustomerDeleted_run customer w) as (w1 & -> & Hm1).
  cbn [snd].
  destruct (handleCustomerDeleted_run customer w1) as (w2 & -> & Hm2).
  cbn [snd]. rewrite Hm2. unfold mirror in Hm1 |- *.
  injection Hm1 as Hc Hp. rewrite Hc, Hp.
  rewrite no_owned_record_survives. f_equal.
  - rewrite list_filter_filter. apply list_filter_iff. tauto.
  - cbn [fmap list_fmap].
    generalize (filter
      (λ pm, pm_id pm ∉ pm_id <$> PaymentMethodDataStore.getByCustomerId
                                   (cust_id customer) (paymentMethods w))
      (paymentMethods w)).
    intros l. induction l as [|a l IH]; [done|].
    rewrite filter_cons_True by apply not_elem_of_nil. by f_equal.
Qed.

Lemma settles_dispatch stripe env event :
  settles (Webhook.dispatch stripe env event).
Proof.
  unfold Webhook.dispatch. destruct (ev_data event).
  - unfold Webhook.handleSetupIntentSucceeded.
    repeat case_match; auto using settles_ret, settles_retrieve_save.
  - unfold Webhook.handlePaymentIntentSucceeded.
    repeat case_match; auto using settles_ret, settles_retrieve_save.
  - apply settles_ret.
  - unfold Webhook.handlePaymentMethodAttached.
    case_match; auto using settles_ret, settles_paymentMethods_save.
  - apply settles_customers_save.
  - apply settles_handleCustomerDeleted.
  - apply settles_ret.
Qed.

(** C2, amended.  Delivering the same request twice on end, with the same
    provider answers and clock, leaves the mirror (both stores) exactly as
    delivering it once. *)
Theorem webhook_twice_on_end_same_mirror stripe env request w :
  mirror (Webhook.POST stripe env request (Webhook.POST stripe env request w).2).2
  = mirror (Webhook.POST stripe env request w).2.
Proof.
  unfold Webhook.POST.
  destruct (truthy_str _) as [signature|]; [|done].
  destruct (webhooks_constructEvent _ _ _ _) as [event|t]; [|done].
  pose proof (settles_dispatch stripe env event w) as Hs.
  unfold try_catch. rewrite !bind_run.
  destruct (Webhook.dispatch stripe env event w) as [[[]|t] w1]; simpl in *;
    destruct (Webhook.dispatch stripe env event w1) as [[[]|t'] w2]; simpl in *; done.
Qed.

(** C2, counterexample.  The handler keeps no record of event ids.  The event
    [evt_1] is delivered and saves [pm_1] without the flag; [pm_1] is then
    made the default; the second delivery of [evt_1] saves the record of the
    event again and the flag is lost. *)
Lemma redelivery_of_a_seen_event_rewrites_the_mirror :
  let stripe := Example.sdk Example.attachedEvent Example.createSucceeds Example.attachOk in
  let seen := run Example.deliveredThenDefault emptyWorld in
  let again := step stripe Example.env Example.delivery seen in
  paymentMethods seen = [Example.pm_1 true]
  ∧ paymentMethods again = [Example.pm_1 false]
  ∧ mirror again ≠ mirror seen.
Proof. cbv zeta. split_and!; [reflexivity..|]. vm_compute. discriminate. Qed.

(** *** The flag over whole runs *)

Lemma keepsOneDefault_preorder : PreOrder keepsOneDefault.
Proof. split; unfold keepsOneDefault; [intros w|intros w1 w2 w3]; tauto. Qed.

#[global] Existing Instance keepsOneDefault_preorder.

Lemma keepsOneDefault_same_mirror w w' :
  mirror w' = mirror w → keepsOneDefault w w'.
Proof. unfold mirror, keepsOneDefault. by intros [= _ ->]. Qed.

Lemma keepsOneDefault_remote {A} c (answer : Result A) :
  respects keepsOneDefault (remote c answer).
Proof. intros w. by apply keepsOneDefault_same_mirror. Qed.

Lemma keepsOneDefault_fetchAll stripe :
  respects keepsOneDefault (Customers.fetchAllStripeCustomers stripe).
Proof. intros w. by apply keepsOneDefault_same_mirror. Qed.

Lemma keepsOneDefault_customers_save c :
  respects keepsOneDefault (Fs.CustomerDataStore_save c).
Proof. by intros w Hw. Qed.

Lemma keepsOneDefault_customers_delete id :
  respects keepsOneDefault (Fs.CustomerDataStore_delete id).
Proof.
  intros w. destruct (customers_delete_run id w) as (b & w' & -> & _ & Hp).
  unfold keepsOneDefault. simpl. by rewrite Hp.
Qed.

(** The webhook handlers save without the flag. *)
Lemma keepsOneDefault_save_unflagged env paymentMethod customerId :
  respects keepsOneDefault
    (Fs.PaymentMethodDataStore_save
       (savedPaymentMethodOf env paymentMethod customerId false)).
Proof. intros w Hw. simpl. by apply save_nondefault_oneDefault. Qed.

Lemma keepsOneDefault_paymentMethods_delete id :
  respects keepsOneDefault (Fs.PaymentMethodDataStore_delete id).
Proof.
  intros w Hw. destruct (paymentMethods_delete_run id w) as (b & w' & -> & _ & Hp).
  simpl. rewrite Hp. pose proof (delete_oneDefault id _ Hw) as Hd.
  by rewrite paymentMethods_delete_is_remove, remove_fst in Hd.
Qed.

#[global] Hint Resolve keepsOneDefault_remote keepsOneDefault_fetchAll
  keepsOneDefault_customers_save keepsOneDefault_customers_delete
  keepsOneDefault_save_unflagged keepsOneDefault_paymentMethods_delete : handlers.

Lemma keepsOneDefault_webhook stripe env request :
  respects keepsOneDefault (Webhook.POST stripe env request).
Proof.
  unfold Webhook.POST, Webhook.dispatch, Webhook.handleSetupIntentSucceeded,
    Webhook.handlePaymentIntentSucceeded, Webhook.handlePaymentIntentFailed,
    Webhook.handlePaymentMethodAttached, Webhook.handleCustomerCreated,
    Webhook.handleCustomerDeleted, Fs.PaymentMethodDataStore_getByCustomerId.
  respects_all.
Qed.

(** The attach route: the record is saved with the flag asked for, and with
    the flag set it is made the default at once. *)
Lemma keepsOneDefault_attach stripe env body w :
  ownerMatches stripe (Api (payment_methods_POST (Ok body))) w →
  keepsOneDefault w (PaymentMethods.POST stripe env (Ok body) w).2.
Proof.
  unfold ownerMatches, PaymentMethods.POST, try_catch. rewrite bind_run. cbn [lift].
  destruct (truthy_str (PaymentMethods.paymentMethodId body)) as [p|]; [|done].
  destruct (truthy_str (PaymentMethods.customerId body)) as [c|]; [|done].
  intros Hecho Hw. rewrite bind_run, remote_run.
  destruct (do_paymentMethods_attach stripe p c) as [pm|t]; [|done].
  specialize (Hecho pm eq_refl). cbv zeta. rewrite bind_run.
  destruct (default false (PaymentMethods.isDefault body)); simpl.
  - pose proof (attach_default_oneDefault
                  (savedPaymentMethodOf env pm c true) _ Hw) as Hd.
    simpl in Hd. by rewrite Hecho in Hd.
  - by apply save_nondefault_oneDefault.
Qed.

Lemma keepsOneDefault_set_default stripe body w :
  ownerMatches stripe (Api (payment_methods_PATCH (Ok body))) w →
  keepsOneDefault w (PaymentMethods.PATCH stripe (Ok body) w).2.
Proof.
  unfold ownerMatches, PaymentMethods.PATCH, try_catch. rewrite bind_run. cbn [lift].
  destruct (truthy_str (PaymentMethods.u_paymentMethodId body)) as [p|]; [|done].
  destruct (truthy_str (PaymentMethods.u_customerId body)) as [c|]; [|done].
  intros Hown Hw. case_decide; [|done]. rewrite bind_run, remote_run.
  destruct (do_customers_update stripe c p) as [[]|t]; [|done]. simpl.
  apply setAsDefault_oneDefault; [done|]. intros c' _. apply Hw.
Qed.

Lemma keepsOneDefault_route stripe env request :
  match request with
  | payment_methods_POST _ | payment_methods_PATCH _ => True
  | _ => respects keepsOneDefault (route stripe env request)
  end.
Proof.
  destruct request; try exact I; simpl;
    unfold Customers.GET, Customers.POST, Customers.DELETE,
      PaymentMethods.GET, PaymentMethods.DELETE, PaymentIntent.POST,
      PaymentIntent.GET, PaymentIntent.PATCH, SetupIntent.POST, SetupIntent.GET,
      PaymentIntent.addCustomer, PaymentIntent.addPaymentMethod,
      Fs.CustomerDataStore_getById, Fs.CustomerDataStore_getByEmail,
      Fs.PaymentMethodDataStore_getById, Fs.PaymentMethodDataStore_getByCustomerId;
    respects_all.
Qed.

Lemma keepsOneDefault_step stripe env op w :
  ownerMatches stripe op w → keepsOneDefault w (step stripe env op w).
Proof.
  destruct op as [request|request]; [|intros _; apply keepsOneDefault_webhook].
  pose proof (keepsOneDefault_route stripe env request) as Hroute.
  destruct request as [| | | |[body|t]|[body|t]| | | | | |];
    try (intros _; apply Hroute).
  - apply keepsOneDefault_attach.
  - by intros _.
  - apply keepsOneDefault_set_default.
  - by intros _.
Qed.

(** Over every run in which set-default requests name a record of the
    customer they name and the provider answers an attach with the id it was
    asked for, each customer has at most one default at every point between
    two operations. *)
Lemma matching_runs_keep_one_default ops w :
  oneDefault (paymentMethods w) → ownersMatch ops w →
  oneDefault (paymentMethods (run ops w)).
Proof.
  revert w. induction ops as [|[[stripe env] op] ops IH]; intros w Hw Hops; [done|].
  destruct Hops as [Hop Hops]. change (run ((stripe, env, op) :: ops) w)
    with (run ops (step stripe env op w)).
  apply IH; [|done]. by apply keepsOneDefault_step.
Qed.

(** ** C5: deliveries whose signature does not verify *)

(** C5.  A delivery whose signature header is missing (or empty), or whose
    signature the SDK's check rejects, is answered 400 with
    [Missing signature], respectively [Invalid signature], and the world is
    the one before: no file is written, no provider call is made, no event is
    dispatched. *)
Theorem unverified_delivery_is_rejected_unchanged stripe env request w :
  verifies stripe env request = false →
  Webhook.POST stripe env request w
  = (Ok (Webhook.mkResponse 400
           (Webhook.error
              (match truthy_str (Webhook.stripe_signature request) with
               | Some _ => "Invalid signature"
               | None => "Missing signature"
               end)%string)), w).
Proof.
  unfold verifies, Webhook.POST.
  destruct (truthy_str _) as [signature|]; [|done].
  by destruct (webhooks_constructEvent _ _ _ _).
Qed.

Lemma unverified_delivery_is_rejected_unchanged_witness :
  let request := Webhook.mkRequest "{...}" (Some "forged") in
  let w := run Example.attachTwo emptyWorld in
  verifies Example.accepting Example.env request = false
  ∧ Webhook.POST Example.accepting Example.env request w
    = (Ok (Webhook.mkResponse 400 (Webhook.error "Invalid signature")), w).
Proof.
  cbv zeta. split; [reflexivity|].
  apply (unverified_delivery_is_rejected_unchanged
           Example.accepting Example.env
           (Webhook.mkRequest "{...}" (Some "forged"%string))).
  reflexivity.
Defined.

(** ** C7 and C6: [POST /api/payment-intent] *)

Lemma amount_rejected_iff (a : Q) :
  Qeq_bool a 0 || Qle_bool a 0 = true ↔ (a <= 0)%Q.
Proof.
  rewrite orb_true_iff, Qeq_bool_iff, Qle_bool_iff. split; [|tauto].
  intros [->|H]; [apply Qle_refl|done].
Qed.

Lemma amount_accepted (a : Q) :
  (0 < a)%Q → Qeq_bool a 0 || Qle_bool a 0 = false.
Proof.
  intros Hpos. apply not_true_is_false. rewrite amount_rejected_iff.
  by apply Qlt_not_le.
Qed.

Lemma pastValidation_status message status :
  status ≠ 400 → pastValidation (respond_error message status).
Proof. intros Hs [= ? ?]. done. Qed.

Lemma pastValidation_ok d : pastValidation (respond_ok d).
Proof. done. Qed.

Lemma addCustomer_pastValidation stripe body params :
  yields earlyPastValidation (PaymentIntent.addCustomer stripe body params).
Proof.
  unfold PaymentIntent.addCustomer.
  repeat yields_step; simpl; first [done | by apply pastValidation_status].
Qed.

Lemma addPaymentMethod_pastValidation stripe body params :
  yields earlyPastValidation (PaymentIntent.addPaymentMethod stripe body params).
Proof.
  unfold PaymentIntent.addPaymentMethod.
  destruct (truthy_str _) as [paymentMethodId|]; [|by apply yields_ret].
  eapply (yields_bind_with _ earlyPastValidation).
  - repeat yields_step; simpl; first [done | by apply pastValidation_status].
  - intros [r|p] Hr; repeat yields_step; done.
Qed.

(** C7.  The amount check rejects exactly a missing amount and an amount
    that is not greater than zero.  A rejected request is answered with the
    failure envelope [Valid amount is required] and status 400, and the
    world is the one before: no provider call was made.  With an amount
    greater than zero the check passes: whatever the handler then answers,
    it is not that response. *)
Theorem amount_is_validated_before_the_provider_is_called stripe body w :
  (PaymentIntent.amount_rejected (PaymentIntent.amount body) = true
   ↔ PaymentIntent.amount body = None
     ∨ ∃ a, PaymentIntent.amount body = Some a ∧ (a <= 0)%Q)
  ∧ (PaymentIntent.amount_rejected (PaymentIntent.amount body) = true →
     PaymentIntent.POST stripe (Ok body) w
     = (Ok (respond_error "Valid amount is required" 400), w))
  ∧ (∀ a, PaymentIntent.amount body = Some a → (0 < a)%Q →
     PaymentIntent.amount_rejected (PaymentIntent.amount body) = false
     ∧ ∃ r, (PaymentIntent.POST stripe (Ok body) w).1 = Ok r
            ∧ r ≠ respond_error "Valid amount is required" 400).
Proof.
  split_and!.
  - unfold PaymentIntent.amount_rejected.
    destruct (PaymentIntent.amount body) as [a|]; [|naive_solver].
    rewrite amount_rejected_iff. split; [intros Hle; right; by exists a|].
    by intros [|(a' & [= <-] & Hle)].
  - unfold PaymentIntent.amount_rejected, PaymentIntent.POST.
    unfold try_catch. rewrite bind_run. cbn [lift].
    destruct (PaymentIntent.amount body) as [a|]; [|done].
    by intros ->.
  - intros a Ha Hpos. unfold PaymentIntent.amount_rejected. rewrite Ha.
    split; [by apply amount_accepted|].
    unfold PaymentIntent.POST.
    apply (returns_try_catch pastValidation).
    + apply yields_parsed. rewrite Ha, (amount_accepted a Hpos).
      eapply yields_bind_with; [apply addCustomer_pastValidation|].
      intros [r|p] Hr; [by apply yields_ret|].
      eapply yields_bind_with; [apply addPaymentMethod_pastValidation|].
      intros [r|p'] Hr'; [by apply yields_ret|].
      repeat yields_step; apply pastValidation_ok.
    + intros t. apply pastValidation_status. destruct t; repeat case_match; done.
Qed.

Lemma new_effects_same w : new_effects w w = [].
Proof. unfold new_effects. apply drop_all. Qed.

Lemma lookups_no_create w w' params :
  onlyCalls isLookup w w' →
  Remote (paymentIntents_create params) ∉ new_effects w w'.
Proof.
  intros (calls & -> & HP)%onlyCalls_new_effects (c & [= <-] & Hin)%list_elem_of_fmap.
  rewrite Forall_forall in HP. by apply (HP _ Hin).
Qed.

Lemma lookups_then_create w w' params params' :
  onlyCalls isLookup w w' →
  Remote (paymentIntents_create params)
    ∈ new_effects w (mkWorld (customers w') (paymentMethods w')
                             (trace w' ++ [Remote (paymentIntents_create params')])) →
  params = params'.
Proof.
  intros (_ & _ & calls & Ht & HP). unfold new_effects. simpl.
  rewrite Ht, <- app_assoc, drop_app_length.
  intros [(c & [= <-] & Hin)%list_elem_of_fmap|Hin%list_elem_of_singleton]%elem_of_app.
  - rewrite Forall_forall in HP. by destruct (HP _ Hin).
  - by injection Hin.
Qed.

(** What [POST /api/payment-intent] answers once it has called [create]:
    the answer is decided by what [create] returned or threw. *)
Lemma payment_intent_POST_after_create stripe json w params :
  Remote (paymentIntents_create params)
    ∈ new_effects w (PaymentIntent.POST stripe json w).2 →
  (PaymentIntent.POST stripe json w).1
  = match do_paymentIntents_create stripe params with
    | Ok paymentIntent =>
      Ok (respond_ok (DPaymentIntentResponse
                        (PaymentIntent.createdResponse paymentIntent)))
    | Throw (ThrownError message) =>
      Ok (respond_error message
            (if includes message "authentication_required" then 402
             else if includes message "card_declined" then 402 else 500))
    | Throw ThrownOther => Ok (respond_error "Failed to create PaymentIntent" 500)
    end.
Proof.
  unfold PaymentIntent.POST, try_catch. rewrite bind_run.
  destruct json as [body|t]; cbn [lift];
    [|rewrite new_effects_same; by intros ?%elem_of_nil].
  destruct (PaymentIntent.amount body) as [a|];
    [|cbn; rewrite new_effects_same; by intros ?%elem_of_nil].
  destruct (Qeq_bool a 0 || Qle_bool a 0);
    [cbn; rewrite new_effects_same; by intros ?%elem_of_nil|].
  cbv zeta. rewrite bind_run.
  match goal with |- context [PaymentIntent.addCustomer stripe body ?p w] =>
    pose proof (addCustomer_lookups stripe body p w) as H1;
    destruct (PaymentIntent.addCustomer stripe body p w) as [[[r|p1]|t] w1] end;
    cbn [snd fst mret M_ret] in *;
    [intros Hin; by apply lookups_no_create in Hin| |
     intros Hin; by apply lookups_no_create in Hin].
  rewrite bind_run.
  pose proof (addPaymentMethod_lookups stripe body p1 w1) as H2.
  assert (onlyCalls isLookup w (PaymentIntent.addPaymentMethod stripe body p1 w1).2)
    as H12 by (etrans; [exact H1|exact H2]).
  destruct (PaymentIntent.addPaymentMethod stripe body p1 w1) as [[[r|p2]|t] w2];
    cbn [snd fst mret M_ret] in *;
    [intros Hin; by apply lookups_no_create in Hin| |
     intros Hin; by apply lookups_no_create in Hin].
  rewrite bind_run, remote_run.
  match goal with |- context [do_paymentIntents_create stripe ?p] =>
    generalize p; intros p3 end.
  destruct (do_paymentIntents_create stripe p3) as [paymentIntent|error] eqn:Hcreate;
    cbn [snd fst mret M_ret]; intros Hin;
    apply (lookups_then_create _ _ _ _ H12) in Hin; subst p3; rewrite Hcreate;
    [done|by destruct error].
Qed.

(** ** C6: a declined charge *)

(** What holds of [POST /api/payment-intent] whatever the request and the
    provider's answers: it never touches the mirror and writes no file.
    When it has called [create] and the provider threw an error, the answer
    is the failure envelope with the error's message; the status is 402
    when that message contains [authentication_required] or
    [card_declined], and 500 for every other message.  On the webhook side,
    [payment_intent.payment_failed] leaves the world as it is, and so does
    [payment_intent.succeeded] for an intent without [setup_future_usage]. *)
Lemma a_failed_charge_saves_nothing stripe env json w :
  let after := PaymentIntent.POST stripe json w in
  mirror after.2 = mirror w
  ∧ Forall (λ e, ¬ isWrite e) (new_effects w after.2)
  ∧ (∀ params message,
       Remote (paymentIntents_create params) ∈ new_effects w after.2 →
       do_paymentIntents_create stripe params = Throw (ThrownError message) →
       after.1 = Ok (respond_error message
                       (if includes message "authentication_required"
                           || includes message "card_declined"
                        then 402 else 500)))
  ∧ (∀ paymentIntent, Webhook.handlePaymentIntentFailed paymentIntent w = (Ok tt, w))
  ∧ (∀ paymentIntent,
       truthy_str (pi_setup_future_usage paymentIntent) = None →
       Webhook.handlePaymentIntentSucceeded stripe env paymentIntent w = (Ok tt, w)).
Proof.
  cbv zeta. pose proof (payment_intent_POST_calls stripe json w) as Hcalls.
  split_and!.
  - by eapply onlyCalls_mirror.
  - by eapply onlyCalls_no_write.
  - intros params message Hin Hthrow.
    rewrite (payment_intent_POST_after_create _ _ _ _ Hin), Hthrow.
    by destruct (includes message "authentication_required").
  - done.
  - intros paymentIntent Hnone. unfold Webhook.handlePaymentIntentSucceeded.
    by rewrite Hnone.
Qed.

(** C6, the route at a declined card.  An off-session charge of 25.00 with
    [saveCard] is submitted for [cus_A] and [pm_1]; customer and card are
    retrieved, [paymentIntents.create] is called, and the provider declines
    the card: the SDK throws the error of a decline, whose message is
    [Your card was declined.] ([card_declined] is the error's [code]).  The
    message does not contain [card_declined], which is what the route looks
    for, so the answer carries status 500 and not 402.  Nothing is saved:
    the mirror is as it was, and no file is written. *)
Theorem a_declined_card_is_answered_500_and_saves_nothing :
  let stripe := Example.sdk Example.noEvent (Example.declines Example.cardDeclined)
                            Example.attachOk in
  let w := Example.withCards in
  let after := PaymentIntent.POST stripe (Ok Example.chargeAndSave) w in
  includes Example.cardDeclined "card_declined" = false
  ∧ after.1 = Ok (respond_error "Your card was declined." 500)
  ∧ after.1 ≠ Ok (respond_error "Your card was declined." 402)
  ∧ new_effects w after.2
    = [ Remote (customers_retrieve "cus_A");
        Remote (paymentMethods_retrieve "pm_1");
        Remote (paymentIntents_create Example.chargeAndSaveParams) ]
  ∧ mirror after.2 = mirror w.
Proof. cbv zeta. split_and!; [reflexivity..|discriminate|reflexivity|reflexivity]. Qed.

(** ** C9: creating a customer whose email is already in the local store *)

(** C9, amended.  A create-customer request with a non-empty email and a
    non-empty name, whose email is the email of a local record, is answered
    with a success carrying the first such record, and the world is the one
    before: no provider call, no file write. *)
Theorem known_email_returns_the_local_record
    stripe body email name existingCustomer w :
  truthy_str (Customers.email body) = Some email →
  truthy_str (Customers.name body) = Some name →
  CustomerDataStore.getByEmail email (customers w) = Some existingCustomer →
  Customers.POST stripe (Ok body) w
  = (Ok (respond_ok (DExistingCustomer existingCustomer)), w)
  ∧ c_email existingCustomer = email
  ∧ existingCustomer ∈ customers w.
Proof.
  intros Hemail Hname Hfound. split_and!.
  - unfold Customers.POST, try_catch. rewrite bind_run. cbn [lift].
    rewrite Hemail, Hname, bind_run.
    unfold Fs.CustomerDataStore_getByEmail. rewrite bind_run.
    cbn [Fs.customers_getAll mret M_ret]. by rewrite Hfound.
  - unfold CustomerDataStore.getByEmail in Hfound.
    apply fmap_Some in Hfound as ([i c] & (_ & Hc & _)%list_find_Some & ->). done.
  - unfold CustomerDataStore.getByEmail in Hfound.
    apply fmap_Some in Hfound as ([i c] & (Hi & _ & _)%list_find_Some & ->).
    by eapply list_elem_of_lookup_2.
Qed.

Lemma known_email_returns_the_local_record_witness :
  let w := run Example.createAlice emptyWorld in
  let body := Customers.mkCreateCustomerRequest
                (Some "alice@example.com") (Some "Alice again") [] in
  customers w = [Example.alice]
  ∧ Customers.POST Example.accepting (Ok body) w
    = (Ok (respond_ok (DExistingCustomer Example.alice)), w).
Proof.
  cbv zeta. split; [reflexivity|].
  apply (known_email_returns_the_local_record Example.accepting
           (Customers.mkCreateCustomerRequest
              (Some "alice@example.com"%string) (Some "Alice again"%string) [])
           "alice@example.com" "Alice again" Example.alice
           (run Example.createAlice emptyWorld));
    reflexivity.
Defined.

(** C9, counterexample.  The check for email and name comes first.  Alice is
    in the local store; a request with her email and an empty name is
    answered 400, not with her record. *)
Lemma known_email_without_name_is_rejected :
  let w := run Example.createAlice emptyWorld in
  let body := Customers.mkCreateCustomerRequest
                (Some "alice@example.com") (Some EmptyString) [] in
  CustomerDataStore.getByEmail "alice@example.com" (customers w) = Some Example.alice
  ∧ Customers.POST Example.accepting (Ok body) w
    = (Ok (respond_error "Email and name are required" 400), w)
  ∧ Customers.POST Example.accepting (Ok body) w
    ≠ (Ok (respond_ok (DExistingCustomer Example.alice)), w).
Proof. cbv zeta. split_and!; [reflexivity..|]. vm_compute. discriminate. Qed.

(** ** C4: the retry of an off-session charge *)

Lemma created_call w c :
  (∀ params, c ≠ paymentIntents_create params) →
  created (mkWorld (customers w) (paymentMethods w) (trace w ++ [Remote c]))
  = created w.
Proof.
  intros Hc. unfold created. cbn [trace]. rewrite omap_app. cbn.
  destruct c; rewrite ?app_nil_r; try done. by destruct (Hc params).
Qed.

Lemma created_lookups w w' : onlyCalls isLookup w w' → created w' = created w.
Proof.
  intros (_ & _ & calls & Ht & HP). unfold created. rewrite Ht, omap_app.
  rewrite <- (app_nil_r (omap _ (trace w))) at 2. f_equal. clear Ht.
  induction HP as [|c calls Hc _ IH]; [done|]. destruct c; try done; exact IH.
Qed.

(** [POST /api/payment-intent] asks for at most one charge intent. *)
Lemma payment_intent_POST_creates_at_most_one stripe json w :
  created (PaymentIntent.POST stripe json w).2 = created w
  ∨ ∃ params, created (PaymentIntent.POST stripe json w).2 = created w ++ [params].
Proof.
  unfold PaymentIntent.POST, try_catch. rewrite bind_run.
  destruct json as [body|t]; cbn [lift]; [|by left].
  destruct (PaymentIntent.amount body) as [a|]; [|by left].
  destruct (Qeq_bool a 0 || Qle_bool a 0); [by left|].
  cbv zeta. rewrite bind_run.
  match goal with |- context [PaymentIntent.addCustomer stripe body ?p w] =>
    pose proof (addCustomer_lookups stripe body p w) as H1;
    destruct (PaymentIntent.addCustomer stripe body p w) as [[[r|p1]|t] w1] end;
    cbn [snd fst mret M_ret] in *;
    [left; by apply created_lookups| |left; by apply created_lookups].
  rewrite bind_run.
  pose proof (addPaymentMethod_lookups stripe body p1 w1) as H2.
  assert (onlyCalls isLookup w (PaymentIntent.addPaymentMethod stripe body p1 w1).2)
    as H12 by (etrans; [exact H1|exact H2]).
  destruct (PaymentIntent.addPaymentMethod stripe body p1 w1) as [[[r|p2]|t] w2];
    cbn [snd fst mret M_ret] in *;
    [left; by apply created_lookups| |left; by apply created_lookups].
  rewrite bind_run, remote_run.
  match goal with |- context [do_paymentIntents_create stripe ?p] =>
    generalize p; intros p3 end.
  right. exists p3.
  assert (created (mkWorld (customers w2) (paymentMethods w2)
                           (trace w2 ++ [Remote (paymentIntents_create p3)]))
          = created w ++ [p3]) as Hcreated.
  { unfold created at 1. cbn [trace]. rewrite omap_app.
    fold (created w2). by rewrite (created_lookups _ _ H12). }
  by destruct (do_paymentIntents_create stripe p3).
Qed.

(** A retry with the id makes one call to the provider, on that id. *)
Lemma retry_with_the_id_run stripe env id request w :
  id ≠ EmptyString → retryWith id request →
  ∃ c, (c = paymentIntents_confirm id ∨ c = paymentIntents_retrieve id)
       ∧ (route stripe env request w).2
         = mkWorld (customers w) (paymentMethods w) (trace w ++ [Remote c]).
Proof.
  intros Hid [-> | ->]; cbn [route].
  - exists (paymentIntents_confirm id). split; [by left|].
    unfold PaymentIntent.PATCH, try_catch.
    assert (truthy_str (Some id) = Some id) as -> by (by destruct id).
    rewrite decide_True by done. rewrite bind_run, remote_run.
    by destruct (do_paymentIntents_confirm stripe id).
  - exists (paymentIntents_retrieve id). split; [by right|].
    unfold PaymentIntent.GET, try_catch.
    assert (truthy_str (Some id) = Some id) as -> by (by destruct id).
    rewrite bind_run, remote_run.
    by destruct (do_paymentIntents_retrieve stripe id).
Qed.

Lemma retries_with_the_id_run id retries w :
  id ≠ EmptyString →
  Forall (λ '(_, _, op), ∃ request, op = Api request ∧ retryWith id request)
         retries →
  created (run retries w) = created w ∧ mirror (run retries w) = mirror w.
Proof.
  intros Hid Hretries. revert w.
  induction Hretries as [|[[stripe env] op] retries (request & -> & Hop) _ IH];
    intros w; [done|].
  change (run ((stripe, env, Api request) :: retries) w)
    with (run retries (route stripe env request w).2).
  destruct (retry_with_the_id_run stripe env id request w Hid Hop)
    as (c & Hc & ->).
  destruct (IH (mkWorld (customers w) (paymentMethods w) (trace w ++ [Remote c])))
    as [-> ->].
  split; [|done]. apply created_call. intros params. by destruct Hc as [-> | ->].
Qed.

(** C4.  A retry that is requested with the id of the intent, which is a
    [PATCH /api/payment-intent?id=..&action=confirm] or a
    [GET /api/payment-intent?id=..], makes exactly one call to the provider:
    the confirmation, or the retrieval, of that id.  It answers with the
    intent that the provider returns for it and leaves the mirror as it is.
    It never calls [paymentIntents.create]: over any number of such
    retries, whatever the provider answers, the charge intents that the
    provider has been asked to create are the ones asked for before, so a
    submission followed by retries with the id has asked for at most one
    charge intent. *)
Theorem a_retry_with_the_intent_id_creates_no_charge
    stripe env json id retries w :
  id ≠ EmptyString →
  Forall (λ '(_, _, op), ∃ request, op = Api request ∧ retryWith id request)
         retries →
  (let after := PaymentIntent.PATCH stripe (Some id) (Some "confirm"%string) w in
   new_effects w after.2 = [Remote (paymentIntents_confirm id)]
   ∧ mirror after.2 = mirror w
   ∧ after.1 = match do_paymentIntents_confirm stripe id with
               | Ok paymentIntent =>
                 Ok (respond_ok (DPaymentIntentResponse
                                   (PaymentIntent.updatedResponse paymentIntent)))
               | Throw error =>
                 Ok (respond_error
                       (message_or error "Failed to update PaymentIntent") 500)
               end)
  ∧ (let after := PaymentIntent.GET stripe (Some id) w in
     new_effects w after.2 = [Remote (paymentIntents_retrieve id)]
     ∧ mirror after.2 = mirror w
     ∧ after.1 = match do_paymentIntents_retrieve stripe id with
                 | Ok paymentIntent => Ok (respond_ok (DPaymentIntent paymentIntent))
                 | Throw error =>
                   Ok (respond_error
                         (message_or error "Failed to retrieve PaymentIntent") 500)
                 end)
  ∧ created (run retries w) = created w
  ∧ mirror (run retries w) = mirror w
  ∧ (let submitted := step stripe env (Api (payment_intent_POST json)) w in
     created (run retries submitted) = created submitted
     ∧ (length (created (run retries submitted)) ≤ S (length (created w)))%nat).
Proof.
  intros Hid Hretries.
  assert (truthy_str (Some id) = Some id) as Hsome by (by destruct id).
  split_and!.
  - cbv zeta. unfold PaymentIntent.PATCH, try_catch. rewrite Hsome.
    rewrite decide_True by done. rewrite bind_run, remote_run.
    unfold new_effects.
    destruct (do_paymentIntents_confirm stripe id); cbn [snd fst mret M_ret trace];
      by rewrite drop_app_length.
  - cbv zeta. unfold PaymentIntent.GET, try_catch. rewrite Hsome.
    rewrite bind_run, remote_run. unfold new_effects.
    destruct (do_paymentIntents_retrieve stripe id); cbn [snd fst mret M_ret trace];
      by rewrite drop_app_length.
  - by apply (retries_with_the_id_run id).
  - by apply (retries_with_the_id_run id).
  - cbv zeta. cbn [step route].
    destruct (retries_with_the_id_run id retries
                (PaymentIntent.POST stripe json w).2 Hid Hretries) as [-> _].
    split; [done|].
    destruct (payment_intent_POST_creates_at_most_one stripe json w)
      as [-> | [params ->]]; [lia|]. rewrite length_app. cbn. lia.
Qed.

(** The charge is submitted and the provider asks for authentication of the
    new intent [pi_1]; the retry with that id confirms [pi_1], and the
    provider has been asked for one charge intent. *)
Lemma a_retry_with_the_intent_id_creates_no_charge_witness :
  let submitted := step Example.asksAuthentication Example.env
                        (Api (payment_intent_POST (Ok Example.chargeRequest)))
                        emptyWorld in
  let retries := [(Example.accepting, Example.env,
                   Api (payment_intent_PATCH (Some "pi_1") (Some "confirm")))] in
  (PaymentIntent.POST Example.asksAuthentication (Ok Example.chargeRequest)
                      emptyWorld).1
  = Ok (respond_ok (DPaymentIntentResponse
                      (mkPaymentIntentResponse (Some "pi_1_secret") "pi_1"
                                               "requires_action" (Some true))))
  ∧ new_effects submitted
      (PaymentIntent.PATCH Example.accepting (Some "pi_1") (Some "confirm")
                           submitted).2
    = [Remote (paymentIntents_confirm "pi_1")]
  ∧ created (run retries submitted) = [Example.chargeParams].
Proof.
  cbv zeta. split; [reflexivity|].
  pose proof (a_retry_with_the_intent_id_creates_no_charge
                Example.accepting Example.env (Ok Example.chargeRequest) "pi_1"
                [(Example.accepting, Example.env,
                  Api (payment_intent_PATCH (Some "pi_1"%string)
                                            (Some "confirm"%string)))]
                (step Example.asksAuthentication Example.env
                      (Api (payment_intent_POST (Ok Example.chargeRequest)))
                      emptyWorld)) as Hretry.
  destruct Hretry as ((Hpatch & _) & _ & Hcreated & _).
  - discriminate.
  - apply Forall_singleton. eexists. split; [reflexivity|]. by left.
  - split; [exact Hpatch|]. rewrite Hcreated. reflexivity.
Defined.

(** ** C8: what a failure response carries *)

Lemma envelope_ok d : envelope (respond_ok d).
Proof. left. split_and!; [done..|by eexists|done]. Qed.

Lemma envelope_error message status :
  status ∈ [400; 402; 404; 500] → envelope (respond_error message status).
Proof. intros Hs. right. split_and!; [done..|by eexists]. Qed.

Ltac envelope_leaf :=
  first [ apply envelope_ok
        | apply envelope_error; by repeat constructor
        | exact I ].

(** The customer check of two routes: [try { retrieve } catch { return 404 }]. *)
Lemma customer_check_envelope {A} c (answer : Result A) message :
  yields optionalEnvelope
    (try_catch (remote c answer ;; mret None)
               (λ _, mret (Some (respond_error message 404)))).
Proof. repeat yields_step; simpl; envelope_leaf. Qed.

Ltac envelope_step :=
  lazymatch goal with
  | |- yields _ (try_catch (remote _ _ ≫= _) (λ _, mret (Some _)) ≫= _) =>
    eapply yields_bind_with; [apply customer_check_envelope|intros [?|] ?]
  | _ => yields_step
  end.

Lemma addCustomer_envelope stripe body params :
  yields earlyEnvelope (PaymentIntent.addCustomer stripe body params).
Proof.
  unfold PaymentIntent.addCustomer. repeat yields_step; simpl; envelope_leaf.
Qed.

Lemma addPaymentMethod_envelope stripe body params :
  yields earlyEnvelope (PaymentIntent.addPaymentMethod stripe body params).
Proof.
  unfold PaymentIntent.addPaymentMethod.
  destruct (truthy_str _) as [paymentMethodId|]; [|by apply yields_ret].
  eapply (yields_bind_with _ earlyEnvelope).
  - repeat yields_step; simpl; envelope_leaf.
  - intros [r|p] Hr; repeat yields_step; done.
Qed.

Lemma payment_intent_POST_envelope stripe json :
  returns envelope (PaymentIntent.POST stripe json).
Proof.
  unfold PaymentIntent.POST. cbv zeta.
  apply (returns_try_catch envelope).
  - apply yields_bind. intros body.
    destruct (PaymentIntent.amount body) as [a|]; [|apply yields_ret; envelope_leaf].
    destruct (Qeq_bool a 0 || Qle_bool a 0); [apply yields_ret; envelope_leaf|].
    eapply yields_bind_with; [apply addCustomer_envelope|].
    intros [r|p] Hr; [by apply yields_ret|].
    eapply yields_bind_with; [apply addPaymentMethod_envelope|].
    intros [r|p'] Hr'; [by apply yields_ret|].
    repeat yields_step; envelope_leaf.
  - intros t. apply envelope_error. destruct t; repeat case_match; by repeat constructor.
Qed.

Lemma route_envelope stripe env request :
  returns envelope (route stripe env request).
Proof.
  destruct request; simpl; try apply payment_intent_POST_envelope;
    unfold Customers.GET, Customers.POST, Customers.DELETE,
      PaymentMethods.GET, PaymentMethods.POST, PaymentMethods.PATCH,
      PaymentMethods.DELETE, PaymentIntent.GET,
      PaymentIntent.PATCH, SetupIntent.POST, SetupIntent.GET;
    apply (returns_try_catch envelope);
    first [ intros t; apply envelope_error; by repeat constructor
          | repeat envelope_step; first [ assumption | envelope_leaf ] ].
Qed.

(** The catch-all of [POST /api/payment-methods] and of
    [POST /api/customers] forwards the provider's message. *)
Lemma attach_failure_forwards_the_message stripe env body paymentMethodId customerId
    message w :
  truthy_str (PaymentMethods.paymentMethodId body) = Some paymentMethodId →
  truthy_str (PaymentMethods.customerId body) = Some customerId →
  do_paymentMethods_attach stripe paymentMethodId customerId
  = Throw (ThrownError message) →
  (PaymentMethods.POST stripe env (Ok body) w).1 = Ok (respond_error message 500).
Proof.
  intros Hp Hc Hthrow. unfold PaymentMethods.POST, try_catch.
  rewrite bind_run. cbn [lift]. rewrite Hp, Hc, bind_run, remote_run, Hthrow. done.
Qed.

Lemma create_customer_failure_forwards_the_message stripe body email name message w :
  truthy_str (Customers.email body) = Some email →
  truthy_str (Customers.name body) = Some name →
  CustomerDataStore.getByEmail email (customers w) = None →
  do_customers_create stripe email name
    (("source", "stripe-testing-app")%string :: Customers.metadata body)
  = Throw (ThrownError message) →
  (Customers.POST stripe (Ok body) w).1 = Ok (respond_error message 500).
Proof.
  intros He Hn Hnone Hthrow. unfold Customers.POST, try_catch.
  rewrite bind_run. cbn [lift]. rewrite He, Hn, bind_run.
  unfold Fs.CustomerDataStore_getByEmail. rewrite bind_run.
  cbn [Fs.customers_getAll mret M_ret]. rewrite Hnone. cbv zeta.
  rewrite bind_run, remote_run, Hthrow. done.
Qed.

(** C8, amended.  Every client-facing operation returns (it never throws
    past its [catch]) and what it returns is the envelope: a success with
    [data] and status 200, or a failure with [success = false], no [data],
    an [error] message and a status among 400, 402, 404 and 500; the
    envelope has no further field.  When the provider throws an [Error] at
    the attach call or at the create-customer call, the failure carries that
    error's message as it is, with status 500. *)
Theorem failures_carry_a_status_and_a_message stripe env :
  (∀ request w, ∃ r, (route stripe env request w).1 = Ok r ∧ envelope r)
  ∧ (∀ body paymentMethodId customerId message w,
       truthy_str (PaymentMethods.paymentMethodId body) = Some paymentMethodId →
       truthy_str (PaymentMethods.customerId body) = Some customerId →
       do_paymentMethods_attach stripe paymentMethodId customerId
       = Throw (ThrownError message) →
       (route stripe env (payment_methods_POST (Ok body)) w).1
       = Ok (respond_error message 500))
  ∧ (∀ body email name message w,
       truthy_str (Customers.email body) = Some email →
       truthy_str (Customers.name body) = Some name →
       CustomerDataStore.getByEmail email (customers w) = None →
       do_customers_create stripe email name
         (("source", "stripe-testing-app")%string :: Customers.metadata body)
       = Throw (ThrownError message) →
       (route stripe env (customers_POST (Ok body)) w).1
       = Ok (respond_error message 500)).
Proof.
  split_and!.
  - intros request w. apply route_envelope.
  - intros. by eapply attach_failure_forwards_the_message.
  - intros. by eapply create_customer_failure_forwards_the_message.
Qed.

Lemma failures_carry_a_status_and_a_message_witness :
  (route (Example.sdk Example.noEvent Example.createSucceeds
                      (Example.attachFails "Your card was declined."))
         Example.env (payment_methods_POST (Ok Example.attachRequest)) emptyWorld).1
  = Ok (respond_error "Your card was declined." 500).
Proof.
  pose proof (failures_carry_a_status_and_a_message
                (Example.sdk Example.noEvent Example.createSucceeds
                             (Example.attachFails "Your card was declined."))
                Example.env) as (_ & Hattach & _).
  apply (Hattach Example.attachRequest "pm_1"%string "cus_X"%string); reflexivity.
Defined.

(** C8, counterexample.  The attach call fails once because the customer
    does not exist and once because the card is declined.  Both answers have
    status 500, [success = false] and no [data]; they differ in the [error]
    text alone, and that text is the provider's message, word for word. *)
Lemma attach_failures_differ_in_the_provider_text_only :
  let answer message :=
    (PaymentMethods.POST
       (Example.sdk Example.noEvent Example.createSucceeds (Example.attachFails message))
       Example.env (Ok Example.attachRequest) emptyWorld).1 in
  let notFound := "No such customer: 'cus_X'"%string in
  let declined := "Your card was declined."%string in
  answer notFound = Ok (mkResponse 500 (mkApiResponse false None (Some notFound)))
  ∧ answer declined = Ok (mkResponse 500 (mkApiResponse false None (Some declined)))
  ∧ ∀ r1 r2, answer notFound = Ok r1 → answer declined = Ok r2 →
      status r1 = status r2 ∧ success (body r1) = success (body r2)
      ∧ data (body r1) = data (body r2)
      ∧ error (body r1) = Some notFound ∧ error (body r2) = Some declined.
Proof.
  cbv zeta. split_and!; [reflexivity..|].
  intros r1 r2 [= <-] [= <-]. done.
Qed.

(** ** The theorems at concrete inputs *)

Lemma customer_deleted_cascade_witness :
  let stripe := Example.sdk Example.deletedEvent Example.createSucceeds Example.attachOk in
  let request := Webhook.mkRequest "{...}" (Some "good") in
  let w := Example.withCards in
  CustomerDataStore.getById "cus_A" (customers w) = Some Example.cus_A
  ∧ PaymentMethodDataStore.getByCustomerId "cus_A" (paymentMethods w)
    = [Example.pm_1 true; Example.pm_2 false]
  ∧ CustomerDataStore.getById "cus_A"
      (customers (Webhook.POST stripe Example.env request w).2) = None
  ∧ PaymentMethodDataStore.getByCustomerId "cus_A"
      (paymentMethods (Webhook.POST stripe Example.env request w).2) = []
  ∧ WebhookTask.POST stripe Example.env request w
    = Suspended AwaitHandler (Webhook.POST stripe Example.env request w).2
                (λ w', Finished (Ok (Webhook.mkResponse 200 Webhook.received)) w').
Proof.
  cbv zeta. split; [reflexivity|]. split; [reflexivity|].
  pose proof (customer_deleted_cascade
                (Example.sdk Example.deletedEvent Example.createSucceeds Example.attachOk)
                Example.env (Webhook.mkRequest "{...}" (Some "good"%string))
                Example.deletedEvent
                (Example.customerObject "cus_A" "a@example.com" "A")
                "good" Example.withCards
                eq_refl eq_refl eq_refl) as (_ & Hcustomer & Hcards & _ & Htask & _).
  split_and!; [exact Hcustomer|exact Hcards|exact Htask].
Defined.

Lemma amount_is_validated_before_the_provider_is_called_witness :
  let free := PaymentIntent.mkPaymentIntentRequest
                (Some "cus_A") (Some (0 : Q)) (Some "usd") (Some "pm_1") None (Some true) in
  PaymentIntent.POST Example.accepting (Ok free) emptyWorld
  = (Ok (respond_error "Valid amount is required" 400), emptyWorld)
  ∧ PaymentIntent.amount_rejected (PaymentIntent.amount Example.chargeRequest) = false.
Proof.
  cbv zeta. split.
  - pose proof (amount_is_validated_before_the_provider_is_called
                  Example.accepting
                  (PaymentIntent.mkPaymentIntentRequest
                     (Some "cus_A"%string) (Some (0 : Q)) (Some "usd"%string)
                     (Some "pm_1"%string) None (Some true))
                  emptyWorld) as (_ & Hrejected & _).
    apply Hrejected. reflexivity.
  - pose proof (amount_is_validated_before_the_provider_is_called
                  Example.accepting Example.chargeRequest emptyWorld)
      as (_ & _ & Haccepted).
    destruct (Haccepted (25 : Q) eq_refl) as [Hok _]; [reflexivity|exact Hok].
Defined.

(** * Further properties *)

(** ** The stores: lookups, round trips, the default flag *)

(** Lookup by key over any record type; [getById] of both stores. *)
Lemma find_cons {A} (P : A → Prop) `{!∀ x, Decision (P x)} a (l : list A) :
  snd <$> list_find P (a :: l)
  = if decide (P a) then Some a else snd <$> list_find P l.
Proof.
  cbn [list_find]. case_decide; [done|].
  by destruct (list_find P l) as [[i x]|].
Qed.

Lemma find_insert_other {A} (P : A → Prop) `{!∀ x, Decision (P x)}
    (l : list A) i x y :
  l !! i = Some y → ¬ P x → ¬ P y →
  snd <$> list_find P (<[i := x]> l) = snd <$> list_find P l.
Proof.
  revert i. induction l as [|a l IH]; intros [|i] Hi Hx Hy; try done.
  - injection Hi as ->. change (<[0%nat := x]> (y :: l)) with (x :: l).
    by rewrite !find_cons, !decide_False.
  - change (<[S i := x]> (a :: l)) with (a :: <[i := x]> l).
    rewrite !find_cons. case_decide; [done|]. by apply IH.
Qed.

Lemma find_app_other {A} (P : A → Prop) `{!∀ x, Decision (P x)} (l : list A) x :
  ¬ P x → snd <$> list_find P (l ++ [x]) = snd <$> list_find P l.
Proof.
  intros Hx. induction l as [|a l IH]; simpl app.
  - by rewrite find_cons, decide_False.
  - rewrite !find_cons. by case_decide.
Qed.

Lemma upsert_lookup_other {A} (key : A → string) x id (l : list A) :
  id ≠ key x →
  snd <$> list_find (λ y, key y = id) (upsert key x l)
  = snd <$> list_find (λ y, key y = id) l.
Proof.
  intros Hne. unfold upsert.
  destruct (list_find (λ y, key y = key x) l) as [[i y]|] eqn:Hf.
  - apply list_find_Some in Hf as (Hi & Hk & _).
    apply (find_insert_other _ _ _ _ y); [done|congruence|congruence].
  - apply find_app_other. congruence.
Qed.

Lemma remove_upsert_fresh {A} (key : A → string) x (l : list A) :
  key x ∉ key <$> l → remove key (key x) (upsert key x l) = (l, true).
Proof.
  intros Hfresh.
  assert (list_find (λ y, key y = key x) l = None) as Hnone.
  { apply list_find_None, Forall_forall. intros y Hy Hk. apply Hfresh.
    apply list_elem_of_fmap. by exists y. }
  assert (filter (λ y, key y ≠ key x) l = l) as Hsame.
  { clear Hnone. induction l as [|a l IH]; [done|].
    rewrite fmap_cons, not_elem_of_cons in Hfresh. destruct Hfresh as [Ha Hl].
    rewrite filter_cons_True by congruence. f_equal. auto. }
  unfold upsert. rewrite Hnone. unfold remove.
  rewrite filter_app, Hsame, filter_cons_False, filter_nil, app_nil_r
    by (intros H; by apply H).
  rewrite decide_True; [done|]. rewrite length_app. simpl. lia.
Qed.

(** X1.  [save] of one record does not disturb the lookup of any other id,
    in either store; and saving a record under an id that was not there and
    deleting that id again gives back the array as it was, with [true]. *)
Theorem save_is_local_and_undone_by_delete
    (customers : list CustomerData) (paymentMethods : list SavedPaymentMethod)
    (customer : CustomerData) (paymentMethod : SavedPaymentMethod) :
  (∀ id, id ≠ c_id customer →
     CustomerDataStore.getById id (CustomerDataStore.save customer customers)
     = CustomerDataStore.getById id customers)
  ∧ (∀ id, id ≠ pm_id paymentMethod →
     PaymentMethodDataStore.getById id
       (PaymentMethodDataStore.save paymentMethod paymentMethods)
     = PaymentMethodDataStore.getById id paymentMethods)
  ∧ (c_id customer ∉ c_id <$> customers →
     CustomerDataStore.delete (c_id customer)
       (CustomerDataStore.save customer customers) = (customers, true))
  ∧ (pm_id paymentMethod ∉ pm_id <$> paymentMethods →
     PaymentMethodDataStore.delete (pm_id paymentMethod)
       (PaymentMethodDataStore.save paymentMethod paymentMethods)
     = (paymentMethods, true)).
Proof.
  split_and!.
  - intros id Hne. by apply (upsert_lookup_other c_id).
  - intros id Hne. by apply (upsert_lookup_other pm_id).
  - apply (remove_upsert_fresh c_id).
  - apply (remove_upsert_fresh pm_id).
Qed.

Lemma save_is_local_and_undone_by_delete_witness :
  CustomerDataStore.getById "cus_Alice"
    (CustomerDataStore.save Example.bob [Example.alice]) = Some Example.alice
  ∧ CustomerDataStore.delete "cus_Bob"
      (CustomerDataStore.save Example.bob [Example.alice]) = ([Example.alice], true).
Proof.
  pose proof (save_is_local_and_undone_by_delete
                [Example.alice] [] Example.bob (Example.pm_1 true))
    as (Hlocal & _ & Hundo & _).
  split.
  - rewrite (Hlocal "cus_Alice"%string); [reflexivity|discriminate].
  - apply Hundo. simpl. intros Hin. apply list_elem_of_singleton in Hin. discriminate.
Defined.

(** X2.  Deleting an id that is not in the file answers [false] and leaves
    the world as it was: nothing is written.  So of two deletes of the same
    id on end, the second is such a no-op, whatever the file held. *)
Theorem delete_of_an_absent_id_writes_nothing id w :
  (id ∉ c_id <$> customers w → Fs.CustomerDataStore_delete id w = (Ok false, w))
  ∧ (id ∉ pm_id <$> paymentMethods w →
     Fs.PaymentMethodDataStore_delete id w = (Ok false, w))
  ∧ (let w1 := (Fs.CustomerDataStore_delete id w).2 in
     Fs.CustomerDataStore_delete id w1 = (Ok false, w1))
  ∧ (let w1 := (Fs.PaymentMethodDataStore_delete id w).2 in
     Fs.PaymentMethodDataStore_delete id w1 = (Ok false, w1)).
Proof.
  assert (∀ w, id ∉ c_id <$> customers w →
               Fs.CustomerDataStore_delete id w = (Ok false, w)) as Hc.
  { intros w0 Hnot. unfold Fs.CustomerDataStore_delete. rewrite bind_run.
    cbn [Fs.customers_getAll]. rewrite customers_delete_is_remove.
    pose proof (remove_snd c_id id (customers w0)) as Hs.
    destruct (remove c_id id (customers w0)) as [l' []]; simpl in Hs; [|done].
    exfalso. apply Hnot. by apply Hs. }
  assert (∀ w, id ∉ pm_id <$> paymentMethods w →
               Fs.PaymentMethodDataStore_delete id w = (Ok false, w)) as Hp.
  { intros w0 Hnot. unfold Fs.PaymentMethodDataStore_delete. rewrite bind_run.
    cbn [Fs.paymentMethods_getAll]. rewrite paymentMethods_delete_is_remove.
    pose proof (remove_snd pm_id id (paymentMethods w0)) as Hs.
    destruct (remove pm_id id (paymentMethods w0)) as [l' []]; simpl in Hs; [|done].
    exfalso. apply Hnot. by apply Hs. }
  split_and!; [apply Hc|apply Hp| |]; cbv zeta.
  - apply Hc. destruct (customers_delete_run id w) as (b & w1 & Hrun & Hl & _).
    rewrite Hrun. cbn [snd]. rewrite Hl. intros (y & -> & (Hne & _)%list_elem_of_filter)%list_elem_of_fmap. done.
  - apply Hp. destruct (paymentMethods_delete_run id w) as (b & w1 & Hrun & _ & Hl).
    rewrite Hrun. cbn [snd]. rewrite Hl. intros (y & -> & (Hne & _)%list_elem_of_filter)%list_elem_of_fmap. done.
Qed.

Lemma delete_of_an_absent_id_writes_nothing_witness :
  let w := run Example.createAlice emptyWorld in
  Fs.CustomerDataStore_delete "cus_Bob" w = (Ok false, w).
Proof.
  cbv zeta.
  pose proof (delete_of_an_absent_id_writes_nothing
                "cus_Bob" (run Example.createAlice emptyWorld)) as (Habsent & _).
  apply Habsent. intros Hin. apply list_elem_of_singleton in Hin. discriminate.
Defined.

(** *** [setAsDefault] *)

Lemma set_isDefault_twice b b' pm :
  PaymentMethodDataStore.set_isDefault b (PaymentMethodDataStore.set_isDefault b' pm)
  = PaymentMethodDataStore.set_isDefault b pm.
Proof. done. Qed.

(** What the clearing does to one record. *)
Lemma clearDefaults_lookup c (l : list SavedPaymentMethod) i :
  PaymentMethodDataStore.clearDefaults c l !! i
  = (λ pm, if decide (pm_customerId pm = c)
           then PaymentMethodDataStore.set_isDefault false pm else pm) <$> l !! i.
Proof. unfold PaymentMethodDataStore.clearDefaults. apply list_lookup_fmap. Qed.

Lemma clearDefaults_length c (l : list SavedPaymentMethod) :
  length (PaymentMethodDataStore.clearDefaults c l) = length l.
Proof. unfold PaymentMethodDataStore.clearDefaults. apply length_fmap. Qed.

Lemma clearDefaults_twice c l :
  PaymentMethodDataStore.clearDefaults c (PaymentMethodDataStore.clearDefaults c l)
  = PaymentMethodDataStore.clearDefaults c l.
Proof.
  unfold PaymentMethodDataStore.clearDefaults. rewrite <- list_fmap_compose.
  apply list_fmap_ext. intros i pm _. simpl. by repeat case_decide.
Qed.

Lemma clearDefaults_insert c l i x :
  PaymentMethodDataStore.clearDefaults c (<[i := x]> l)
  = <[i := if decide (pm_customerId x = c)
           then PaymentMethodDataStore.set_isDefault false x else x]>
      (PaymentMethodDataStore.clearDefaults c l).
Proof. unfold PaymentMethodDataStore.clearDefaults. apply list_fmap_insert. Qed.

(** [getById] after [setAsDefault]: the same record is found, with the flag
    [true] when it is the target and cleared when it belongs to the customer. *)
Lemma setAsDefault_getById q p c l :
  PaymentMethodDataStore.getById q (PaymentMethodDataStore.setAsDefault p c l)
  = (λ pm, if decide (q = p) then PaymentMethodDataStore.set_isDefault true pm
           else if decide (pm_customerId pm = c)
                then PaymentMethodDataStore.set_isDefault false pm else pm)
      <$> PaymentMethodDataStore.getById q l.
Proof.
  unfold PaymentMethodDataStore.getById, PaymentMethodDataStore.setAsDefault.
  rewrite clearDefaults_find.
  destruct (list_find (λ pm, pm_id pm = p) l) as [[i t]|] eqn:Hp; simpl.
  - pose proof Hp as (Hi & Hid & Hleast)%list_find_Some.
    destruct (decide (q = p)) as [->|Hne].
    + rewrite Hp. simpl.
      assert (list_find (λ pm, pm_id pm = p)
                (<[i := PaymentMethodDataStore.set_isDefault true
                          (if decide (pm_customerId t = c)
                           then PaymentMethodDataStore.set_isDefault false t else t)]>
                   (PaymentMethodDataStore.clearDefaults c l))
              = Some (i, PaymentMethodDataStore.set_isDefault true
                           (if decide (pm_customerId t = c)
                            then PaymentMethodDataStore.set_isDefault false t else t)))
        as ->.
      { apply list_find_Some. split_and!.
        - apply list_lookup_insert_eq. rewrite clearDefaults_length.
          by eapply lookup_lt_Some.
        - simpl. by case_decide.
        - intros j y Hj Hlt. rewrite list_lookup_insert_ne in Hj by lia.
          rewrite clearDefaults_lookup in Hj.
          destruct (l !! j) as [z|] eqn:Hz; [|done]. injection Hj as <-.
          specialize (Hleast j z Hz Hlt). by case_decide. }
      simpl. by case_decide.
    + rewrite (find_insert_other _ _ _ _
                 (if decide (pm_customerId t = c)
                  then PaymentMethodDataStore.set_isDefault false t else t)).
      * rewrite clearDefaults_find.
        by destruct (list_find (λ pm, pm_id pm = q) l) as [[j z]|].
      * by rewrite clearDefaults_lookup, Hi.
      * simpl. case_decide; simpl; congruence.
      * case_decide; simpl; congruence.
  - rewrite clearDefaults_find.
    destruct (list_find (λ pm, pm_id pm = q) l) as [[j z]|] eqn:Hq; [|done].
    simpl. destruct (decide (q = p)) as [->|]; [congruence|done].
Qed.

Lemma filter_insert_only {A} (P : A → Prop) `{!∀ x, Decision (P x)}
    (l : list A) i y :
  (i < length l)%nat → filter P l = [] → P y → filter P (<[i := y]> l) = [y].
Proof.
  revert i. induction l as [|a l IH]; intros [|i] Hi Hnone Hy; simpl in Hi; try lia.
  - change (<[0%nat := y]> (a :: l)) with (y :: l).
    rewrite filter_cons in Hnone. case_decide; [done|].
    by rewrite filter_cons_True, Hnone.
  - change (<[S i := y]> (a :: l)) with (a :: <[i := y]> l).
    rewrite filter_cons in Hnone. case_decide; [done|].
    rewrite filter_cons_False by done. apply IH; [lia|done..].
Qed.

(** The target, when it belongs to the customer, is afterwards the
    customer's one default. *)
Lemma setAsDefault_exactly p c l t :
  PaymentMethodDataStore.getById p l = Some t → pm_customerId t = c →
  defaultsOf c (PaymentMethodDataStore.setAsDefault p c l)
  = [PaymentMethodDataStore.set_isDefault true t].
Proof.
  unfold PaymentMethodDataStore.getById, PaymentMethodDataStore.setAsDefault.
  intros Hf Hown. rewrite clearDefaults_find.
  destruct (list_find (λ pm, pm_id pm = p) l) as [[i t']|] eqn:Hp; [|done].
  injection Hf as ->. simpl. rewrite decide_True by done.
  apply list_find_Some in Hp as (Hi & _ & _).
  unfold defaultsOf. apply filter_insert_only.
  - rewrite clearDefaults_length. by eapply lookup_lt_Some.
  - apply defaultsOf_clear_same.
  - done.
Qed.

(** With no record under the target id only the clearing happens. *)
Lemma setAsDefault_unknown p c l :
  PaymentMethodDataStore.getById p l = None →
  PaymentMethodDataStore.setAsDefault p c l
  = PaymentMethodDataStore.clearDefaults c l.
Proof.
  unfold PaymentMethodDataStore.getById, PaymentMethodDataStore.setAsDefault.
  rewrite clearDefaults_find.
  by destruct (list_find (λ pm, pm_id pm = p) l) as [[j t]|].
Qed.

(** X3.  [setAsDefault] keeps the array's length and order and changes no
    field but the flag: every record stays where it was, either as it was or
    with [isDefault] set; a record that is not the target and belongs to
    another customer is untouched.  When no record has the target id, the
    result is the array with the customer's flags cleared, so the customer
    is left without a default. *)
Theorem setAsDefault_changes_only_the_flag p c (l : list SavedPaymentMethod) :
  length (PaymentMethodDataStore.setAsDefault p c l) = length l
  ∧ (∀ i pm, l !! i = Some pm →
       ∃ pm', PaymentMethodDataStore.setAsDefault p c l !! i = Some pm'
              ∧ (pm' = pm ∨ ∃ b, pm' = PaymentMethodDataStore.set_isDefault b pm)
              ∧ (pm_id pm ≠ p → pm_customerId pm ≠ c → pm' = pm))
  ∧ (PaymentMethodDataStore.getById p l = None →
       PaymentMethodDataStore.setAsDefault p c l
       = PaymentMethodDataStore.clearDefaults c l
       ∧ defaultsOf c (PaymentMethodDataStore.setAsDefault p c l) = []).
Proof.
  split_and!.
  - pose proof (setAsDefault_ids p c l) as Hids.
    apply (f_equal length) in Hids. by rewrite !length_fmap in Hids.
  - intros i pm Hi. unfold PaymentMethodDataStore.setAsDefault.
    rewrite clearDefaults_find.
    destruct (list_find (λ pm, pm_id pm = p) l) as [[j t]|] eqn:Hp; simpl.
    + apply list_find_Some in Hp as (Hj & Hid & _).
      destruct (decide (i = j)) as [->|Hne].
      * rewrite list_lookup_insert_eq
          by (unfold PaymentMethodDataStore.clearDefaults; rewrite length_fmap;
              by eapply lookup_lt_Some).
        assert (t = pm) as -> by congruence.
        eexists. split; [done|]. split; [|congruence].
        right. exists true. by case_decide.
      * rewrite list_lookup_insert_ne by done. rewrite clearDefaults_lookup, Hi.
        simpl. eexists. split; [done|]. case_decide; split; eauto; congruence.
    + rewrite clearDefaults_lookup, Hi. simpl. eexists. split; [done|].
      case_decide; split; eauto; congruence.
  - unfold PaymentMethodDataStore.getById, PaymentMethodDataStore.setAsDefault.
    rewrite clearDefaults_find.
    destruct (list_find (λ pm, pm_id pm = p) l) as [[j t]|]; [done|].
    intros _. split; [done|]. apply defaultsOf_clear_same.
Qed.

Lemma setAsDefault_changes_only_the_flag_witness :
  (let l := [Example.pm_1 true; Example.pm_2 false] in
   PaymentMethodDataStore.setAsDefault "pm_9" "cus_A" l
   = PaymentMethodDataStore.clearDefaults "cus_A" l)
  ∧ PaymentMethodDataStore.setAsDefault "pm_9" "cus_A"
      [Example.pm_1 true; Example.pm_2 false]
    = [Example.pm_1 false; Example.pm_2 false].
Proof.
  pose proof (setAsDefault_changes_only_the_flag
                "pm_9" "cus_A" [Example.pm_1 true; Example.pm_2 false])
    as (_ & _ & Hnone).
  destruct Hnone as [Heq _]; [reflexivity|].
  split; [exact Heq|reflexivity].
Defined.

(** X4.  When the target belongs to the customer, it is afterwards that
    customer's one and only default, and [getById] returns it with the flag
    set.  Of two set-defaults for two payment methods of the same customer
    the later wins: the first target ends with the flag [false], the second
    with [true]. *)
Theorem the_last_set_default_wins p1 p2 c (l : list SavedPaymentMethod) t1 t2 :
  PaymentMethodDataStore.getById p1 l = Some t1 → pm_customerId t1 = c →
  PaymentMethodDataStore.getById p2 l = Some t2 → pm_customerId t2 = c →
  p1 ≠ p2 →
  let once := PaymentMethodDataStore.setAsDefault p1 c l in
  let twice := PaymentMethodDataStore.setAsDefault p2 c once in
  defaultsOf c once = [PaymentMethodDataStore.set_isDefault true t1]
  ∧ PaymentMethodDataStore.getById p1 once
    = Some (PaymentMethodDataStore.set_isDefault true t1)
  ∧ defaultsOf c twice = [PaymentMethodDataStore.set_isDefault true t2]
  ∧ PaymentMethodDataStore.getById p1 twice
    = Some (PaymentMethodDataStore.set_isDefault false t1)
  ∧ PaymentMethodDataStore.getById p2 twice
    = Some (PaymentMethodDataStore.set_isDefault true t2).
Proof.
  intros H1 Ho1 H2 Ho2 Hne. cbv zeta.
  assert (PaymentMethodDataStore.getById p2 (PaymentMethodDataStore.setAsDefault p1 c l)
          = Some (PaymentMethodDataStore.set_isDefault false t2)) as H2'.
  { rewrite setAsDefault_getById, H2. simpl.
    by rewrite decide_False, decide_True by done. }
  split_and!.
  - by apply setAsDefault_exactly.
  - rewrite setAsDefault_getById, H1. simpl. by rewrite decide_True.
  - by rewrite (setAsDefault_exactly _ _ _ _ H2').
  - rewrite !setAsDefault_getById, H1. simpl.
    rewrite (decide_True (P := p1 = p1)) by done.
    rewrite (decide_False (P := p1 = p2)) by done.
    by rewrite decide_True by done.
  - rewrite setAsDefault_getById, H2'. simpl. by rewrite decide_True.
Qed.

Lemma the_last_set_default_wins_witness :
  let l := [Example.pm_1 false; Example.pm_2 false] in
  PaymentMethodDataStore.setAsDefault "pm_2" "cus_A"
    (PaymentMethodDataStore.setAsDefault "pm_1" "cus_A" l)
  = [Example.pm_1 false; Example.pm_2 true]
  ∧ defaultsOf "cus_A"
      (PaymentMethodDataStore.setAsDefault "pm_2" "cus_A"
         (PaymentMethodDataStore.setAsDefault "pm_1" "cus_A" l))
    = [Example.pm_2 true].
Proof.
  cbv zeta. split; [reflexivity|].
  pose proof (the_last_set_default_wins
                "pm_1" "pm_2" "cus_A" [Example.pm_1 false; Example.pm_2 false]
                (Example.pm_1 false) (Example.pm_2 false)
                eq_refl eq_refl eq_refl eq_refl) as H.
  destruct H as (_ & _ & Htwice & _); [discriminate|exact Htwice].
Defined.

(** X5.  [setAsDefault] run twice with the same arguments gives what one run
    gives, whether or not the target exists or belongs to the customer. *)
Theorem setAsDefault_twice_is_once p c (l : list SavedPaymentMethod) :
  PaymentMethodDataStore.setAsDefault p c (PaymentMethodDataStore.setAsDefault p c l)
  = PaymentMethodDataStore.setAsDefault p c l.
Proof.
  unfold PaymentMethodDataStore.setAsDefault at 2. rewrite clearDefaults_find.
  destruct (list_find (λ pm, pm_id pm = p) l) as [[i t]|] eqn:Hp; simpl.
  - pose proof Hp as (Hi & Hid & Hleast)%list_find_Some.
    set (t1 := PaymentMethodDataStore.set_isDefault true
                 (if decide (pm_customerId t = c)
                  then PaymentMethodDataStore.set_isDefault false t else t)).
    unfold PaymentMethodDataStore.setAsDefault.
    rewrite clearDefaults_insert, clearDefaults_twice.
    set (t2 := if decide (pm_customerId t1 = c)
               then PaymentMethodDataStore.set_isDefault false t1 else t1).
    assert (list_find (λ pm, pm_id pm = p)
              (<[i := t2]> (PaymentMethodDataStore.clearDefaults c l))
            = Some (i, t2)) as ->.
    { apply list_find_Some. split_and!.
      - apply list_lookup_insert_eq. rewrite clearDefaults_length.
        by eapply lookup_lt_Some.
      - unfold t2, t1. repeat case_decide; done.
      - intros j y Hj Hlt. rewrite list_lookup_insert_ne in Hj by lia.
        rewrite clearDefaults_lookup in Hj.
        destruct (l !! j) as [z|] eqn:Hz; [|done]. injection Hj as <-.
        specialize (Hleast j z Hz Hlt). by case_decide. }
    rewrite list_insert_insert_eq, clearDefaults_find, Hp. simpl. f_equal.
    unfold t2, t1. repeat case_decide; done.
  - unfold PaymentMethodDataStore.setAsDefault.
    rewrite clearDefaults_twice, clearDefaults_find, Hp. done.
Qed.

(** ** The routes: what is written, and when *)

Lemma onlyCalls_one w c :
  onlyCalls anyCall w
    (mkWorld (customers w) (paymentMethods w) (trace w ++ [Remote c])).
Proof.
  split_and!; [done..|]. exists [c]. split; [done|]. by apply Forall_singleton.
Qed.

(** The routes that only read make provider calls and nothing else. *)
Lemma reading_routes_only_call stripe env request :
  readsOnly request → respects (onlyCalls anyCall) (route stripe env request).
Proof.
  intros Hreads.
  destruct request; try done; simpl;
    try (intros w0; eapply onlyCalls_weaken;
         [|apply payment_intent_POST_calls]; done);
    unfold Customers.GET, PaymentMethods.GET, PaymentIntent.GET,
      PaymentIntent.PATCH, SetupIntent.POST, SetupIntent.GET,
      Fs.CustomerDataStore_getById, Fs.PaymentMethodDataStore_getById,
      Fs.PaymentMethodDataStore_getByCustomerId;
    respects_all.
Qed.

(** X6.  The routes that only read, every [GET] and all of
    [/api/payment-intent] and [/api/setup-intent], leave both files as they
    were and write nothing, whatever the request and whatever the provider
    answers; all they add to the trace are provider calls. *)
Theorem reading_routes_never_write stripe env request w :
  readsOnly request →
  onlyCalls anyCall w (route stripe env request w).2
  ∧ mirror (route stripe env request w).2 = mirror w
  ∧ Forall (λ e, ¬ isWrite e) (new_effects w (route stripe env request w).2).
Proof.
  intros Hreads.
  pose proof (reading_routes_only_call stripe env request Hreads w) as Hcalls.
  split_and!; [done| |].
  - by eapply onlyCalls_mirror.
  - by eapply onlyCalls_no_write.
Qed.

Lemma reading_routes_never_write_witness :
  let w := run Example.attachTwo emptyWorld in
  mirror (route Example.accepting Example.env
                (payment_methods_GET (Some "cus_A") None) w).2 = mirror w.
Proof.
  cbv zeta.
  pose proof (reading_routes_never_write Example.accepting Example.env
                (payment_methods_GET (Some "cus_A"%string) None)
                (run Example.attachTwo emptyWorld) I) as (_ & Hmirror & _).
  exact Hmirror.
Defined.

(** X7.  No route writes before the provider has answered, and a failure
    response means that nothing was written: whenever a route answers with
    [success = false], both files are as they were and the run added nothing
    but provider calls to the trace. *)
Theorem a_failure_response_means_nothing_was_written stripe env request w r :
  (route stripe env request w).1 = Ok r →
  success (body r) = false →
  onlyCalls anyCall w (route stripe env request w).2
  ∧ mirror (route stripe env request w).2 = mirror w.
Proof.
  intros Hr Hfail.
  assert (onlyCalls anyCall w (route stripe env request w).2) as Hcalls;
    [|split; [done|by eapply onlyCalls_mirror]].
  destruct request;
    try (by apply reading_routes_only_call); simpl in *.
  - (* POST /api/customers *)
    revert Hr. unfold Customers.POST, try_catch. rewrite bind_run.
    destruct json as [b|t]; cbn [lift]; [|reflexivity].
    destruct (truthy_str (Customers.email b)) as [email|]; [|reflexivity].
    destruct (truthy_str (Customers.name b)) as [name|]; [|reflexivity].
    rewrite bind_run. unfold Fs.CustomerDataStore_getByEmail. rewrite bind_run.
    cbn [Fs.customers_getAll mret M_ret].
    destruct (CustomerDataStore.getByEmail email (customers w)); [reflexivity|].
    cbv zeta. rewrite bind_run, remote_run.
    destruct (do_customers_create stripe email name _); [|intros _; apply onlyCalls_one].
    simpl. intros [= <-]. done.
  - (* DELETE /api/customers *)
    revert Hr. unfold Customers.DELETE, try_catch.
    destruct (truthy_str id) as [customerId|]; [|reflexivity].
    rewrite bind_run, remote_run.
    destruct (do_customers_del stripe customerId) as [[]|t];
      [|intros _; apply onlyCalls_one].
    rewrite bind_run.
    match goal with |- context [Fs.CustomerDataStore_delete ?i ?w0] =>
      destruct (customers_delete_run i w0) as (b & w1 & -> & _) end.
    simpl. intros [= <-]. done.
  - (* POST /api/payment-methods *)
    revert Hr. unfold PaymentMethods.POST, try_catch. rewrite bind_run.
    destruct json as [b|t]; cbn [lift]; [|reflexivity].
    destruct (truthy_str (PaymentMethods.paymentMethodId b)) as [p|]; [|reflexivity].
    destruct (truthy_str (PaymentMethods.customerId b)) as [c|]; [|reflexivity].
    rewrite bind_run, remote_run.
    destruct (do_paymentMethods_attach stripe p c) as [pm|t];
      [|intros _; apply onlyCalls_one].
    cbv zeta. rewrite bind_run.
    destruct (default false (PaymentMethods.isDefault b)); simpl; intros [= <-]; done.
  - (* PATCH /api/payment-methods *)
    revert Hr. unfold PaymentMethods.PATCH, try_catch. rewrite bind_run.
    destruct json as [b|t]; cbn [lift]; [|reflexivity].
    destruct (truthy_str (PaymentMethods.u_paymentMethodId b)) as [p|]; [|reflexivity].
    destruct (truthy_str (PaymentMethods.u_customerId b)) as [c|]; [|reflexivity].
    case_decide; [|reflexivity]. rewrite bind_run, remote_run.
    destruct (do_customers_update stripe c p) as [[]|t];
      [|intros _; apply onlyCalls_one].
    simpl. intros [= <-]. done.
  - (* DELETE /api/payment-methods *)
    revert Hr. unfold PaymentMethods.DELETE, try_catch.
    destruct (truthy_str id) as [paymentMethodId|]; [|reflexivity].
    rewrite bind_run, remote_run.
    destruct (do_paymentMethods_detach stripe paymentMethodId) as [[]|t];
      [|intros _; apply onlyCalls_one].
    rewrite bind_run.
    match goal with |- context [Fs.PaymentMethodDataStore_delete ?i ?w0] =>
      destruct (paymentMethods_delete_run i w0) as (b & w1 & -> & _) end.
    simpl. intros [= <-]. done.
Qed.

Lemma a_failure_response_means_nothing_was_written_witness :
  let stripe := Example.sdk Example.noEvent Example.createSucceeds
                            (Example.attachFails "Your card was declined.") in
  let w := run Example.attachTwo emptyWorld in
  mirror (route stripe Example.env (payment_methods_POST (Ok Example.attachRequest)) w).2
  = mirror w.
Proof.
  cbv zeta.
  pose proof (a_failure_response_means_nothing_was_written
                (Example.sdk Example.noEvent Example.createSucceeds
                             (Example.attachFails "Your card was declined."))
                Example.env (payment_methods_POST (Ok Example.attachRequest))
                (run Example.attachTwo emptyWorld)
                (respond_error "Your card was declined." 500)
                eq_refl eq_refl) as [_ Hmirror].
  exact Hmirror.
Defined.

(** ** The routes: what a successful call leaves in the mirror *)

Lemma find_insert_hit {A} (P : A → Prop) `{!∀ x, Decision (P x)}
    (l : list A) i x :
  (i < length l)%nat → list_find P l = None → P x →
  snd <$> list_find P (<[i := x]> l) = Some x.
Proof.
  revert i. induction l as [|a l IH]; intros [|i] Hi Hnone Hx; simpl in Hi; try lia.
  - change (<[0%nat := x]> (a :: l)) with (x :: l).
    by rewrite find_cons, decide_True.
  - change (<[S i := x]> (a :: l)) with (a :: <[i := x]> l).
    assert (¬ P a ∧ list_find P l = None) as [Ha Hl].
    { rewrite !list_find_None, Forall_cons in *. done. }
    rewrite find_cons, decide_False by done. apply IH; [lia|done..].
Qed.

Lemma find_app_hit {A} (P : A → Prop) `{!∀ x, Decision (P x)} (l : list A) x :
  list_find P l = None → P x → snd <$> list_find P (l ++ [x]) = Some x.
Proof.
  intros Hnone Hx. induction l as [|a l IH]; simpl app.
  - by rewrite find_cons, decide_True.
  - assert (¬ P a ∧ list_find P l = None) as [Ha Hl].
    { rewrite !list_find_None, Forall_cons in *. done. }
    rewrite find_cons, decide_False by done. by apply IH.
Qed.

(** A record saved under an email that no stored record has is the one the
    lookup by email finds. *)
Lemma getByEmail_save customer customers :
  CustomerDataStore.getByEmail (c_email customer) customers = None →
  CustomerDataStore.getByEmail (c_email customer)
    (CustomerDataStore.save customer customers) = Some customer.
Proof.
  unfold CustomerDataStore.getByEmail, CustomerDataStore.save. intros Hnone.
  assert (list_find (λ c, c_email c = c_email customer) customers = None) as Hn.
  { by destruct (list_find _ customers). }
  destruct (list_find (λ c, c_id c = c_id customer) customers) as [[i y]|] eqn:Hf.
  - apply list_find_Some in Hf as (Hi & _).
    apply find_insert_hit; [by eapply lookup_lt_Some|done..].
  - by apply find_app_hit.
Qed.

(** X8.  A customer created through [POST /api/customers] is reused: when
    the provider echoes the email it was given, a later [POST] with that
    email, whatever name and metadata it carries and whatever the provider
    would answer, makes no provider call, writes nothing and returns the
    record stored by the first. *)
Theorem a_created_customer_is_reused_by_email
    stripe stripe' body body' email name name' stripeCustomer w :
  truthy_str (Customers.email body) = Some email →
  truthy_str (Customers.name body) = Some name →
  CustomerDataStore.getByEmail email (customers w) = None →
  do_customers_create stripe email name
    (("source", "stripe-testing-app")%string :: Customers.metadata body)
  = Ok stripeCustomer →
  cust_email stripeCustomer = Some email →
  truthy_str (Customers.email body') = Some email →
  truthy_str (Customers.name body') = Some name' →
  let local := mkCustomerData (cust_id stripeCustomer) email
                 (non_null (cust_name stripeCustomer))
                 (cust_created stripeCustomer * 1000) [] in
  let w1 := (Customers.POST stripe (Ok body) w).2 in
  (Customers.POST stripe (Ok body) w).1
  = Ok (respond_ok (DCustomerCreated stripeCustomer local))
  ∧ mirror w1 = (CustomerDataStore.save local (customers w), paymentMethods w)
  ∧ Customers.POST stripe' (Ok body') w1
    = (Ok (respond_ok (DExistingCustomer local)), w1).
Proof.
  intros He Hn Hnew Hcreate Hecho He' Hn'. cbv zeta.
  set (local := mkCustomerData (cust_id stripeCustomer) email
                  (non_null (cust_name stripeCustomer))
                  (cust_created stripeCustomer * 1000) []).
  assert (Customers.POST stripe (Ok body) w
          = (Ok (respond_ok (DCustomerCreated stripeCustomer local)),
             mkWorld (CustomerDataStore.save local (customers w)) (paymentMethods w)
                     ((trace w ++ [Remote (customers_create email name
                         (("source", "stripe-testing-app")%string
                          :: Customers.metadata body))])
                      ++ [WriteFile CUSTOMERS_FILE]))) as Hrun.
  { unfold Customers.POST, try_catch. rewrite bind_run. cbn [lift]. rewrite He, Hn.
    rewrite bind_run. unfold Fs.CustomerDataStore_getByEmail. rewrite bind_run.
    cbn [Fs.customers_getAll mret M_ret]. rewrite Hnew.
    cbv zeta. rewrite bind_run, remote_run, Hcreate, Hecho.
    by rewrite bind_run, customers_save_mirror. }
  rewrite Hrun. cbn [fst snd]. split_and!; [done..|].
  unfold Customers.POST, try_catch. rewrite bind_run. cbn [lift]. rewrite He', Hn'.
  unfold Fs.CustomerDataStore_getByEmail. rewrite !bind_run.
  cbn [Fs.customers_getAll mret M_ret customers].
  by rewrite (getByEmail_save local).
Qed.

Lemma a_created_customer_is_reused_by_email_witness :
  let body := Customers.mkCreateCustomerRequest
                (Some "alice@example.com") (Some "Alice") [] in
  let body' := Customers.mkCreateCustomerRequest
                 (Some "alice@example.com") (Some "Someone Else") [] in
  let w1 := (Customers.POST Example.accepting (Ok body) emptyWorld).2 in
  customers w1 = [Example.alice]
  ∧ Customers.POST Example.accepting (Ok body') w1
    = (Ok (respond_ok (DExistingCustomer Example.alice)), w1).
Proof.
  cbv zeta.
  pose proof (a_created_customer_is_reused_by_email
                Example.accepting Example.accepting
                (Customers.mkCreateCustomerRequest
                   (Some "alice@example.com"%string) (Some "Alice"%string) [])
                (Customers.mkCreateCustomerRequest
                   (Some "alice@example.com"%string) (Some "Someone Else"%string) [])
                "alice@example.com"%string "Alice"%string "Someone Else"%string
                (Example.customerObject "cus_Alice" "alice@example.com" "Alice")
                emptyWorld eq_refl eq_refl eq_refl eq_refl eq_refl eq_refl eq_refl)
    as (_ & Hmirror & Hsecond).
  split; [|exact Hsecond].
  exact (f_equal fst Hmirror).
Defined.

(** The two [delete] methods with their file access, in full. *)
Lemma customers_delete_exact id w :
  Fs.CustomerDataStore_delete id w
  = if decide (id ∈ c_id <$> customers w)
    then (Ok true, mkWorld (filter (λ c, c_id c ≠ id) (customers w))
                           (paymentMethods w)
                           (trace w ++ [WriteFile CUSTOMERS_FILE]))
    else (Ok false, w).
Proof.
  unfold Fs.CustomerDataStore_delete. rewrite bind_run.
  cbn [Fs.customers_getAll]. rewrite customers_delete_is_remove.
  pose proof (remove_fst c_id id (customers w)) as Hfst.
  pose proof (remove_snd c_id id (customers w)) as Hsnd.
  destruct (remove c_id id (customers w)) as [l' []]; simpl in Hfst, Hsnd; subst l'.
  - by rewrite decide_True by by apply Hsnd.
  - rewrite decide_False; [done|]. intros Hin. by apply Hsnd in Hin.
Qed.

Lemma paymentMethods_delete_exact id w :
  Fs.PaymentMethodDataStore_delete id w
  = if decide (id ∈ pm_id <$> paymentMethods w)
    then (Ok true, mkWorld (customers w)
                           (filter (λ pm, pm_id pm ≠ id) (paymentMethods w))
                           (trace w ++ [WriteFile PAYMENT_METHODS_FILE]))
    else (Ok false, w).
Proof.
  unfold Fs.PaymentMethodDataStore_delete. rewrite bind_run.
  cbn [Fs.paymentMethods_getAll]. rewrite paymentMethods_delete_is_remove.
  pose proof (remove_fst pm_id id (paymentMethods w)) as Hfst.
  pose proof (remove_snd pm_id id (paymentMethods w)) as Hsnd.
  destruct (remove pm_id id (paymentMethods w)) as [l' []]; simpl in Hfst, Hsnd; subst l'.
  - by rewrite decide_True by by apply Hsnd.
  - rewrite decide_False; [done|]. intros Hin. by apply Hsnd in Hin.
Qed.

(** X9.  [DELETE /api/customers?id=...], once the provider has deleted the
    customer, drops the records with that id from the customers file and
    reports in [deleted] whether there was one; the payment-methods file is
    left as it is, so the cards saved for the customer stay in the mirror
    (only the [customer.deleted] webhook removes them). *)
Theorem api_customer_delete_keeps_the_cards stripe id customerId w :
  truthy_str id = Some customerId →
  do_customers_del stripe customerId = Ok tt →
  let after := Customers.DELETE stripe id w in
  after.1 = Ok (respond_ok (DDeleted (bool_decide (customerId ∈ c_id <$> customers w))))
  ∧ customers after.2 = filter (λ c, c_id c ≠ customerId) (customers w)
  ∧ CustomerDataStore.getById customerId (customers after.2) = None
  ∧ paymentMethods after.2 = paymentMethods w
  ∧ PaymentMethodDataStore.getByCustomerId customerId (paymentMethods after.2)
    = PaymentMethodDataStore.getByCustomerId customerId (paymentMethods w).
Proof.
  intros Hid Hdel. cbv zeta.
  unfold Customers.DELETE, try_catch. rewrite Hid, bind_run, remote_run, Hdel.
  rewrite bind_run, customers_delete_exact. cbn [customers paymentMethods].
  assert (CustomerDataStore.getById customerId
            (filter (λ c, c_id c ≠ customerId) (customers w)) = None) as Hgone.
  { unfold CustomerDataStore.getById. apply fmap_None, list_find_None.
    apply Forall_forall. by intros c (Hne & _)%list_elem_of_filter. }
  case_decide as Hin.
  - rewrite bool_decide_eq_true_2 by done. by cbn.
  - rewrite bool_decide_eq_false_2 by done. cbn.
    assert (filter (λ c, c_id c ≠ customerId) (customers w) = customers w) as Hsame.
    { apply (remove_false c_id). apply not_true_is_false.
      by rewrite remove_snd. }
    rewrite Hsame in *. done.
Qed.

Lemma api_customer_delete_keeps_the_cards_witness :
  let w := mkWorld [Example.alice; Example.bob]
                   [mkSavedPaymentMethod "pm_7" "cus_Alice" Example.card 0 (Some true)]
                   [] in
  let after := Customers.DELETE Example.accepting (Some "cus_Alice") w in
  after.1 = Ok (respond_ok (DDeleted true))
  ∧ customers after.2 = [Example.bob]
  ∧ PaymentMethodDataStore.getByCustomerId "cus_Alice" (paymentMethods after.2)
    = [mkSavedPaymentMethod "pm_7" "cus_Alice" Example.card 0 (Some true)].
Proof.
  cbv zeta.
  pose proof (api_customer_delete_keeps_the_cards Example.accepting
                (Some "cus_Alice"%string) "cus_Alice"%string
                (mkWorld [Example.alice; Example.bob]
                   [mkSavedPaymentMethod "pm_7" "cus_Alice" Example.card 0 (Some true)]
                   [])
                eq_refl eq_refl) as (Hr & Hc & _ & _ & Hp).
  split_and!; [exact Hr|exact Hc|exact Hp].
Defined.

(** X10.  A successful attach stores the card under the customer id of the
    request and under the id the provider answered with, and answers with
    that record.  Without [isDefault] the lookup of every other id is as
    before; with [isDefault], and the provider echoing the id it was asked
    to attach, the stored record is afterwards the customer's only default. *)
Theorem attach_stores_the_card_for_the_requested_customer
    stripe env body paymentMethodId customerId paymentMethod w :
  truthy_str (PaymentMethods.paymentMethodId body) = Some paymentMethodId →
  truthy_str (PaymentMethods.customerId body) = Some customerId →
  do_paymentMethods_attach stripe paymentMethodId customerId = Ok paymentMethod →
  let isDefault := default false (PaymentMethods.isDefault body) in
  let saved := savedPaymentMethodOf env paymentMethod customerId isDefault in
  let after := PaymentMethods.POST stripe env (Ok body) w in
  after.1 = Ok (respond_ok (DAttached paymentMethod saved))
  ∧ customers after.2 = customers w
  ∧ pm_customerId saved = customerId
  ∧ (isDefault = false →
       PaymentMethodDataStore.getById (spm_id paymentMethod) (paymentMethods after.2)
       = Some saved
       ∧ ∀ id, id ≠ spm_id paymentMethod →
           PaymentMethodDataStore.getById id (paymentMethods after.2)
           = PaymentMethodDataStore.getById id (paymentMethods w))
  ∧ (isDefault = true → spm_id paymentMethod = paymentMethodId →
       PaymentMethodDataStore.getById paymentMethodId (paymentMethods after.2)
       = Some saved
       ∧ defaultsOf customerId (paymentMethods after.2) = [saved]).
Proof.
  intros Hp Hc Hattach. cbv zeta.
  unfold PaymentMethods.POST, try_catch. rewrite bind_run. cbn [lift].
  rewrite Hp, Hc, bind_run, remote_run, Hattach. cbv zeta.
  rewrite bind_run, paymentMethods_save_mirror.
  destruct (default false (PaymentMethods.isDefault body)) eqn:Hb;
    unfold Fs.PaymentMethodDataStore_setAsDefault; rewrite ?bind_run;
    cbn [Fs.paymentMethods_getAll Fs.paymentMethods_write mret M_ret fst snd
         paymentMethods customers];
    (split_and!; [done..| |]); try done.
  - intros _ Hecho.
    set (saved := savedPaymentMethodOf env paymentMethod customerId true).
    assert (PaymentMethodDataStore.getById paymentMethodId
              (upsert pm_id saved (paymentMethods w)) = Some saved) as Hfind.
    { unfold PaymentMethodDataStore.getById.
      rewrite <- Hecho. change (spm_id paymentMethod) with (pm_id saved).
      by rewrite upsert_find. }
    split.
    + rewrite setAsDefault_getById, Hfind. simpl. by rewrite decide_True.
    + by rewrite (setAsDefault_exactly _ _ _ saved).
  - intros _. split.
    + unfold PaymentMethodDataStore.getById.
      set (saved := savedPaymentMethodOf env paymentMethod customerId false).
      change (spm_id paymentMethod) with (pm_id saved).
      by rewrite upsert_find.
    + intros id Hne. by apply upsert_lookup_other.
Qed.

Lemma attach_stores_the_card_for_the_requested_customer_witness :
  let after := PaymentMethods.POST Example.accepting Example.env
                 (Ok (PaymentMethods.mkAttachRequest (Some "pm_2") (Some "cus_A")
                                                     (Some true)))
                 (mkWorld [] [Example.pm_1 true] []) in
  defaultsOf "cus_A" (paymentMethods after.2) = [Example.pm_2 true].
Proof.
  cbv zeta.
  pose proof (attach_stores_the_card_for_the_requested_customer
                Example.accepting Example.env
                (PaymentMethods.mkAttachRequest (Some "pm_2"%string)
                   (Some "cus_A"%string) (Some true))
                "pm_2"%string "cus_A"%string
                (Example.paymentMethodObject "pm_2" (Some "cus_A"%string))
                (mkWorld [] [Example.pm_1 true] [])
                eq_refl eq_refl eq_refl) as (_ & _ & _ & _ & Hdefault).
  exact (proj2 (Hdefault eq_refl eq_refl)).
Defined.

(** X11.  [PATCH /api/payment-methods] looks the card up nowhere: when the
    provider accepts the update, a [set_default] for an id the mirror does
    not hold is answered with success, and it leaves the customer of the
    request with no default card at all; the records of other customers and
    the customers file are untouched. *)
Theorem set_default_of_an_unknown_card_clears_the_default
    stripe body paymentMethodId customerId w :
  truthy_str (PaymentMethods.u_paymentMethodId body) = Some paymentMethodId →
  truthy_str (PaymentMethods.u_customerId body) = Some customerId →
  PaymentMethods.action body = Some "set_default"%string →
  do_customers_update stripe customerId paymentMethodId = Ok tt →
  PaymentMethodDataStore.getById paymentMethodId (paymentMethods w) = None →
  let after := PaymentMethods.PATCH stripe (Ok body) w in
  after.1 = Ok (respond_ok (DMessage "Payment method set as default"))
  ∧ customers after.2 = customers w
  ∧ paymentMethods after.2
    = PaymentMethodDataStore.clearDefaults customerId (paymentMethods w)
  ∧ defaultsOf customerId (paymentMethods after.2) = []
  ∧ ∀ other, other ≠ customerId →
      defaultsOf other (paymentMethods after.2) = defaultsOf other (paymentMethods w).
Proof.
  intros Hp Hc Haction Hupdate Hunknown. cbv zeta.
  unfold PaymentMethods.PATCH, try_catch. rewrite bind_run. cbn [lift].
  rewrite Hp, Hc, decide_True by done.
  rewrite bind_run, remote_run, Hupdate.
  unfold Fs.PaymentMethodDataStore_setAsDefault. rewrite ?bind_run.
  cbn [Fs.paymentMethods_getAll Fs.paymentMethods_write mret M_ret fst snd
       paymentMethods customers].
  rewrite setAsDefault_unknown by done.
  split_and!; [done..| |].
  - apply defaultsOf_clear_same.
  - intros other Hne. by apply defaultsOf_clear_other.
Qed.

Lemma set_default_of_an_unknown_card_clears_the_default_witness :
  let after := PaymentMethods.PATCH Example.accepting
                 (Ok (PaymentMethods.mkUpdateRequest (Some "pm_9") (Some "cus_A")
                                                     (Some "set_default")))
                 (mkWorld [] [Example.pm_1 true; Example.pm_2 false] []) in
  after.1 = Ok (respond_ok (DMessage "Payment method set as default"))
  ∧ paymentMethods after.2 = [Example.pm_1 false; Example.pm_2 false].
Proof.
  cbv zeta.
  pose proof (set_default_of_an_unknown_card_clears_the_default
                Example.accepting
                (PaymentMethods.mkUpdateRequest (Some "pm_9"%string)
                   (Some "cus_A"%string) (Some "set_default"%string))
                "pm_9"%string "cus_A"%string
                (mkWorld [] [Example.pm_1 true; Example.pm_2 false] [])
                eq_refl eq_refl eq_refl eq_refl eq_refl) as (Hr & _ & Hp & _).
  split; [exact Hr|exact Hp].
Defined.

(** The attach route on a successful attach, as one run. *)
Lemma attach_run stripe env body paymentMethodId customerId paymentMethod w :
  truthy_str (PaymentMethods.paymentMethodId body) = Some paymentMethodId →
  truthy_str (PaymentMethods.customerId body) = Some customerId →
  do_paymentMethods_attach stripe paymentMethodId customerId = Ok paymentMethod →
  let isDefault := default false (PaymentMethods.isDefault body) in
  let saved := savedPaymentMethodOf env paymentMethod customerId isDefault in
  ∃ after,
    PaymentMethods.POST stripe env (Ok body) w
    = (Ok (respond_ok (DAttached paymentMethod saved)), after)
    ∧ paymentMethods after
      = if isDefault
        then PaymentMethodDataStore.setAsDefault paymentMethodId customerId
               (upsert pm_id saved (paymentMethods w))
        else upsert pm_id saved (paymentMethods w).
Proof.
  intros Hp Hc Hattach. cbv zeta.
  unfold PaymentMethods.POST, try_catch. rewrite bind_run. cbn [lift].
  rewrite Hp, Hc, bind_run, remote_run, Hattach. cbv zeta.
  rewrite bind_run, paymentMethods_save_mirror.
  destruct (default false (PaymentMethods.isDefault body)) eqn:Hb;
    unfold Fs.PaymentMethodDataStore_setAsDefault; rewrite ?bind_run;
    cbn [Fs.paymentMethods_getAll Fs.paymentMethods_write mret M_ret fst snd
         paymentMethods customers];
    by eexists.
Qed.

(** ** The webhook and the default flag *)

Lemma noNewDefault_preorder : PreOrder noNewDefault.
Proof.
  split; [by intros w c|].
  intros w1 w2 w3 H12 H23 c. etrans; [apply H23|apply H12].
Qed.

Lemma noNewDefault_same_mirror w w' : mirror w' = mirror w → noNewDefault w w'.
Proof. unfold mirror, noNewDefault. by intros [= _ ->]. Qed.

Lemma noNewDefault_remote {A} c (answer : Result A) :
  respects noNewDefault (remote c answer).
Proof. intros w. by apply noNewDefault_same_mirror. Qed.

Lemma noNewDefault_fetchAll stripe :
  respects noNewDefault (Customers.fetchAllStripeCustomers stripe).
Proof. intros w. by apply noNewDefault_same_mirror. Qed.

Lemma noNewDefault_customers_save c :
  respects noNewDefault (Fs.CustomerDataStore_save c).
Proof. by intros w c'. Qed.

Lemma noNewDefault_customers_delete id :
  respects noNewDefault (Fs.CustomerDataStore_delete id).
Proof.
  intros w c. rewrite customers_delete_exact. by case_decide.
Qed.

Lemma noNewDefault_save_unflagged env paymentMethod customerId :
  respects noNewDefault
    (Fs.PaymentMethodDataStore_save
       (savedPaymentMethodOf env paymentMethod customerId false)).
Proof. intros w c. simpl. apply save_defaults_le. by intros [_ ?]. Qed.

Lemma noNewDefault_paymentMethods_delete id :
  respects noNewDefault (Fs.PaymentMethodDataStore_delete id).
Proof.
  intros w c. rewrite paymentMethods_delete_exact. case_decide; [|done].
  simpl. apply filter_filter_le.
Qed.

(** X12.  Only the attach route and the set-default route can give a
    customer a default card: every other route, and every webhook delivery
    whatever its event, leaves each customer with at most as many default
    cards as before.  In particular a card mirrored by the webhook is never
    a default. *)
Theorem only_attach_and_set_default_add_a_default stripe env op w customerId :
  ¬ writesDefault op →
  (length (defaultsOf customerId (paymentMethods (step stripe env op w)))
   ≤ length (defaultsOf customerId (paymentMethods w)))%nat.
Proof.
  intros Hop. revert customerId. change (noNewDefault w (step stripe env op w)).
  pose proof noNewDefault_preorder as Hpre.
  destruct op as [request|request]; simpl.
  - assert (respects noNewDefault (route stripe env request)) as Hroute;
      [|apply Hroute].
    destruct request; try (by destruct Hop); simpl;
      unfold Customers.GET, Customers.POST, Customers.DELETE,
        PaymentMethods.GET, PaymentMethods.DELETE, PaymentIntent.POST,
        PaymentIntent.GET, PaymentIntent.PATCH, SetupIntent.POST, SetupIntent.GET,
        PaymentIntent.addCustomer, PaymentIntent.addPaymentMethod,
        Fs.CustomerDataStore_getById, Fs.CustomerDataStore_getByEmail,
        Fs.PaymentMethodDataStore_getById,
        Fs.PaymentMethodDataStore_getByCustomerId;
      repeat first
        [ respects_step
        | apply noNewDefault_remote | apply noNewDefault_fetchAll
        | apply noNewDefault_customers_save | apply noNewDefault_customers_delete
        | apply noNewDefault_paymentMethods_delete ].
  - assert (respects noNewDefault (Webhook.POST stripe env request)) as Hhook;
      [|apply Hhook].
    unfold Webhook.POST, Webhook.dispatch, Webhook.handleSetupIntentSucceeded,
      Webhook.handlePaymentIntentSucceeded, Webhook.handlePaymentIntentFailed,
      Webhook.handlePaymentMethodAttached, Webhook.handleCustomerCreated,
      Webhook.handleCustomerDeleted, Fs.PaymentMethodDataStore_getByCustomerId.
    repeat first
      [ respects_step
      | apply noNewDefault_remote
      | apply noNewDefault_customers_save | apply noNewDefault_customers_delete
      | apply noNewDefault_save_unflagged
      | apply noNewDefault_paymentMethods_delete ].
Qed.

Lemma only_attach_and_set_default_add_a_default_witness :
  let stripe := Example.sdk Example.attachedEvent Example.createSucceeds Example.attachOk in
  (length (defaultsOf "cus_A"
             (paymentMethods (step stripe Example.env Example.delivery
                                   (mkWorld [] [Example.pm_1 true] []))))
   ≤ 1)%nat.
Proof.
  cbv zeta.
  exact (only_attach_and_set_default_add_a_default
           (Example.sdk Example.attachedEvent Example.createSucceeds Example.attachOk)
           Example.env Example.delivery (mkWorld [] [Example.pm_1 true] [])
           "cus_A"%string (λ H, H)).
Defined.

(** ** The webhook: acknowledgement, round trip, cascade *)

Lemma retrieve_save_run stripe env paymentMethodId customerId w :
  try_catch
    (paymentMethod ← remote (paymentMethods_retrieve paymentMethodId)
                       (do_paymentMethods_retrieve stripe paymentMethodId);
     Fs.PaymentMethodDataStore_save
       (savedPaymentMethodOf env paymentMethod customerId false))
    (λ _, mret tt) w
  = let called := mkWorld (customers w) (paymentMethods w)
                    (trace w ++ [Remote (paymentMethods_retrieve paymentMethodId)]) in
    match do_paymentMethods_retrieve stripe paymentMethodId with
    | Ok paymentMethod =>
      (Ok tt, mkWorld (customers w)
                (PaymentMethodDataStore.save
                   (savedPaymentMethodOf env paymentMethod customerId false)
                   (paymentMethods w))
                (trace called ++ [WriteFile PAYMENT_METHODS_FILE]))
    | Throw _ => (Ok tt, called)
    end.
Proof.
  unfold try_catch. rewrite bind_run, remote_run.
  by destruct (do_paymentMethods_retrieve stripe paymentMethodId).
Qed.

Lemma dispatch_returns stripe env event w :
  (Webhook.dispatch stripe env event w).1 = Ok tt.
Proof.
  unfold Webhook.dispatch. destruct (ev_data event) as [o|o|o|o|o|o|o].
  - unfold Webhook.handleSetupIntentSucceeded. repeat case_match; try done.
    cbv zeta. rewrite retrieve_save_run. cbv zeta. by case_match.
  - unfold Webhook.handlePaymentIntentSucceeded. repeat case_match; try done.
    cbv zeta. rewrite retrieve_save_run. cbv zeta. by case_match.
  - done.
  - unfold Webhook.handlePaymentMethodAttached. by case_match.
  - done.
  - by destruct (handleCustomerDeleted_run o w) as (w' & -> & _).
  - done.
Qed.

(** X13.  With the data files writable, what the webhook answers depends on
    the signature alone: 400 when it is missing or does not verify, and 200
    [received] for every verified delivery, whatever the event is and
    whatever the provider answers while it is handled; it never answers 500.
    A [setup_intent.succeeded] whose payment method cannot be retrieved is
    acknowledged like any other, and the mirror is left as it was. *)
Theorem the_webhook_answer_depends_on_the_signature_alone stripe env request w :
  (Webhook.POST stripe env request w).1
  = Ok (match truthy_str (Webhook.stripe_signature request) with
        | None => Webhook.mkResponse 400 (Webhook.error "Missing signature")
        | Some signature =>
          match webhooks_constructEvent stripe (Webhook.text request) signature
                                        (STRIPE_WEBHOOK_SECRET env) with
          | Throw _ => Webhook.mkResponse 400 (Webhook.error "Invalid signature")
          | Ok _ => Webhook.mkResponse 200 Webhook.received
          end
        end)
  ∧ (∀ signature event setupIntent payment_method customer t,
       truthy_str (Webhook.stripe_signature request) = Some signature →
       webhooks_constructEvent stripe (Webhook.text request) signature
                               (STRIPE_WEBHOOK_SECRET env) = Ok event →
       ev_data event = setup_intent_succeeded setupIntent →
       truthy_ref (si_payment_method setupIntent) = Some payment_method →
       truthy_ref (si_customer setupIntent) = Some customer →
       do_paymentMethods_retrieve stripe (expandable_id payment_method) = Throw t →
       mirror (Webhook.POST stripe env request w).2 = mirror w).
Proof.
  split.
  - unfold Webhook.POST.
    destruct (truthy_str _) as [signature|]; [|done].
    destruct (webhooks_constructEvent _ _ _ _) as [event|t]; [|done].
    unfold try_catch. rewrite bind_run.
    pose proof (dispatch_returns stripe env event w) as Hd.
    destruct (Webhook.dispatch stripe env event w) as [[[]|t] w1]; by simpl in *.
  - intros signature event setupIntent payment_method customer t
      Hsig Hev Hdata Hpm Hcust Hthrow.
    unfold Webhook.POST. rewrite Hsig, Hev. unfold try_catch at 1.
    rewrite bind_run. unfold Webhook.dispatch. rewrite Hdata.
    unfold Webhook.handleSetupIntentSucceeded. rewrite Hpm, Hcust. cbv zeta.
    by rewrite retrieve_save_run, Hthrow.
Qed.

Lemma the_webhook_answer_depends_on_the_signature_alone_witness :
  let stripe :=
    Scenario.answering
      (Example.sdk Scenario.setupSucceeded Example.createSucceeds Example.attachOk)
      Scenario.retrieveFails (λ _, Ok ([], false)) in
  let w := mkWorld [] [Example.pm_2 true] [] in
  mirror (Webhook.POST stripe Example.env Scenario.signed w).2 = mirror w.
Proof.
  cbv zeta.
  pose proof (the_webhook_answer_depends_on_the_signature_alone
                (Scenario.answering
                   (Example.sdk Scenario.setupSucceeded Example.createSucceeds
                                Example.attachOk)
                   Scenario.retrieveFails (λ _, Ok ([], false)))
                Example.env Scenario.signed (mkWorld [] [Example.pm_2 true] []))
    as [_ Hswallowed].
  exact (Hswallowed "good"%string Scenario.setupSucceeded _ _ _ _
           eq_refl eq_refl eq_refl eq_refl eq_refl eq_refl).
Defined.

Lemma filter_ext_in {A} (P Q : A → Prop)
    `{!∀ x, Decision (P x)} `{!∀ x, Decision (Q x)} (l : list A) :
  (∀ x, x ∈ l → P x ↔ Q x) → filter P l = filter Q l.
Proof.
  induction l as [|a l IH]; intros Hext; [done|].
  rewrite !filter_cons.
  assert (filter P l = filter Q l) as ->.
  { apply IH. intros x Hx. apply Hext. by right. }
  pose proof (Hext a ltac:(left)) as Ha.
  repeat case_decide; tauto.
Qed.

Lemma unique_key_inj {A} (key : A → string) (l : list A) x y :
  uniqueIds key l → x ∈ l → y ∈ l → key x = key y → x = y.
Proof.
  unfold uniqueIds. induction l as [|a l IH]; intros Hnd Hx Hy Hk.
  - by apply elem_of_nil in Hx.
  - rewrite fmap_cons in Hnd. apply NoDup_cons in Hnd as [Hnin Hnd].
    apply elem_of_cons in Hx as [->|Hx]; apply elem_of_cons in Hy as [->|Hy];
      [done| | |by apply IH].
    + destruct Hnin. rewrite Hk. apply list_elem_of_fmap. by exists y.
    + destruct Hnin. rewrite <- Hk. apply list_elem_of_fmap. by exists x.
Qed.

(** X14.  With one record per id in the payment-methods file, the
    [customer.deleted] handler removes exactly the records of that customer:
    the customers file loses the records with the customer's id, the
    payment-methods file loses the records whose [customerId] it is, and
    every other record stays, in its place. *)
Theorem the_cascade_removes_only_the_cards_of_the_customer customer w :
  uniqueIds pm_id (paymentMethods w) →
  mirror (Webhook.handleCustomerDeleted customer w).2
  = (filter (λ c, c_id c ≠ cust_id customer) (customers w),
     filter (λ pm, pm_customerId pm ≠ cust_id customer) (paymentMethods w)).
Proof.
  intros Hunique.
  destruct (handleCustomerDeleted_run customer w) as (w' & -> & Hm).
  cbn [snd]. rewrite Hm.
  f_equal. apply filter_ext_in. intros pm Hpm. split.
  - intros Hnot Hown. apply Hnot. apply list_elem_of_fmap. exists pm. split; [done|].
    by apply list_elem_of_filter.
  - intros Hother (pm' & Hid & Hin)%list_elem_of_fmap.
    apply list_elem_of_filter in Hin as [Hown Hin].
    assert (pm = pm') as -> by by eapply unique_key_inj.
    done.
Qed.

Lemma the_cascade_removes_only_the_cards_of_the_customer_witness :
  let w := mkWorld [Example.alice]
             [Example.pm_1 true;
              mkSavedPaymentMethod "pm_7" "cus_B" Example.card 0 (Some true);
              Example.pm_2 false] [] in
  mirror (Webhook.handleCustomerDeleted
            (Example.customerObject "cus_A" "a@example.com" "A") w).2
  = ([Example.alice],
     [mkSavedPaymentMethod "pm_7" "cus_B" Example.card 0 (Some true)]).
Proof.
  cbv zeta.
  refine (the_cascade_removes_only_the_cards_of_the_customer
            (Example.customerObject "cus_A" "a@example.com" "A")
            (mkWorld [Example.alice]
               [Example.pm_1 true;
                mkSavedPaymentMethod "pm_7" "cus_B" Example.card 0 (Some true);
                Example.pm_2 false] []) _).
  unfold uniqueIds. apply (bool_decide_unpack _). vm_compute. exact I.
Defined.

Lemma filter_true {A} (P : A → Prop) `{!∀ x, Decision (P x)} (l : list A) :
  (∀ x, P x) → filter P l = l.
Proof.
  intros HP. induction l as [|a l IH]; [done|].
  rewrite filter_cons_True by done. by f_equal.
Qed.

(** X15.  A [customer.created] event followed by [customer.deleted] for the
    same customer leaves the mirror as it was, when the customer id was not
    stored before and no stored card names it; between the two, the customer
    is found by its id. *)
Theorem created_then_deleted_restores_the_mirror customer w :
  cust_id customer ∉ c_id <$> customers w →
  PaymentMethodDataStore.getByCustomerId (cust_id customer) (paymentMethods w) = [] →
  let created := (Webhook.handleCustomerCreated customer w).2 in
  (∃ stored, CustomerDataStore.getById (cust_id customer) (customers created)
             = Some stored ∧ c_id stored = cust_id customer)
  ∧ mirror (Webhook.handleCustomerDeleted customer created).2 = mirror w.
Proof.
  intros Hfresh Hnone. cbv zeta.
  unfold Webhook.handleCustomerCreated. rewrite customers_save_mirror. cbn [snd].
  set (stored := mkCustomerData _ _ _ _ _).
  split.
  - exists stored. split; [|done]. unfold CustomerDataStore.getById.
    cbn [customers].
    change (cust_id customer) with (c_id stored). by rewrite upsert_find.
  - destruct (handleCustomerDeleted_run customer
                (mkWorld (upsert c_id stored (customers w)) (paymentMethods w)
                   (trace w ++ [WriteFile CUSTOMERS_FILE]))) as (w' & -> & Hm).
    cbn [snd]. rewrite Hm.
    cbn [customers paymentMethods]. rewrite Hnone. unfold mirror. f_equal.
    + change (cust_id customer) with (c_id stored).
      rewrite <- remove_fst. by rewrite remove_upsert_fresh.
    + apply filter_true. intros pm. apply not_elem_of_nil.
Qed.

Lemma created_then_deleted_restores_the_mirror_witness :
  let w := mkWorld [Example.bob] [Example.pm_1 true] [] in
  let customer := Example.customerObject "cus_Alice" "alice@example.com" "Alice" in
  mirror (Webhook.handleCustomerDeleted customer
            (Webhook.handleCustomerCreated customer w).2).2 = mirror w.
Proof.
  cbv zeta.
  refine (proj2 (created_then_deleted_restores_the_mirror
                   (Example.customerObject "cus_Alice" "alice@example.com" "Alice")
                   (mkWorld [Example.bob] [Example.pm_1 true] []) _ eq_refl)).
  apply (bool_decide_unpack _). vm_compute. exact I.
Defined.

(** ** [POST /api/payment-intent]: what is asked of the provider *)

Lemma new_effects_app w c p k :
  new_effects w (mkWorld c p (trace w ++ k)) = k.
Proof. unfold new_effects. simpl. by rewrite drop_app_length. Qed.

Lemma new_effects_none w : new_effects w w = [].
Proof. unfold new_effects. by rewrite drop_all. Qed.

(** The customer step: no customer id, an early response, or a customer
    that the provider knows and has not deleted. *)
Lemma addCustomer_cases stripe body params w :
  (truthy_str (PaymentIntent.customerId body) = None
   ∧ PaymentIntent.addCustomer stripe body params w = (Ok (inr params), w))
  ∨ (∃ customerId,
       truthy_str (PaymentIntent.customerId body) = Some customerId
       ∧ let called := mkWorld (customers w) (paymentMethods w)
                         (trace w ++ [Remote (customers_retrieve customerId)]) in
         (∃ message status,
            PaymentIntent.addCustomer stripe body params w
            = (Ok (inl (respond_error message status)), called))
         ∨ (∃ customer,
              do_customers_retrieve stripe customerId = Ok customer
              ∧ cust_deleted customer = false
              ∧ PaymentIntent.addCustomer stripe body params w
                = (Ok (inr (PaymentIntent.with_customer customerId params)), called))).
Proof.
  unfold PaymentIntent.addCustomer.
  destruct (truthy_str (PaymentIntent.customerId body)) as [c|]; [right|by left].
  exists c. split; [done|]. cbv zeta. unfold try_catch. rewrite bind_run, remote_run.
  destruct (do_customers_retrieve stripe c) as [customer|t] eqn:Hr;
    [|left; by eexists _, _].
  destruct (cust_deleted customer) eqn:Hd; [left; by eexists _, _|].
  right. by exists customer.
Qed.

(** The payment-method step, likewise: the payment method is one the
    provider knows and, when a customer is named, one attached to it. *)
Lemma addPaymentMethod_cases stripe body params w :
  (truthy_str (PaymentIntent.paymentMethodId body) = None
   ∧ PaymentIntent.addPaymentMethod stripe body params w = (Ok (inr params), w))
  ∨ (∃ paymentMethodId,
       truthy_str (PaymentIntent.paymentMethodId body) = Some paymentMethodId
       ∧ let called := mkWorld (customers w) (paymentMethods w)
                         (trace w ++ [Remote (paymentMethods_retrieve paymentMethodId)]) in
         (∃ message status,
            PaymentIntent.addPaymentMethod stripe body params w
            = (Ok (inl (respond_error message status)), called))
         ∨ (∃ paymentMethod,
              do_paymentMethods_retrieve stripe paymentMethodId = Ok paymentMethod
              ∧ (∀ customerId,
                   truthy_str (PaymentIntent.customerId body) = Some customerId →
                   expandable_id <$> spm_customer paymentMethod = Some customerId)
              ∧ PaymentIntent.addPaymentMethod stripe body params w
                = (Ok (inr (if default false (PaymentIntent.offSession body)
                            then PaymentIntent.with_confirm_off_session
                                   (PaymentIntent.with_payment_method
                                      paymentMethodId params)
                            else PaymentIntent.with_payment_method
                                   paymentMethodId params)), called))).
Proof.
  unfold PaymentIntent.addPaymentMethod.
  destruct (truthy_str (PaymentIntent.paymentMethodId body)) as [p|]; [right|by left].
  exists p. split; [done|]. cbv zeta. rewrite bind_run. unfold try_catch.
  rewrite bind_run, remote_run.
  destruct (do_paymentMethods_retrieve stripe p) as [pm|t] eqn:Hr;
    [|left; by eexists _, _].
  destruct (truthy_str (PaymentIntent.customerId body)) as [c|] eqn:Hc.
  - case_decide as Hown; [|left; by eexists _, _].
    right. exists pm. split_and!; [done|by intros ? [= <-]|].
    by destruct (default false (PaymentIntent.offSession body)).
  - right. exists pm. split_and!; [done|done|].
    by destruct (default false (PaymentIntent.offSession body)).
Qed.

(** X16.  [paymentIntents.create] is reached only through the checks.  If
    the route called it, the amount of the request was greater than zero; a
    customer named by the request was retrieved and is not deleted;
    a payment method named by the request was retrieved and, when a customer
    is named too, is attached to that customer; [confirm] and [off_session]
    are set exactly for an off-session request with a payment method, and
    [setup_future_usage] exactly for [saveCard] with a customer. *)
Theorem a_charge_is_created_only_after_the_checks stripe body w params :
  Remote (paymentIntents_create params)
    ∈ new_effects w (PaymentIntent.POST stripe (Ok body) w).2 →
  (∃ a, PaymentIntent.amount body = Some a ∧ (0 < a)%Q)
  ∧ (∀ customerId, truthy_str (PaymentIntent.customerId body) = Some customerId →
       ∃ customer, do_customers_retrieve stripe customerId = Ok customer
                   ∧ cust_deleted customer = false)
  ∧ (∀ paymentMethodId,
       truthy_str (PaymentIntent.paymentMethodId body) = Some paymentMethodId →
       ∃ paymentMethod,
         do_paymentMethods_retrieve stripe paymentMethodId = Ok paymentMethod
         ∧ ∀ customerId,
             truthy_str (PaymentIntent.customerId body) = Some customerId →
             expandable_id <$> spm_customer paymentMethod = Some customerId)
  ∧ p_customer params = truthy_str (PaymentIntent.customerId body)
  ∧ p_payment_method params = truthy_str (PaymentIntent.paymentMethodId body)
  ∧ p_confirm params = p_off_session params
  ∧ (p_confirm params = Some true
     ↔ is_Some (truthy_str (PaymentIntent.paymentMethodId body))
       ∧ default false (PaymentIntent.offSession body) = true)
  ∧ (p_setup_future_usage params = Some "off_session"%string
     ↔ default false (PaymentIntent.saveCard body) = true
       ∧ is_Some (truthy_str (PaymentIntent.customerId body))).
Proof.
  unfold PaymentIntent.POST, try_catch. rewrite bind_run. cbn [lift].
  destruct (PaymentIntent.amount body) as [a|] eqn:Ha.
  2:{ cbn. rewrite new_effects_none. by intros ?%elem_of_nil. }
  destruct (Qeq_bool a 0 || Qle_bool a 0) eqn:Hrej.
  { cbn. rewrite new_effects_none. by intros ?%elem_of_nil. }
  assert (0 < a)%Q as Hpos.
  { apply Qnot_le_lt. rewrite <- amount_rejected_iff. by rewrite Hrej. }
  cbv zeta. rewrite bind_run.
  set (params0 := mkParams _ _ _ _ _ _ _ _ _).
  destruct (addCustomer_cases stripe body params0 w)
    as [[Hc ->]|(c & Hc & [(m & s & ->)|(customer & Hcust & Hdel & ->)])];
    cbv zeta; cbn [fst snd mret M_ret].
  2:{ rewrite new_effects_app. intros Hin. apply elem_of_cons in Hin as [?|Hin%elem_of_nil]; by simplify_eq. }
  all: rewrite bind_run;
    match goal with |- context [PaymentIntent.addPaymentMethod _ _ ?p ?w0] =>
      destruct (addPaymentMethod_cases stripe body p w0)
        as [[Hp ->]|(p' & Hp & [(m & s & ->)|(pm & Hpm & Hown & ->)])]
    end; cbv zeta; cbn [fst snd mret M_ret customers paymentMethods trace];
    rewrite ?bind_run, ?remote_run;
    try match goal with |- context [do_paymentIntents_create _ ?p] =>
      destruct (do_paymentIntents_create stripe p) end;
    cbn [fst snd mret M_ret customers paymentMethods trace];
    rewrite <- ?app_assoc, ?new_effects_app; cbn [app];
    intros Hin;
    repeat (apply elem_of_cons in Hin as [Hin|Hin]; [try discriminate Hin|]);
    try (by apply elem_of_nil in Hin).
  all: injection Hin as ->; rewrite ?Hc, ?Hp in *;
    destruct (default false (PaymentIntent.saveCard body)) eqn:Hs;
    destruct (default false (PaymentIntent.offSession body)) eqn:Ho;
    subst params0; cbn -[Math_round].
  all: refine (conj _ (conj _ (conj _ (conj _ (conj _ (conj _ (conj _ _))))))).
  all: first
    [by exists a
    |done
    |by intros ? [= <-]; eauto
    |split; [first [done|intros _; split; [by eexists|done]]
            |first [done|intros [[? [=]] ?]; done]]
    |split; [first [done|intros _; split; [done|by eexists]]
            |first [done|intros [? [? [=]]]; done]]].
Qed.

Lemma a_charge_is_created_only_after_the_checks_witness :
  (∃ customer, do_customers_retrieve Example.accepting "cus_A" = Ok customer
               ∧ cust_deleted customer = false)
  ∧ p_confirm Example.chargeParams = Some true.
Proof.
  pose proof (a_charge_is_created_only_after_the_checks
                Example.accepting Example.chargeRequest emptyWorld
                Example.chargeParams) as Hchecks.
  destruct Hchecks as (_ & Hcustomer & _ & _ & _ & _ & Hconfirm & _).
  - vm_compute. repeat constructor.
  - split; [exact (Hcustomer "cus_A"%string eq_refl)|].
    apply Hconfirm. split; [by eexists|reflexivity].
Defined.

(** ** [GET /api/customers]: the pages of the listing *)

(** The loop: it only lists, it ends after at most as many calls as
    customers are missing to 1000, a call that throws ends it without a
    result, and what it returns extends what it held by whole pages. *)
Lemma fetchPages_spec stripe allStripeCustomers startingAfter :
  let pages := Customers.fetchPages stripe allStripeCustomers startingAfter in
  Forall isList pages.1
  ∧ head pages.1 = Some (customers_list (truthy_str startingAfter))
  ∧ (length pages.1 ≤ 1 `max` (1000 - length allStripeCustomers))%nat
  ∧ (∀ cursor t, customers_list cursor ∈ pages.1 →
       do_customers_list stripe cursor = Throw t → ∃ t', pages.2 = Throw t')
  ∧ (∀ n l,
       (∀ cursor data more,
          do_customers_list stripe cursor = Ok (data, more) → (length data ≤ n)%nat) →
       pages.2 = Ok l →
       (length l ≤ (length allStripeCustomers `max` 999) + n)%nat).
Proof.
  cbv zeta.
  funelim (Customers.fetchPages stripe allStripeCustomers startingAfter);
    cbn [fst snd].
  - split_and!; [by repeat constructor|done|simpl; lia| |done].
    intros cursor t' _ _. by eexists.
  - destruct H as (Hlist & Hhead & Hlen & Hthrow & Hbound).
    clear Heq Heqcall. destruct a as (_ & Hdata & Hroom).
    rewrite length_app in *.
    split_and!.
    + by constructor.
    + done.
    + simpl. lia.
    + intros cursor t [Hc|Hin]%elem_of_cons Ht; [|by eapply Hthrow].
      injection Hc as ->. congruence.
    + intros n l Hn Hl. specialize (Hbound n l Hn Hl). lia.
  - split_and!; [by repeat constructor|done|simpl; lia| |].
    + intros cursor t [Hc|Hin%elem_of_nil]%elem_of_cons Ht; [|done].
      injection Hc as ->. congruence.
    + intros bound l Hn [= <-]. rewrite length_app.
      match goal with H : do_customers_list _ _ = Ok _ |- _ =>
        specialize (Hn _ _ _ H) end. lia.
Qed.

(** X17.  The listing branch of [GET /api/customers] always answers with
    success: the local customers as stored, the provider's customers and
    their count.  It makes between one and a thousand calls, all of them
    [customers.list] and the first without a cursor, and writes nothing.  If
    any of these calls throws, the provider's customers are reported as the
    empty list, the pages fetched before included.  The limit of 1000 is
    checked after a page is added: with pages of at most 100 customers the
    list holds at most 1099. *)
Theorem the_customer_listing_always_answers stripe id w :
  truthy_str id = None →
  let after := Customers.GET stripe id w in
  ∃ stripeCustomers calls,
    after.1 = Ok (respond_ok (DCustomerLists (customers w) stripeCustomers
                                             (length stripeCustomers)))
    ∧ mirror after.2 = mirror w
    ∧ new_effects w after.2 = Remote <$> calls
    ∧ Forall isList calls
    ∧ head calls = Some (customers_list None)
    ∧ (1 ≤ length calls ≤ 1000)%nat
    ∧ (∀ cursor t, customers_list cursor ∈ calls →
         do_customers_list stripe cursor = Throw t → stripeCustomers = [])
    ∧ ((∀ cursor data more,
          do_customers_list stripe cursor = Ok (data, more) →
          (length data ≤ 100)%nat) →
       (length stripeCustomers ≤ 1099)%nat).
Proof.
  intros Hid. cbv zeta. unfold Customers.GET, try_catch. rewrite Hid, !bind_run.
  cbn [Fs.customers_getAll]. unfold Customers.fetchAllStripeCustomers. cbv zeta.
  destruct (fetchPages_spec stripe [] None)
    as (Hlist & Hhead & Hlen & Hthrow & Hbound).
  cbn [fst snd mret M_ret].
  eexists _, (Customers.fetchPages stripe [] None).1.
  split_and!; [reflexivity|done|apply new_effects_app|done|done| | | |].
  - destruct (Customers.fetchPages stripe [] None).1; [done|simpl; lia].
  - simpl in Hlen. lia.
  - intros cursor t Hin Ht. destruct (Hthrow cursor t Hin Ht) as [t' ->]. done.
  - intros Hpage.
    destruct (Customers.fetchPages stripe [] None).2 as [l|t] eqn:Hl; [|simpl; lia].
    specialize (Hbound 100%nat l Hpage eq_refl). simpl in Hbound. lia.
Qed.

Lemma the_customer_listing_always_answers_witness :
  (Customers.GET (Scenario.answering Example.accepting Scenario.retrieveFails
                                     Scenario.secondPageFails)
                 None emptyWorld).1
  = Ok (respond_ok (DCustomerLists [] [] 0)).
Proof.
  destruct (the_customer_listing_always_answers
              (Scenario.answering Example.accepting Scenario.retrieveFails
                                  Scenario.secondPageFails)
              None emptyWorld eq_refl)
    as (stripeCustomers & calls & Hanswer & _ & Hcalls & _ & _ & _ & Hthrow & _).
  vm_compute in Hcalls.
  destruct calls as [|c1 [|c2 [|c3 calls]]]; try discriminate Hcalls.
  injection Hcalls as <- <-.
  rewrite Hanswer.
  rewrite (Hthrow (Some "cus_2"%string) (ThrownError "Rate limit exceeded")
             ltac:(right; left) eq_refl).
  reflexivity.
Defined.

(** ** The off-session form and the route it posts to *)

Lemma Qle_bool_rejected (q : Q) :
  Qeq_bool q 0 || Qle_bool q 0 = Qle_bool q 0.
Proof.
  destruct (Qle_bool q 0) eqn:Hle; [apply orb_true_r|].
  rewrite orb_false_r. apply not_true_is_false. intros Heq%Qeq_bool_iff.
  apply not_true_iff_false in Hle. apply Hle. apply Qle_bool_iff.
  rewrite Heq. apply Qle_refl.
Qed.

(** X18.  The retry of the off-session form skips the checks of the submit.
    A submit that posts a request posts the one the retry posts, and the
    route accepts its amount unless the amount field parsed to [Infinity],
    which is sent as [null].  When the submit stops at the amount check (the
    field is not a number, or not greater than zero), the retry still posts,
    and the route answers it 400 [Valid amount is required] without calling
    the provider. *)
Theorem the_retry_skips_the_checks_of_the_submit parseFloat st :
  (∀ request,
     OffSessionPayment.handleSubmit parseFloat st = Some request →
     OffSessionPayment.handleRetryPayment parseFloat st = Some request
     ∧ PaymentIntent.offSession request = Some true
     ∧ (PaymentIntent.amount_rejected (PaymentIntent.amount request) = true
        ↔ parseFloat (OffSessionPayment.amount st) = Infinity false))
  ∧ (∀ request stripe w,
       OffSessionPayment.handleSubmit parseFloat st = None →
       OffSessionPayment.handleRetryPayment parseFloat st = Some request →
       is_Some (truthy_str (OffSessionPayment.customerId st)) →
       PaymentIntent.POST stripe (Ok request) w
       = (Ok (respond_error "Valid amount is required" 400), w)).
Proof.
  unfold OffSessionPayment.handleSubmit, OffSessionPayment.handleRetryPayment,
    OffSessionPayment.paymentIntentRequest.
  split.
  - intros request.
    destruct (truthy_str (OffSessionPayment.customerId st)); [|done].
    destruct (truthy_str (Some (OffSessionPayment.selectedPaymentMethodId st)));
      [|done].
    destruct (parseFloat (OffSessionPayment.amount st)) as [q| |[]]; try done.
    + destruct (Qle_bool q 0) eqn:Hle; [done|]. intros [= <-].
      split_and!; [done..|]. simpl. rewrite Qle_bool_rejected, Hle. done.
    + intros [= <-]. done.
  - intros request stripe w Hsubmit Hretry [c Hc]. revert Hsubmit Hretry. rewrite Hc.
    destruct (truthy_str (Some (OffSessionPayment.selectedPaymentMethodId st)));
      [|done].
    unfold PaymentIntent.POST, try_catch.
    destruct (parseFloat (OffSessionPayment.amount st)) as [q| |[]]; try done;
      try (by intros _ [= <-]).
    destruct (Qle_bool q 0) eqn:Hle; [|done]. intros _ [= <-].
    rewrite bind_run. cbn [lift PaymentIntent.amount JSON_number].
    by rewrite Qle_bool_rejected, Hle.
Qed.

Lemma the_retry_skips_the_checks_of_the_submit_witness :
  let empty := OffSessionPayment.mkState (Some "cus_A") "pm_1" EmptyString "usd" in
  OffSessionPayment.handleSubmit Example.parseFloat empty = None
  ∧ ∃ request,
      OffSessionPayment.handleRetryPayment Example.parseFloat empty = Some request
      ∧ PaymentIntent.POST Example.accepting (Ok request) emptyWorld
        = (Ok (respond_error "Valid amount is required" 400), emptyWorld).
Proof.
  cbv zeta. split; [reflexivity|].
  eexists. split; [reflexivity|].
  refine (proj2 (the_retry_skips_the_checks_of_the_submit Example.parseFloat
                   (OffSessionPayment.mkState (Some "cus_A"%string) "pm_1"%string
                                              EmptyString "usd"%string))
                _ Example.accepting emptyWorld eq_refl eq_refl _).
  by eexists.
Defined.

(** ** The test data *)

(** X19.  [initializeTestData] fills only an empty customers file: a file
    that holds a customer is left as it is and nothing is written; an empty
    one receives the three test customers, with three writes.  It never
    touches the payment-methods file, and a second call, at whatever time,
    changes nothing. *)
Theorem initializeTestData_fills_only_an_empty_file now1 now2 now3 w :
  let after := (TestData.initializeTestData now1 now2 now3 w).2 in
  (customers w ≠ [] → after = w)
  ∧ (customers w = [] →
       customers after = TestData.generateTestCustomers now1 now2 now3
       ∧ new_effects w after = [WriteFile CUSTOMERS_FILE; WriteFile CUSTOMERS_FILE;
                                WriteFile CUSTOMERS_FILE])
  ∧ paymentMethods after = paymentMethods w
  ∧ ∀ later1 later2 later3,
      (TestData.initializeTestData later1 later2 later3 after).2 = after.
Proof.
  cbv zeta. destruct w as [stored cards past].
  unfold TestData.initializeTestData. rewrite bind_run.
  cbn [Fs.customers_getAll customers paymentMethods].
  destruct stored as [|c l].
  - rewrite decide_True by done.
    assert (Fs.forEach Fs.CustomerDataStore_save
              (TestData.generateTestCustomers now1 now2 now3) (mkWorld [] cards past)
            = (Ok tt, mkWorld (TestData.generateTestCustomers now1 now2 now3) cards
                        (past ++ [WriteFile CUSTOMERS_FILE; WriteFile CUSTOMERS_FILE;
                                  WriteFile CUSTOMERS_FILE]))) as ->.
    { unfold TestData.generateTestCustomers. cbn [Fs.forEach].
      rewrite !bind_run, customers_save_mirror.
      rewrite !bind_run, customers_save_mirror.
      rewrite !bind_run, customers_save_mirror.
      cbn [mret M_ret customers paymentMethods trace].
      rewrite <- !app_assoc. reflexivity. }
    cbn [snd customers paymentMethods].
    split_and!; [done| |done|].
    + intros _. split; [reflexivity|].
      apply (new_effects_app (mkWorld [] cards past)).
    + intros later1 later2 later3. rewrite bind_run.
      cbn [Fs.customers_getAll customers]. by rewrite decide_False.
  - rewrite decide_False by done. cbn [mret M_ret snd customers paymentMethods].
    split_and!; [done|done|done|].
    intros later1 later2 later3. rewrite bind_run.
    cbn [Fs.customers_getAll customers]. by rewrite decide_False.
Qed.

Lemma initializeTestData_fills_only_an_empty_file_witness :
  (TestData.initializeTestData 3 4 5
     (TestData.initializeTestData 0 1 2 emptyWorld).2).2
  = (TestData.initializeTestData 0 1 2 emptyWorld).2
  ∧ customers (TestData.initializeTestData 0 1 2 emptyWorld).2
    = TestData.generateTestCustomers 0 1 2.
Proof.
  pose proof (initializeTestData_fills_only_an_empty_file 0 1 2 emptyWorld)
    as (_ & Hfill & _ & Hagain).
  split; [exact (Hagain 3 4 5)|exact (proj1 (Hfill eq_refl))].
Defined.

(** ** [GET /api/payment-methods?customerId=...] *)

(** X20.  When the listing of a customer's cards succeeds, the customer was
    retrieved from the provider first, every card of the provider in the
    answer is attached to that customer (the others in the provider's list
    are dropped), and the local records in the answer are exactly the stored
    records of that customer.  When the customer cannot be retrieved the
    answer is 404 and the cards are not listed. *)
Theorem listed_cards_belong_to_the_customer stripe customerId id customer w :
  truthy_str id = None →
  truthy_str customerId = Some customer →
  let after := PaymentMethods.GET stripe customerId id w in
  (∀ response, after.1 = Ok response → success (body response) = true →
     ∃ cards localData listed,
       data (body response) = Some (DPaymentMethods cards localData)
       ∧ (∃ found, do_customers_retrieve stripe customer = Ok found)
       ∧ do_paymentMethods_list stripe customer = Ok listed
       ∧ cards = filter (λ pm, PaymentMethods.pmCustomerId pm = Some customer) listed
       ∧ Forall (λ pm, PaymentMethods.pmCustomerId pm = Some customer) cards
       ∧ localData
         = PaymentMethodDataStore.getByCustomerId customer (paymentMethods w)
       ∧ Forall (λ pm, pm_customerId pm = customer) localData)
  ∧ (∀ t, do_customers_retrieve stripe customer = Throw t →
       (∃ message, after.1 = Ok (respond_error message 404))
       ∧ new_effects w after.2 = [Remote (customers_retrieve customer)]).
Proof.
  intros Hid Hc. cbv zeta.
  unfold PaymentMethods.GET. rewrite Hid, Hc. unfold try_catch at 1.
  rewrite bind_run. unfold try_catch at 1. rewrite bind_run, remote_run.
  destruct (do_customers_retrieve stripe customer) as [found|t] eqn:Hfound;
    cbn [mret M_ret fst snd].
  - split; [|done]. rewrite bind_run, remote_run.
    destruct (do_paymentMethods_list stripe customer) as [listed|t] eqn:Hlisted.
    + cbv zeta. unfold Fs.PaymentMethodDataStore_getByCustomerId.
      rewrite !bind_run. cbn [Fs.paymentMethods_getAll mret M_ret fst snd paymentMethods].
      intros response [= <-] _. eexists _, _, listed.
      split_and!; [reflexivity|by eexists|done|done| |done|].
      * apply Forall_forall. by intros pm [? _]%list_elem_of_filter.
      * apply Forall_forall. by intros pm [? _]%list_elem_of_filter.
    + cbn. intros response [= <-]. done.
  - split; [by intros response [= <-]|].
    intros t' _. split; [by eexists|]. apply new_effects_app.
Qed.

Lemma listed_cards_belong_to_the_customer_witness :
  ∃ cards localData,
    data (body (respond_ok (DPaymentMethods [] [Example.pm_1 true])))
    = Some (DPaymentMethods cards localData)
    ∧ Forall (λ pm, pm_customerId pm = "cus_A"%string) localData.
Proof.
  destruct (proj1 (listed_cards_belong_to_the_customer Example.accepting
                     (Some "cus_A"%string) None "cus_A"%string
                     (mkWorld [] [Example.pm_1 true;
                                  mkSavedPaymentMethod "pm_7" "cus_B" Example.card 0
                                                       (Some true)] [])
                     eq_refl eq_refl)
              (respond_ok (DPaymentMethods [] [Example.pm_1 true])) eq_refl eq_refl)
    as (cards & localData & listed & Hdata & _ & _ & _ & _ & _ & Hlocal).
  by exists cards, localData.
Defined.

(** ** The off-session form on the answer of the route *)

(** What [POST /api/payment-intent] answers: a failure, or the response
    built from the intent that [create] returned. *)
Lemma payment_intent_POST_answers stripe json w response :
  (PaymentIntent.POST stripe json w).1 = Ok response →
  (∃ message status, response = respond_error message status)
  ∨ (∃ params paymentIntent,
       Remote (paymentIntents_create params)
         ∈ new_effects w (PaymentIntent.POST stripe json w).2
       ∧ do_paymentIntents_create stripe params = Ok paymentIntent
       ∧ response = respond_ok (DPaymentIntentResponse
                                  (PaymentIntent.createdResponse paymentIntent))).
Proof.
  unfold PaymentIntent.POST, try_catch. rewrite bind_run.
  destruct json as [body|t]; cbn [lift]; [|intros [= <-]; left; by eexists _, _].
  destruct (PaymentIntent.amount body) as [a|];
    [|intros [= <-]; left; by eexists _, _].
  destruct (Qeq_bool a 0 || Qle_bool a 0); [intros [= <-]; left; by eexists _, _|].
  cbv zeta. rewrite bind_run.
  set (params0 := mkParams _ _ _ _ _ _ _ _ _).
  destruct (addCustomer_cases stripe body params0 w)
    as [[Hc ->]|(c & Hc & [(m & s & ->)|(customer & Hcust & Hdel & ->)])];
    cbv zeta; cbn [fst snd mret M_ret].
  2:{ intros [= <-]. left. by eexists _, _. }
  all: rewrite bind_run;
    match goal with |- context [PaymentIntent.addPaymentMethod _ _ ?p ?w0] =>
      destruct (addPaymentMethod_cases stripe body p w0)
        as [[Hp ->]|(p' & Hp & [(m & s & ->)|(pm & Hpm & Hown & ->)])]
    end; cbv zeta; cbn [fst snd mret M_ret customers paymentMethods trace];
    try (intros [= <-]; left; by eexists _, _);
    rewrite ?bind_run, ?remote_run;
    match goal with |- context [do_paymentIntents_create _ ?p] =>
      destruct (do_paymentIntents_create stripe p) as [paymentIntent|t] eqn:Hcreate
    end;
    cbn [fst snd mret M_ret customers paymentMethods trace];
    intros [= <-]; first [left; by eexists _, _|right].
  all: eexists _, paymentIntent; split_and!; [|exact Hcreate|done].
  all: rewrite <- ?app_assoc, new_effects_app; cbn [app];
    repeat first [apply list_elem_of_here | apply list_elem_of_further].
Qed.

(** X21.  What the off-session form shows for an answer of
    [POST /api/payment-intent].  It always leaves the loading state with
    either an error or a success message.  [onSuccess] is called only with the
    id of an intent that [paymentIntents.create] returned as [succeeded].
    An authentication link is shown in two cases only: the provider returned
    an intent that [requires_action], and the link names that intent; or the
    route answered a failure with status 402, and then the link names
    [pi_mock], because a failure envelope carries no intent id. *)
Theorem the_form_shows_what_the_route_answered
    origin customerId formatted stripe json w response :
  (PaymentIntent.POST stripe json w).1 = Ok response →
  let shown := OffSessionAnswer.shows origin customerId formatted response in
  let created params paymentIntent :=
    Remote (paymentIntents_create params)
      ∈ new_effects w (PaymentIntent.POST stripe json w).2
    ∧ do_paymentIntents_create stripe params = Ok paymentIntent in
  OffSessionAnswer.fs_loading (OffSessionAnswer.formState shown) = false
  ∧ (is_Some (OffSessionAnswer.fs_error (OffSessionAnswer.formState shown))
     ↔ OffSessionAnswer.fs_success (OffSessionAnswer.formState shown) = None)
  ∧ (∀ id, OffSessionAnswer.onSuccess shown = Some id →
       ∃ params paymentIntent,
         created params paymentIntent
         ∧ pi_status paymentIntent = "succeeded"%string
         ∧ pi_id paymentIntent = id)
  ∧ (∀ url, OffSessionAnswer.authenticateUrl shown = Some url →
       (success (body response) = false ∧ status response = 402
        ∧ url = (origin +:+ "/authenticate?payment_intent=pi_mock")%string)
       ∨ (∃ params paymentIntent,
            created params paymentIntent
            ∧ pi_status paymentIntent = "requires_action"%string
            ∧ url = (origin +:+ "/authenticate?payment_intent="
                     +:+ pi_id paymentIntent)%string)).
Proof.
  intros Hanswer. cbv zeta.
  destruct (payment_intent_POST_answers _ _ _ _ Hanswer)
    as [(message & code & ->)|(params & paymentIntent & Hin & Hcreate & ->)].
  - unfold OffSessionAnswer.shows, OffSessionAnswer.handleSubmit,
      OffSessionAnswer.paymentIntentData, OffSessionAnswer.failed.
    cbn [respond_error status body success data error]. cbv zeta.
    destruct (includes _ "No such customer"); cbn.
    { split_and!; [done|by split; [|eexists]|done|done]. }
    destruct (bool_decide (code = 402)) eqn:Hcode; cbn.
    2:{ split_and!; [done|by split; [|eexists]|done|done]. }
    destruct (includes _ "authentication_required"); cbn.
    2:{ split_and!; [done|by split; [|eexists]|done|done]. }
    apply bool_decide_eq_true in Hcode.
    split_and!; [done|split; [by intros [? [=]]|done]|done|].
    intros url [= <-]. by left.
  - unfold OffSessionAnswer.shows, OffSessionAnswer.handleSubmit,
      OffSessionAnswer.paymentIntentData, OffSessionAnswer.failed,
      PaymentIntent.createdResponse.
    cbn [respond_ok status body success data error]. cbv zeta.
    destruct (decide (pi_status paymentIntent = "requires_action"%string)) as [Hra|Hra].
    + cbn [pir_status requiresAction paymentIntentId]. rewrite Hra.
      rewrite decide_False by done. rewrite decide_True by done. cbn.
      split_and!; [done|split; [by intros [? [=]]|done]|done|].
      intros url [= <-]. right. by exists params, paymentIntent.
    + destruct (decide (pi_status paymentIntent = "requires_payment_method"%string
                        ∨ pi_status paymentIntent = "requires_confirmation"%string));
        cbn [pir_status requiresAction paymentIntentId].
      all: destruct (decide (pi_status paymentIntent = "succeeded"%string)) as [Hs|Hs].
      all: try (rewrite decide_False by (intros [? _]; done)).
      all: cbn.
      all: split_and!;
        [done
        |first [by split; [|eexists] | split; [by intros [? [=]]|done]]
        |first [done | intros id [= <-]; by exists params, paymentIntent]
        |done].
Qed.

Lemma the_form_shows_what_the_route_answered_witness :
  let stripe := Example.sdk Example.noEvent
                  (Example.declines "authentication_required: complete 3DS")
                  Example.attachOk in
  ∃ response,
    (PaymentIntent.POST stripe (Ok Example.chargeRequest) emptyWorld).1 = Ok response
    ∧ OffSessionAnswer.authenticateUrl
        (OffSessionAnswer.shows "https://shop.test" "cus_A" "$25.00" response)
      = Some "https://shop.test/authenticate?payment_intent=pi_mock"%string
    ∧ success (body response) = false ∧ status response = 402.
Proof.
  cbv zeta. eexists. split; [reflexivity|]. split; [reflexivity|].
  pose proof (the_form_shows_what_the_route_answered
                "https://shop.test"%string "cus_A"%string "$25.00"%string
                (Example.sdk Example.noEvent
                   (Example.declines "authentication_required: complete 3DS")
                   Example.attachOk)
                (Ok Example.chargeRequest) emptyWorld _ eq_refl)
    as (_ & _ & _ & Hurl).
  destruct (Hurl "https://shop.test/authenticate?payment_intent=pi_mock"%string
                 eq_refl)
    as [(Hfailure & Hstatus & _)|(params & paymentIntent & [_ Hcreated] & _)].
  - exact (conj Hfailure Hstatus).
  - discriminate Hcreated.
Defined.

(** ** Requests rejected as invalid *)

Ltac step :=
  rewrite ?bind_run, ?remote_run;
  cbn [lift mret M_ret fst snd Fs.customers_getAll Fs.paymentMethods_getAll].

(** The answer settles the case: an early [400] leaves the world, any other
    answer is not a [400]. *)
Ltac settle :=
  intros [= <-] ?; first [reflexivity | discriminate].

(** X22.  A request that is answered with status 400 has changed nothing:
    both files and the trace are as before, so the provider was not called
    at all.  The one exception is [POST /api/payment-intent], which answers
    400 also when the payment method is not attached to the customer: it has
    then only retrieved the customer and the payment method. *)
Theorem a_rejected_request_changes_nothing stripe env request w response :
  (route stripe env request w).1 = Ok response →
  status response = 400 →
  match request with
  | payment_intent_POST _ => onlyCalls isLookup w (route stripe env request w).2
  | _ => (route stripe env request w).2 = w
  end.
Proof.
  destruct request; cbn [route].
  - (* GET /api/customers *)
    unfold Customers.GET, try_catch, Customers.fetchAllStripeCustomers,
      Fs.CustomerDataStore_getById.
    destruct (truthy_str id) as [customerId|]; step.
    + destruct (do_customers_retrieve stripe customerId); step; settle.
    + settle.
  - (* POST /api/customers *)
    unfold Customers.POST, try_catch, Fs.CustomerDataStore_getByEmail.
    destruct json as [body|t]; step; [|settle].
    destruct (truthy_str (Customers.email body)) as [email|]; [|settle].
    destruct (truthy_str (Customers.name body)) as [name|]; [|settle].
    step. destruct (CustomerDataStore.getByEmail email (customers w)); [settle|].
    cbv zeta. step. destruct (do_customers_create stripe email name _); step; settle.
  - (* DELETE /api/customers *)
    unfold Customers.DELETE, try_catch.
    destruct (truthy_str id) as [customerId|]; [|settle]. step.
    destruct (do_customers_del stripe customerId); step; [|settle].
    rewrite customers_delete_exact. case_decide; settle.
  - (* GET /api/payment-methods *)
    unfold PaymentMethods.GET, try_catch, Fs.PaymentMethodDataStore_getById,
      Fs.PaymentMethodDataStore_getByCustomerId.
    destruct (truthy_str id) as [paymentMethodId|]; step.
    + destruct (do_paymentMethods_retrieve stripe paymentMethodId); step; settle.
    + destruct (truthy_str customerId) as [customer|]; step; [|settle].
      destruct (do_customers_retrieve stripe customer); step; [|settle].
      destruct (do_paymentMethods_list stripe customer); step; settle.
  - (* POST /api/payment-methods *)
    unfold PaymentMethods.POST, try_catch.
    destruct json as [body|t]; step; [|settle].
    destruct (truthy_str (PaymentMethods.paymentMethodId body)) as [p|]; [|settle].
    destruct (truthy_str (PaymentMethods.customerId body)) as [c|]; [|settle].
    step. destruct (do_paymentMethods_attach stripe p c); step; [|settle].
    cbv zeta. rewrite paymentMethods_save_mirror. step.
    destruct (default false (PaymentMethods.isDefault body)); step; settle.
  - (* PATCH /api/payment-methods *)
    unfold PaymentMethods.PATCH, try_catch.
    destruct json as [body|t]; step; [|settle].
    destruct (truthy_str (PaymentMethods.u_paymentMethodId body)) as [p|]; [|settle].
    destruct (truthy_str (PaymentMethods.u_customerId body)) as [c|]; [|settle].
    case_decide; [|settle]. step.
    destruct (do_customers_update stripe c p); step; settle.
  - (* DELETE /api/payment-methods *)
    unfold PaymentMethods.DELETE, try_catch.
    destruct (truthy_str id) as [paymentMethodId|]; [|settle]. step.
    destruct (do_paymentMethods_detach stripe paymentMethodId); step; [|settle].
    rewrite paymentMethods_delete_exact. case_decide; settle.
  - (* POST /api/payment-intent *)
    intros Hanswer Hstatus.
    pose proof (payment_intent_POST_calls stripe json w)
      as (Hc & Hp & calls & Ht & Hcalls).
    split_and!; [done..|]. exists calls. split; [done|].
    apply Forall_forall. intros call Hin.
    rewrite Forall_forall in Hcalls. specialize (Hcalls call Hin).
    destruct call; try done. exfalso.
    assert (Remote (paymentIntents_create params)
              ∈ new_effects w (PaymentIntent.POST stripe json w).2) as Hcreated.
    { unfold new_effects. rewrite Ht, drop_app_length.
      apply list_elem_of_fmap. by eexists. }
    rewrite (payment_intent_POST_after_create _ _ _ _ Hcreated) in Hanswer.
    destruct (do_paymentIntents_create stripe params) as [?|[message|]];
      injection Hanswer as <-; try discriminate Hstatus.
    simpl in Hstatus.
    destruct (includes message "authentication_required"); [done|].
    by destruct (includes message "card_declined").
  - (* GET /api/payment-intent *)
    unfold PaymentIntent.GET, try_catch.
    destruct (truthy_str id) as [paymentIntentId|]; [|settle]. step.
    destruct (do_paymentIntents_retrieve stripe paymentIntentId); step; settle.
  - (* PATCH /api/payment-intent *)
    unfold PaymentIntent.PATCH, try_catch.
    destruct (truthy_str id) as [paymentIntentId|]; [|settle].
    case_decide; step.
    + destruct (do_paymentIntents_confirm stripe paymentIntentId); step; settle.
    + case_decide; step; [|settle].
      destruct (do_paymentIntents_cancel stripe paymentIntentId); step; settle.
  - (* POST /api/setup-intent *)
    unfold SetupIntent.POST, try_catch.
    destruct json as [body|t]; step; [|settle].
    destruct (truthy_str (SetupIntent.customerId body)) as [c|]; [|settle].
    step. destruct (do_customers_retrieve stripe c); step; [|settle].
    cbv zeta. step. destruct (do_setupIntents_create stripe c _); step; settle.
  - (* GET /api/setup-intent *)
    unfold SetupIntent.GET, try_catch.
    destruct (truthy_str id) as [setupIntentId|]; [|settle]. step.
    destruct (do_setupIntents_retrieve stripe setupIntentId); step; settle.
Qed.

Lemma a_rejected_request_changes_nothing_witness :
  let w := run Example.attachTwo emptyWorld in
  let request :=
    payment_methods_PATCH
      (Ok (PaymentMethods.mkUpdateRequest (Some "pm_2") (Some "cus_A")
                                          (Some "make_default"))) in
  (route Example.accepting Example.env request w).2 = w.
Proof.
  cbv zeta.
  exact (a_rejected_request_changes_nothing Example.accepting Example.env
           (payment_methods_PATCH
              (Ok (PaymentMethods.mkUpdateRequest (Some "pm_2"%string)
                     (Some "cus_A"%string) (Some "make_default"%string))))
           (run Example.attachTwo emptyWorld) _ eq_refl eq_refl).
Defined.

(** ** The customer selector on the answer of the route *)

(** X23.  What the customer selector shows for an answer of
    [POST /api/customers].  A customer is selected only when the provider
    created one in this request, and it is then the record just stored.
    For an email that is already stored the route answers with success and
    the stored record, which has no [local] field: the selector then shows
    [Network error while creating customer] and selects nobody. *)
Theorem the_selector_fails_on_a_known_email stripe json w response reloadError :
  (Customers.POST stripe json w).1 = Ok response →
  let after := (Customers.POST stripe json w).2 in
  let shown := CustomerDropdown.shows reloadError response in
  (∀ id, CustomerDropdown.selected shown = Some id →
     ∃ email name metadata stripeCustomer,
       new_effects w after
       = [Remote (customers_create email name metadata); WriteFile CUSTOMERS_FILE]
       ∧ do_customers_create stripe email name metadata = Ok stripeCustomer
       ∧ cust_id stripeCustomer = id
       ∧ c_id <$> CustomerDataStore.getById id (customers after) = Some id)
  ∧ (∀ request email name existingCustomer,
       json = Ok request →
       truthy_str (Customers.email request) = Some email →
       truthy_str (Customers.name request) = Some name →
       CustomerDataStore.getByEmail email (customers w) = Some existingCustomer →
       response = respond_ok (DExistingCustomer existingCustomer)
       ∧ after = w
       ∧ shown = CustomerDropdown.mkShown
                   (Some "Network error while creating customer"%string) None None).
Proof.
  cbv zeta. unfold Customers.POST, try_catch, Fs.CustomerDataStore_getByEmail.
  destruct json as [request|t]; step.
  2:{ intros [= <-]. split; [done|]. by intros ? ? ? ? [=]. }
  destruct (truthy_str (Customers.email request)) as [email|] eqn:He.
  2:{ intros [= <-]. split; [done|]. intros ? ? ? ? [= <-] ? ? ?. congruence. }
  destruct (truthy_str (Customers.name request)) as [name|] eqn:Hn.
  2:{ intros [= <-]. split; [done|]. intros ? ? ? ? [= <-] ? ? ?. congruence. }
  step.
  destruct (CustomerDataStore.getByEmail email (customers w)) as [known|] eqn:Hknown.
  { intros [= <-]. split; [done|].
    intros ? ? ? ? [= <-] He' _ Hknown'. rewrite He in He'. injection He' as <-.
    rewrite Hknown in Hknown'. by injection Hknown' as <-. }
  cbv zeta. step.
  destruct (do_customers_create stripe email name _) as [stripeCustomer|t] eqn:Hcreate;
    step.
  2:{ intros [= <-]. split; [done|].
      intros ? ? ? ? [= <-] He' _ Hknown'. congruence. }
  rewrite customers_save_mirror. step. intros [= <-].
  split; [|intros ? ? ? ? [= <-] He' _ Hknown'; congruence].
  intros id [= <-]. eexists email, name, _, stripeCustomer.
  split_and!; [|exact Hcreate|done|].
  - cbn [customers paymentMethods trace]. rewrite <- app_assoc.
    apply new_effects_app.
  - cbn [customers]. unfold CustomerDataStore.getById.
    set (local := mkCustomerData _ _ _ _ _).
    change (cust_id stripeCustomer) with (c_id local).
    by rewrite upsert_find.
Qed.

Lemma the_selector_fails_on_a_known_email_witness :
  let w := run Example.createAlice emptyWorld in
  let request := Customers.mkCreateCustomerRequest
                   (Some "alice@example.com") (Some "Alice") [] in
  ∃ response,
    (Customers.POST Example.accepting (Ok request) w).1 = Ok response
    ∧ success (body response) = true
    ∧ CustomerDropdown.shows None response
      = CustomerDropdown.mkShown
          (Some "Network error while creating customer"%string) None None.
Proof.
  cbv zeta. eexists. split; [reflexivity|]. split; [reflexivity|].
  pose proof (the_selector_fails_on_a_known_email Example.accepting
                (Ok (Customers.mkCreateCustomerRequest
                       (Some "alice@example.com"%string) (Some "Alice"%string) []))
                (run Example.createAlice emptyWorld) _ None eq_refl) as [_ Hknown].
  exact (proj2 (proj2 (Hknown _ "alice@example.com"%string "Alice"%string
                         Example.alice eq_refl eq_refl eq_refl eq_refl))).
Defined.

(** ** The list of the customer selector *)

Lemma insertByCreated_perm x l : CustomerDropdown.insertByCreated x l ≡ₚ x :: l.
Proof.
  induction l as [|y l IH]; [done|]. simpl. case_decide; [|done].
  rewrite IH. apply Permutation_swap.
Qed.

Lemma sortByCreated_perm l : CustomerDropdown.sortByCreated l ≡ₚ l.
Proof.
  induction l as [|x l IH]; [done|]. simpl.
  by rewrite insertByCreated_perm, IH.
Qed.

Lemma insertByCreated_sorted x l :
  newestFirst l → newestFirst (CustomerDropdown.insertByCreated x l).
Proof.
  induction l as [|y l IH]; simpl; [done|]. intros [Hy Hl].
  case_decide as Hlt; simpl.
  - split; [|by apply IH]. rewrite insertByCreated_perm. constructor; [lia|done].
  - split_and!; [|done..]. constructor; [lia|].
    eapply Forall_impl; [exact Hy|]. simpl. intros z Hz. lia.
Qed.

Lemma sortByCreated_sorted l : newestFirst (CustomerDropdown.sortByCreated l).
Proof.
  induction l as [|x l IH]; simpl; [done|by apply insertByCreated_sorted].
Qed.

(** The [forEach] pushes nothing when every customer of the provider is
    already in the list. *)
Lemma merged_forEach_adds_nothing (localCustomers : list CustomerData)
    (stripeCustomers : list StripeCustomer) (merged : list CustomerData) :
  (∀ sc, sc ∈ stripeCustomers → cust_id sc ∈ c_id <$> merged) →
  foldl (λ mergedCustomers localCustomer,
           if bool_decide (Exists (λ sc, cust_id sc = c_id localCustomer)
                                  stripeCustomers)
              && negb (bool_decide
                         (is_Some (list_find (λ c, c_id c = c_id localCustomer)
                                             mergedCustomers)))
           then (mergedCustomers ++ [localCustomer])%list
           else mergedCustomers)
        merged localCustomers
  = merged.
Proof.
  intros Hall. induction localCustomers as [|c l IH]; [done|]. simpl.
  destruct (bool_decide (Exists _ stripeCustomers)) eqn:Hex; [|done].
  apply bool_decide_eq_true, Exists_exists in Hex as (sc & Hsc & Hid).
  rewrite bool_decide_eq_true_2; [done|].
  apply Hall in Hsc. rewrite Hid in Hsc.
  apply list_elem_of_fmap in Hsc as (c' & Hc' & Hin).
  destruct (list_find (λ c0, c_id c0 = c_id c) merged) eqn:Hfind; [by eexists|].
  apply list_find_None in Hfind. rewrite Forall_forall in Hfind.
  by destruct (Hfind c' Hin).
Qed.

(** X24.  The customer selector lists the customers of the provider and
    nobody else: the ids shown are the ids the provider listed, one entry
    each, newest first.  An entry is a stored record, or, for an id that is
    not stored, the record built from the provider's customer.  A customer
    that is stored in the local file but not listed by the provider is not
    shown; the loop over the local customers never adds an entry. *)
Theorem the_selector_lists_the_customers_of_the_provider
    (localCustomers : list CustomerData) (stripeCustomers : list StripeCustomer) :
  let shown := CustomerDropdown.loadCustomers localCustomers stripeCustomers in
  c_id <$> shown ≡ₚ cust_id <$> stripeCustomers
  ∧ newestFirst shown
  ∧ (∀ c, c ∈ shown →
       c ∈ localCustomers
       ∨ ∃ sc, sc ∈ stripeCustomers ∧ c = CustomerDropdown.fromStripe sc
               ∧ cust_id sc ∉ c_id <$> localCustomers)
  ∧ (∀ c, c ∈ localCustomers → c_id c ∉ cust_id <$> stripeCustomers → c ∉ shown).
Proof.
  cbv zeta. unfold CustomerDropdown.loadCustomers, CustomerDropdown.mergedCustomers.
  cbv zeta.
  set (pick := λ stripeCustomer : StripeCustomer,
         match CustomerDropdown.localCustomersMap_get localCustomers
                 (cust_id stripeCustomer) with
         | Some localData => localData
         | None => CustomerDropdown.fromStripe stripeCustomer
         end).
  assert (∀ sc, c_id (pick sc) = cust_id sc) as Hpick.
  { intros sc. unfold pick, CustomerDropdown.localCustomersMap_get.
    destruct (list_find _ (reverse localCustomers)) as [[i c]|] eqn:Hfind; [|done].
    by apply list_find_Some in Hfind as (_ & ? & _). }
  assert (c_id <$> (pick <$> stripeCustomers) = cust_id <$> stripeCustomers) as Hids.
  { rewrite <- list_fmap_compose. apply list_fmap_ext. intros i sc _. apply Hpick. }
  rewrite merged_forEach_adds_nothing.
  2:{ intros sc Hsc. rewrite Hids. by apply list_elem_of_fmap_2. }
  assert (c_id <$> CustomerDropdown.sortByCreated (pick <$> stripeCustomers)
          ≡ₚ cust_id <$> stripeCustomers) as Hshown.
  { by rewrite sortByCreated_perm, Hids. }
  split_and!; [done|apply sortByCreated_sorted| |].
  - intros c. rewrite sortByCreated_perm.
    intros (sc & -> & Hsc)%list_elem_of_fmap.
    unfold pick, CustomerDropdown.localCustomersMap_get.
    destruct (list_find _ (reverse localCustomers)) as [[i c]|] eqn:Hfind.
    + left. apply list_find_Some in Hfind as (Hi & _). simpl.
      apply elem_of_reverse. by eapply list_elem_of_lookup_2.
    + right. exists sc. split_and!; [done..|].
      apply list_find_None in Hfind. rewrite Forall_forall in Hfind.
      intros (c & Hid & Hin)%list_elem_of_fmap.
      apply (Hfind c); [by apply elem_of_reverse|done].
  - intros c _ Hid Hin. apply Hid. rewrite <- Hshown.
    by apply list_elem_of_fmap_2.
Qed.

Lemma the_selector_lists_the_customers_of_the_provider_witness :
  Example.bob ∉ CustomerDropdown.loadCustomers
                  [Example.alice; Example.bob]
                  [Example.customerObject "cus_Alice" "alice@example.com" "Alice";
                   Example.customerObject "cus_9" "nine@example.com" "Nine"].
Proof.
  refine (proj2 (proj2 (proj2 (the_selector_lists_the_customers_of_the_provider
                                 [Example.alice; Example.bob]
                                 [Example.customerObject "cus_Alice" "alice@example.com" "Alice";
                                  Example.customerObject "cus_9" "nine@example.com" "Nine"])))
                Example.bob _ _).
  - right. left.
  - apply (bool_decide_unpack _). vm_compute. exact I.
Defined.

(** ** The attach route and the webhook it triggers *)

Lemma filter_insert_drop {A} (P : A → Prop) `{!∀ x, Decision (P x)}
    (l : list A) i x y :
  l !! i = Some y → P y → ¬ P x → filter P l = [y] → filter P (<[i := x]> l) = [].
Proof.
  revert i. induction l as [|a l IH]; intros [|i] Hi Hy Hx Hone; try done.
  - injection Hi as ->. change (<[0%nat := x]> (y :: l)) with (x :: l).
    rewrite filter_cons_True in Hone by done. injection Hone as Hone.
    by rewrite filter_cons_False.
  - change (<[S i := x]> (a :: l)) with (a :: <[i := x]> l).
    simpl in Hi. rewrite filter_cons in Hone. rewrite filter_cons.
    case_decide as Ha.
    + injection Hone as -> Hnil.
      assert (y ∈ filter P l) as Hin
        by (apply list_elem_of_filter; split; [done|by eapply list_elem_of_lookup_2]).
      rewrite Hnil in Hin. by apply elem_of_nil in Hin.
    + by eapply IH.
Qed.

(** X25.  The [payment_method.attached] event undoes the default that the
    attach route set.  After a successful attach with [isDefault] (the
    provider echoing the id), the card is the customer's only default; when
    the event for that card and customer is then handled, the card is stored
    again without the flag and the customer has no default card. *)
Theorem the_attached_event_drops_the_default_of_the_attach
    stripe env body paymentMethodId customerId paymentMethod event w :
  truthy_str (PaymentMethods.paymentMethodId body) = Some paymentMethodId →
  truthy_str (PaymentMethods.customerId body) = Some customerId →
  PaymentMethods.isDefault body = Some true →
  do_paymentMethods_attach stripe paymentMethodId customerId = Ok paymentMethod →
  spm_id paymentMethod = paymentMethodId →
  spm_id event = paymentMethodId →
  expandable_id <$> truthy_ref (spm_customer event) = Some customerId →
  let attached := (PaymentMethods.POST stripe env (Ok body) w).2 in
  let delivered := (Webhook.handlePaymentMethodAttached env event attached).2 in
  defaultsOf customerId (paymentMethods attached)
  = [savedPaymentMethodOf env paymentMethod customerId true]
  ∧ PaymentMethodDataStore.getById paymentMethodId (paymentMethods delivered)
    = Some (savedPaymentMethodOf env event customerId false)
  ∧ defaultsOf customerId (paymentMethods delivered) = [].
Proof.
  intros Hp Hc Hdefault Hattach Hecho Hevent Hcustomer. cbv zeta.
  pose proof (attach_run stripe env body paymentMethodId customerId paymentMethod w
                Hp Hc Hattach) as Hrun.
  cbv zeta in Hrun. rewrite Hdefault in Hrun. cbn [default from_option id] in Hrun.
  destruct Hrun as (attached & -> & Hcards). cbn [snd].
  set (saved := savedPaymentMethodOf env paymentMethod customerId true) in *.
  assert (PaymentMethodDataStore.getById paymentMethodId
            (upsert pm_id saved (paymentMethods w)) = Some saved) as Hfind.
  { unfold PaymentMethodDataStore.getById.
    rewrite <- Hecho. change (spm_id paymentMethod) with (pm_id saved).
    by rewrite upsert_find. }
  assert (defaultsOf customerId (paymentMethods attached) = [saved]) as Hone.
  { rewrite Hcards. by rewrite (setAsDefault_exactly _ _ _ saved). }
  assert (PaymentMethodDataStore.getById paymentMethodId (paymentMethods attached)
          = Some saved) as Hstored.
  { rewrite Hcards, setAsDefault_getById, Hfind. simpl. by rewrite decide_True. }
  split; [done|].
  unfold Webhook.handlePaymentMethodAttached.
  destruct (truthy_ref (spm_customer event)) as [customer|]; [|done].
  injection Hcustomer as Hcustomer. cbv zeta. rewrite Hcustomer.
  rewrite paymentMethods_save_mirror. cbn [snd paymentMethods].
  set (again := savedPaymentMethodOf env event customerId false).
  split.
  - unfold PaymentMethodDataStore.getById.
    rewrite <- Hevent. change (spm_id event) with (pm_id again).
    by rewrite upsert_find.
  - unfold PaymentMethodDataStore.getById in Hstored. unfold upsert.
    change (pm_id again) with (spm_id event). rewrite Hevent.
    destruct (list_find (λ pm, pm_id pm = paymentMethodId) (paymentMethods attached))
      as [[i t]|] eqn:Hi; [|done].
    injection Hstored as ->.
    apply list_find_Some in Hi as (Hi & _).
    unfold defaultsOf in *. eapply filter_insert_drop; [exact Hi|done| |exact Hone].
    by intros [_ ?].
Qed.

Lemma the_attached_event_drops_the_default_of_the_attach_witness :
  let body := PaymentMethods.mkAttachRequest (Some "pm_1") (Some "cus_A") (Some true) in
  let card := Example.paymentMethodObject "pm_1" (Some "cus_A") in
  let attached := (PaymentMethods.POST Example.accepting Example.env (Ok body)
                                       emptyWorld).2 in
  paymentMethods attached = [Example.pm_1 true]
  ∧ defaultsOf "cus_A"
      (paymentMethods (Webhook.handlePaymentMethodAttached Example.env card attached).2)
    = [].
Proof.
  cbv zeta. split; [reflexivity|].
  exact (proj2 (proj2 (the_attached_event_drops_the_default_of_the_attach
                         Example.accepting Example.env
                         (PaymentMethods.mkAttachRequest (Some "pm_1"%string)
                            (Some "cus_A"%string) (Some true))
                         "pm_1"%string "cus_A"%string
                         (Example.paymentMethodObject "pm_1" (Some "cus_A"%string))
                         (Example.paymentMethodObject "pm_1" (Some "cus_A"%string))
                         emptyWorld
                         eq_refl eq_refl eq_refl eq_refl eq_refl eq_refl eq_refl))).
Defined.

(** ** [POST /api/setup-intent] *)

(** X26.  A SetupIntent is created only for a customer the provider could
    retrieve, under the customer id of the request and with the usage
    [off_session] unless the request names another; the route does not look
    at whether the retrieved customer is deleted.  When the customer cannot
    be retrieved the answer is 404 [Customer not found], whatever the
    provider's error says, and nothing is created. *)
Theorem a_setup_intent_is_created_only_for_a_retrieved_customer
    stripe body w customer usage :
  let after := SetupIntent.POST stripe (Ok body) w in
  (Remote (setupIntents_create customer usage) ∈ new_effects w after.2 →
     truthy_str (SetupIntent.customerId body) = Some customer
     ∧ usage = or_str (SetupIntent.usage body) "off_session"
     ∧ ∃ found, do_customers_retrieve stripe customer = Ok found)
  ∧ (∀ t, truthy_str (SetupIntent.customerId body) = Some customer →
       do_customers_retrieve stripe customer = Throw t →
       after.1 = Ok (respond_error "Customer not found" 404)
       ∧ new_effects w after.2 = [Remote (customers_retrieve customer)]).
Proof.
  cbv zeta. unfold SetupIntent.POST, try_catch. step.
  destruct (truthy_str (SetupIntent.customerId body)) as [c|] eqn:Hc.
  2:{ cbn [fst snd mret M_ret]. rewrite new_effects_none.
      split; [by intros ?%elem_of_nil|done]. }
  step. destruct (do_customers_retrieve stripe c) as [found|t] eqn:Hfound; step.
  - split; [|intros t [= <-]; congruence]. cbv zeta. step.
    destruct (do_setupIntents_create stripe c _); step.
    all: cbn [customers paymentMethods trace];
      rewrite <- app_assoc, new_effects_app; cbn [app].
    all: intros Hin;
      repeat (apply elem_of_cons in Hin as [Hin|Hin]; [try discriminate Hin|]);
      try (by apply elem_of_nil in Hin).
    all: injection Hin as <- <-; split_and!; [done..|by exists found].
  - rewrite new_effects_app. split.
    + intros Hin. apply elem_of_cons in Hin as [Hin|Hin%elem_of_nil]; done.
    + by intros t' [= <-] _.
Qed.

Lemma a_setup_intent_is_created_only_for_a_retrieved_customer_witness :
  ∃ found, do_customers_retrieve Example.accepting "cus_A" = Ok found.
Proof.
  refine (proj2 (proj2 (proj1 (a_setup_intent_is_created_only_for_a_retrieved_customer
                                 Example.accepting
                                 (SetupIntent.mkSetupIntentRequest
                                    (Some "cus_A"%string) None)
                                 emptyWorld "cus_A"%string "off_session"%string)
                              _))).
  vm_compute. repeat constructor.
Defined.

(** ** The [paymentMethods] field of a customer record *)

Lemma keepsNoCardsListed_preorder : PreOrder keepsNoCardsListed.
Proof. split; unfold keepsNoCardsListed; [intros w|intros w1 w2 w3]; tauto. Qed.

Lemma keepsNoCardsListed_same_customers {A} (m : M A) :
  (∀ w, customers (m w).2 = customers w) → respects keepsNoCardsListed m.
Proof. intros Hsame w. unfold keepsNoCardsListed, noCardsListed. by rewrite Hsame. Qed.

Lemma keepsNoCardsListed_customers_save id email name created :
  respects keepsNoCardsListed
    (Fs.CustomerDataStore_save (mkCustomerData id email name created [])).
Proof.
  intros w Hw. unfold noCardsListed in *. simpl.
  rewrite customers_save_is_upsert. unfold upsert.
  destruct (list_find _ (customers w)) as [[i y]|].
  - apply Forall_insert; done.
  - apply Forall_app. split; [done|]. by constructor.
Qed.

Lemma keepsNoCardsListed_customers_delete id :
  respects keepsNoCardsListed (Fs.CustomerDataStore_delete id).
Proof.
  intros w Hw. rewrite customers_delete_exact. case_decide; [|done].
  unfold noCardsListed in *. simpl. rewrite Forall_forall in *.
  intros c [_ Hc]%list_elem_of_filter. by apply Hw.
Qed.

Lemma keepsNoCardsListed_paymentMethods_delete id :
  respects keepsNoCardsListed (Fs.PaymentMethodDataStore_delete id).
Proof.
  apply keepsNoCardsListed_same_customers. intros w.
  rewrite paymentMethods_delete_exact. by case_decide.
Qed.

(** X27.  The [paymentMethods] array of a stored customer is never filled:
    every route and every webhook delivery that stores a customer stores it
    with an empty array, and nothing ever updates it, so from the empty
    files on, whatever is done, every stored customer lists no cards (the
    cards are only in the payment-methods file).  The test data have the
    field empty as well. *)
Theorem the_customer_record_never_lists_cards ops w now1 now2 now3 :
  noCardsListed w →
  noCardsListed (run ops w)
  ∧ noCardsListed (TestData.initializeTestData now1 now2 now3 (run ops w)).2.
Proof.
  pose proof keepsNoCardsListed_preorder as Hpre.
  assert (∀ stripe env op, respects keepsNoCardsListed
            (λ w, (Ok tt, step stripe env op w))) as Hstep.
  { intros stripe env [request|request] w0; cbn [snd step].
    - assert (respects keepsNoCardsListed (route stripe env request)) as Hroute;
        [|apply Hroute].
      destruct request; simpl;
        unfold Customers.GET, Customers.POST, Customers.DELETE,
          PaymentMethods.GET, PaymentMethods.POST, PaymentMethods.PATCH,
          PaymentMethods.DELETE, PaymentIntent.POST, PaymentIntent.GET,
          PaymentIntent.PATCH, SetupIntent.POST, SetupIntent.GET,
          PaymentIntent.addCustomer, PaymentIntent.addPaymentMethod,
          Fs.CustomerDataStore_getById, Fs.CustomerDataStore_getByEmail,
          Fs.PaymentMethodDataStore_getById,
          Fs.PaymentMethodDataStore_getByCustomerId;
        repeat first
          [ respects_step
          | apply keepsNoCardsListed_customers_save
          | apply keepsNoCardsListed_customers_delete
          | apply keepsNoCardsListed_paymentMethods_delete
          | by apply keepsNoCardsListed_same_customers ].
    - assert (respects keepsNoCardsListed (Webhook.POST stripe env request)) as Hhook;
        [|apply Hhook].
      unfold Webhook.POST, Webhook.dispatch, Webhook.handleSetupIntentSucceeded,
        Webhook.handlePaymentIntentSucceeded, Webhook.handlePaymentIntentFailed,
        Webhook.handlePaymentMethodAttached, Webhook.handleCustomerCreated,
        Webhook.handleCustomerDeleted, Fs.PaymentMethodDataStore_getByCustomerId.
      repeat first
        [ respects_step
        | apply keepsNoCardsListed_customers_save
        | apply keepsNoCardsListed_customers_delete
        | apply keepsNoCardsListed_paymentMethods_delete
        | by apply keepsNoCardsListed_same_customers ]. }
  intros Hw.
  assert (noCardsListed (run ops w)) as Hrun.
  { induction ops as [|[[stripe env] op] ops IH] using rev_ind; [done|].
    rewrite run_snoc. simpl. by apply (Hstep stripe env op (run ops w)). }
  split; [done|].
  assert (respects keepsNoCardsListed (TestData.initializeTestData now1 now2 now3))
    as Hinit; [|by apply Hinit].
  unfold TestData.initializeTestData, TestData.generateTestCustomers.
  cbn [Fs.forEach].
  repeat first
    [ respects_step
    | apply keepsNoCardsListed_customers_save
    | by apply keepsNoCardsListed_same_customers ].
Qed.

Lemma the_customer_record_never_lists_cards_witness :
  noCardsListed (run (Example.createAlice ++ Example.attachTwo) emptyWorld).
Proof.
  refine (proj1 (the_customer_record_never_lists_cards
                   (Example.createAlice ++ Example.attachTwo) emptyWorld 0 0 0 _)).
  constructor.
Defined.

(** ** [DELETE /api/payment-methods?id=...] *)

(** X28.  [DELETE /api/payment-methods], once the provider has detached the
    card, drops the records with that id from the payment-methods file and
    reports in [deleted] whether there was one; every other record stays as
    it is, in its place.  No other card is made the default in its stead: a
    customer whose default card is removed is left without a default. *)
Theorem api_card_delete_promotes_no_other_card stripe id paymentMethodId w :
  truthy_str id = Some paymentMethodId →
  do_paymentMethods_detach stripe paymentMethodId = Ok tt →
  let after := PaymentMethods.DELETE stripe id w in
  after.1 = Ok (respond_ok (DDeleted (bool_decide
                                        (paymentMethodId ∈ pm_id <$> paymentMethods w))))
  ∧ customers after.2 = customers w
  ∧ paymentMethods after.2
    = filter (λ pm, pm_id pm ≠ paymentMethodId) (paymentMethods w)
  ∧ PaymentMethodDataStore.getById paymentMethodId (paymentMethods after.2) = None
  ∧ (∀ customerId,
       defaultsOf customerId (paymentMethods after.2)
       = filter (λ pm, pm_id pm ≠ paymentMethodId)
                (defaultsOf customerId (paymentMethods w)))
  ∧ (∀ customerId card,
       defaultsOf customerId (paymentMethods w) = [card] →
       pm_id card = paymentMethodId →
       defaultsOf customerId (paymentMethods after.2) = []).
Proof.
  intros Hid Hdetach. cbv zeta.
  unfold PaymentMethods.DELETE, try_catch. rewrite Hid. step. rewrite Hdetach. step.
  rewrite paymentMethods_delete_exact. cbn [customers paymentMethods].
  assert (∀ customerId (l : list SavedPaymentMethod),
            defaultsOf customerId (filter (λ pm, pm_id pm ≠ paymentMethodId) l)
            = filter (λ pm, pm_id pm ≠ paymentMethodId) (defaultsOf customerId l))
    as Hcommute.
  { intros c l. unfold defaultsOf. induction l as [|a l IH]; [done|].
    rewrite !filter_cons. repeat (case_decide; rewrite ?filter_cons); by f_equal. }
  assert (PaymentMethodDataStore.getById paymentMethodId
            (filter (λ pm, pm_id pm ≠ paymentMethodId) (paymentMethods w)) = None)
    as Hgone.
  { unfold PaymentMethodDataStore.getById. apply fmap_None, list_find_None.
    apply Forall_forall. by intros pm (Hne & _)%list_elem_of_filter. }
  assert (paymentMethodId ∉ pm_id <$> paymentMethods w →
          filter (λ pm, pm_id pm ≠ paymentMethodId) (paymentMethods w)
          = paymentMethods w) as Hsame.
  { intros Hnot. apply (remove_false pm_id). apply not_true_is_false.
    by rewrite remove_snd. }
  case_decide as Hin; cbn [fst snd mret M_ret customers paymentMethods].
  - rewrite bool_decide_eq_true_2 by done.
    split_and!; [done..| |]; [by intros c|].
    intros c card Hone Hcard. by rewrite Hcommute, Hone, filter_cons_False by auto.
  - rewrite bool_decide_eq_false_2 by done. specialize (Hsame Hin).
    split_and!; [done|done|done| | |].
    + by rewrite <- Hsame.
    + intros c. by rewrite <- Hcommute, Hsame.
    + intros c card Hone Hcard. rewrite <- Hsame.
      by rewrite Hcommute, Hone, filter_cons_False by auto.
Qed.

Lemma api_card_delete_promotes_no_other_card_witness :
  let w := mkWorld [] [Example.pm_1 true; Example.pm_2 false] [] in
  let after := PaymentMethods.DELETE Example.accepting (Some "pm_1") w in
  paymentMethods after.2 = [Example.pm_2 false]
  ∧ defaultsOf "cus_A" (paymentMethods after.2) = [].
Proof.
  cbv zeta.
  pose proof (api_card_delete_promotes_no_other_card Example.accepting
                (Some "pm_1"%string) "pm_1"%string
                (mkWorld [] [Example.pm_1 true; Example.pm_2 false] [])
                eq_refl eq_refl) as (_ & _ & Hcards & _ & _ & Hdefault).
  split; [exact Hcards|].
  exact (Hdefault "cus_A"%string (Example.pm_1 true) eq_refl eq_refl).
Defined.
